(** * dnf-ai-analyzer: the package analyzer and its report pipeline

    A shallow embedding of [analyzer/package_analyzer.py], of the five
    collectors under [analyzer/modules/] and of the start-up and entry
    point of [reporter/ai_package_reporter.py], followed by the properties
    of the aggregation and persistence pipeline.

    Conventions of the embedding:
    - a Python [str] is the list of its Unicode code points ([pystr]);
      dictionary keys, which are all literals in the sources, are Rocq
      strings;
    - a Python [dict] is an insertion-ordered association list with unique
      keys, the order in which [json.dump] writes the entries;
    - functions that can raise return a [result]; [except Exception] lets
      [KeyboardInterrupt] and [SystemExit] through, a bare [except] does
      not;
    - external commands, the clock, the environment and the file system are
      fields of a [world];
    - console output ([print]) of the analyzer is not modelled. *)

From Stdlib Require Import ZArith Lia Sorted.
From stdpp Require Import base option list strings gmap.

#[local] Set Warnings "-register-all".
#[local] Open Scope Z_scope.

(** ** Python values *)

Module Py.

(** A [str]: the sequence of its code points. *)
Abbreviation pystr := (list Z).

(** An ASCII literal of the sources as a [str]. *)
Definition lit (s : string) : pystr :=
  (fun a => Z.of_N (Ascii.N_of_ascii a)) <$> String.list_ascii_of_string s.

Definition pystr_eqb (a b : pystr) : bool := bool_decide (a = b).

(** The code points [str.isspace], [str.strip] and [str.split] treat as
    white space. *)
Definition isspace (c : Z) : bool :=
  ((9 <=? c) && (c <=? 13)) || ((28 <=? c) && (c <=? 32))
  || (c =? 133) || (c =? 160) || (c =? 5760)
  || ((8192 <=? c) && (c <=? 8202))
  || (c =? 8232) || (c =? 8233) || (c =? 8239) || (c =? 8287) || (c =? 12288).

Fixpoint lstrip (s : pystr) : pystr :=
  match s with
  | c :: s' => if isspace c then lstrip s' else s
  | [] => []
  end.

Definition rstrip (s : pystr) : pystr := reverse (lstrip (reverse s)).

(** [s.strip()] *)
Definition strip (s : pystr) : pystr := rstrip (lstrip s).

(** [s.split(sep)] for a one-character separator: never empty. *)
Fixpoint split_on (sep : Z) (s : pystr) : list pystr :=
  match s with
  | [] => [[]]
  | c :: s' =>
      if c =? sep then [] :: split_on sep s'
      else match split_on sep s' with
           | w :: ws => (c :: w) :: ws
           | [] => [[c]]
           end
  end.

(** [s.split()]: the maximal runs of non-space characters. *)
Fixpoint split_ws (s : pystr) : list pystr :=
  match s with
  | [] => []
  | c :: s' =>
      if isspace c then split_ws s'
      else match s' with
           | [] => [[c]]
           | d :: _ =>
               if isspace d then [c] :: split_ws s'
               else match split_ws s' with
                    | w :: ws => (c :: w) :: ws
                    | [] => [[c]]
                    end
           end
  end.

(** [s.split(sep, 1)]: one or two pieces. *)
Fixpoint split1 (sep : Z) (s : pystr) : list pystr :=
  match s with
  | [] => [[]]
  | c :: s' =>
      if c =? sep then [[]; s']
      else match split1 sep s' with
           | w :: ws => (c :: w) :: ws
           | [] => [[c]]
           end
  end.

(** [s.rsplit(sep, 1)[0]]: what stands before the last separator, the whole
    string when there is none. *)
Definition rsplit1_head (sep : Z) (s : pystr) : pystr :=
  match split1 sep (reverse s) with
  | [_; before] => reverse before
  | _ => s
  end.

(** [s.startswith(p)] *)
Fixpoint startswith (p s : pystr) : bool :=
  match p, s with
  | [], _ => true
  | a :: p', b :: s' => (a =? b) && startswith p' s'
  | _ :: _, [] => false
  end.

(** [sub in s] *)
Fixpoint contains (sub s : pystr) : bool :=
  startswith sub s ||
  match s with
  | [] => false
  | _ :: s' => contains sub s'
  end.

(** The lowest index at which [sub] occurs in [s]. *)
Fixpoint find_index (sub s : pystr) : option nat :=
  if startswith sub s then Some 0%nat
  else match s with
       | [] => None
       | _ :: s' => S <$> find_index sub s'
       end.

(** [s.find(sub, start)] for a non-empty [sub]: [-1] when there is no
    occurrence at or after [start]. *)
Definition find (sub s : pystr) (start : nat) : Z :=
  match find_index sub (drop start s) with
  | Some i => Z.of_nat (start + i)
  | None => -1
  end.

(** The highest index at which [sub] occurs in [s]. *)
Fixpoint rfind_index (sub s : pystr) : option nat :=
  match s with
  | [] => if startswith sub [] then Some 0%nat else None
  | _ :: s' =>
      match rfind_index sub s' with
      | Some i => Some (S i)
      | None => if startswith sub s then Some 0%nat else None
      end
  end.

(** [s.rfind(sub)] *)
Definition rfind (sub s : pystr) : Z :=
  match rfind_index sub s with
  | Some i => Z.of_nat i
  | None => -1
  end.

(** [s[a:b]] for indices that are not negative. *)
Definition slice (s : pystr) (a b : Z) : pystr :=
  take (Z.to_nat (b - a)) (drop (Z.to_nat a) s).

(** [s.lower()] on the ASCII letters; the case mappings of other scripts
    are outside the model. *)
Definition lower_char (c : Z) : Z :=
  if (65 <=? c) && (c <=? 90) then c + 32 else c.
Definition lower (s : pystr) : pystr := lower_char <$> s.

(** [s.replace(c, '')] for a one-character [c]. *)
Definition remove_char (c : Z) (s : pystr) : pystr :=
  filter (fun x => x ≠ c) s.

(** Decimal digits of a natural number, most significant first. *)
Fixpoint digits_fuel (fuel : nat) (n : Z) (acc : pystr) : pystr :=
  match fuel with
  | O => acc
  | S fuel' =>
      let acc' := (48 + n mod 10) :: acc in
      if n <? 10 then acc' else digits_fuel fuel' (n / 10) acc'
  end.

Definition digits (n : Z) : pystr :=
  digits_fuel (S (Z.to_nat (Z.log2 n))) n [].

(** [str(n)] for an [int]. *)
Definition str_of_int (n : Z) : pystr :=
  if n <? 0 then 45 :: digits (- n) else digits n.

(** [str(n).zfill(w)] for [0 <= n], as [strftime] pads its fields. *)
Definition zfill (w : nat) (n : Z) : pystr :=
  let d := digits n in replicate (w - length d) 48 ++ d.

Definition is_digit (c : Z) : bool := (48 <=? c) && (c <=? 57).

Definition digits_value (s : pystr) : Z :=
  fold_left (fun acc c => 10 * acc + (c - 48)) s 0.

(** [int(s)] on a decimal literal, an optional sign before ASCII digits,
    with surrounding white space allowed; [None] is [ValueError].
    Underscore groupings and non-ASCII digits are outside the model. *)
Definition int_of_str (s : pystr) : option Z :=
  let t := strip s in
  let '(neg, body) :=
    match t with
    | 45 :: r => (true, r)
    | 43 :: r => (false, r)
    | _ => (false, t)
    end in
  match body with
  | [] => None
  | _ => if forallb is_digit body
         then Some (if neg then - digits_value body else digits_value body)
         else None
  end.

(** ** Floats *)

(** A binary64 [float]: plus or minus [mant * 2 ^ expo], or an infinity.
    Not-a-number does not arise from decimal literals. *)
Inductive pyfloat : Type :=
| Finite (negative : bool) (mant expo : Z)
| Infinite (negative : bool).

(** [a / b] rounded to the nearest integer, halves to the even one, for
    [0 <= a] and [0 < b]. *)
Definition round_half_even (a b : Z) : Z :=
  let f := a / b in
  let r := a mod b in
  if 2 * r <? b then f
  else if b <? 2 * r then f + 1
  else if Z.even f then f else f + 1.

(** The [l] with [2 ^ l <= a / b < 2 ^ (l + 1)], for [0 < a] and [0 < b]. *)
Definition floor_log2_ratio (a b : Z) : Z :=
  let l := Z.log2 a - Z.log2 b in
  if (if 0 <=? l then b * 2 ^ l <=? a else b <=? a * 2 ^ (- l))
  then l else l - 1.

(** A magnitude [mant * 2 ^ expo] that reaches [2 ^ 1024] overflows. *)
Definition float_make (negative : bool) (mant expo : Z) : pyfloat :=
  if (0 <=? expo) && (2 ^ 1024 <=? mant * 2 ^ expo)
  then Infinite negative else Finite negative mant expo.

(** The double nearest to [a / b], for [0 <= a] and [0 < b]: 53 bits of
    mantissa above the exponent -1074 of the subnormal numbers, halves to
    the even mantissa. [float()] rounds a decimal literal this way. *)
Definition nearest_double (negative : bool) (a b : Z) : pyfloat :=
  if a =? 0 then Finite negative 0 0
  else
    let e := Z.max (floor_log2_ratio a b - 52) (- 1074) in
    let m := if 0 <=? e then round_half_even a (b * 2 ^ e)
             else round_half_even (a * 2 ^ (- e)) b in
    float_make negative m e.

(** [x * 1024]: exact below the overflow threshold. *)
Definition float_mul_1024 (x : pyfloat) : pyfloat :=
  match x with
  | Finite negative m e => float_make negative m (e + 10)
  | Infinite negative => Infinite negative
  end.

(** A value. [VFloat h] is the [float] that [round(x, 2)] returns, kept as
    the number [h] of hundredths of its two-place decimal (the nearest
    double of that decimal is what Python holds; the correspondence is
    exact below 2^53 hundredths). *)
Inductive pyval : Type :=
| VNone
| VBool (b : bool)
| VInt (n : Z)
| VFloat (hundredths : Z)
| VStr (s : pystr)
| VList (l : list pyval)
| VDict (d : list (string * pyval)).

Definition pydict : Type := list (string * pyval).

(** [d.get(k)] *)
Fixpoint dict_get (d : pydict) (k : string) : option pyval :=
  match d with
  | [] => None
  | (k', v) :: d' => if String.eqb k k' then Some v else dict_get d' k
  end.

(** [d[k] = v]: the entry keeps its place when the key exists, and is
    appended otherwise. *)
Fixpoint dict_set (d : pydict) (k : string) (v : pyval) : pydict :=
  match d with
  | [] => [(k, v)]
  | (k', v') :: d' =>
      if String.eqb k k' then (k', v) :: d' else (k', v') :: dict_set d' k v
  end.

(** [{**d, **e}] *)
Definition dict_update (d e : pydict) : pydict :=
  fold_left (fun acc kv => dict_set acc kv.1 kv.2) e d.

(** [dict(...)] built from a literal display: later duplicates overwrite. *)
Definition dict_of (entries : pydict) : pydict := dict_update [] entries.

(** ** Exceptions *)

(** [Exception cls msg] stands for an instance of a subclass [cls] of
    [Exception] whose [str()] is [msg]; the two others derive from
    [BaseException] only. *)
Inductive py_exc : Type :=
| Exception (cls : string) (msg : pystr)
| KeyboardInterrupt
| SystemExit (code : Z).

Inductive result (A : Type) : Type :=
| Ok (a : A)
| Raise (e : py_exc).
Arguments Ok {A} a.
Arguments Raise {A} e.

Definition bind {A B} (m : result A) (k : A -> result B) : result B :=
  match m with
  | Ok a => k a
  | Raise e => Raise e
  end.

(** [try: body  except Exception as e: handler(str(e))] *)
Definition try_except_Exception {A} (body : result A)
    (handler : pystr -> result A) : result A :=
  match body with
  | Raise (Exception _ msg) => handler msg
  | other => other
  end.

(** [try: body  except: handler] *)
Definition try_except_all {A} (body : result A) (handler : result A)
    : result A :=
  match body with
  | Ok a => Ok a
  | Raise _ => handler
  end.

#[global] Instance result_ret : MRet result := @Ok.
#[global] Instance result_bind : MBind result :=
  fun A B k m => bind m k.

(** [float(s)] on a decimal literal: an optional sign, digits, and an
    optional point followed by digits, with at least one digit; anything
    else is a [ValueError] here. Exponents, [inf], [nan], underscore
    groupings and non-ASCII digits are outside the model. *)
Definition float_of_str (s : pystr) : result pyfloat :=
  let t := strip s in
  let '(negative, body) :=
    match t with
    | c :: r => if c =? 45 then (true, r)
                else if c =? 43 then (false, r)
                else (false, t)
    | [] => (false, t)
    end in
  let invalid := Raise (Exception "ValueError"
                          (lit "could not convert string to float")) in
  match split_on 46 body with
  | [ip] =>
      match ip with
      | [] => invalid
      | _ => if forallb is_digit ip
             then Ok (nearest_double negative (digits_value ip) 1)
             else invalid
      end
  | [ip; fp] =>
      match ip ++ fp with
      | [] => invalid
      | ds => if forallb is_digit ds
              then Ok (nearest_double negative (digits_value ds)
                                      (10 ^ Z.of_nat (length fp)))
              else invalid
      end
  | _ => invalid
  end.

(** [int(x)]: the integer part, towards zero. *)
Definition int_of_float (x : pyfloat) : result Z :=
  match x with
  | Finite negative m e =>
      let magnitude := if 0 <=? e then m * 2 ^ e else m / 2 ^ (- e) in
      Ok (if negative then - magnitude else magnitude)
  | Infinite _ =>
      Raise (Exception "OverflowError"
               (lit "cannot convert float infinity to integer"))
  end.

(** The exit status of the interpreter: 0 when the script runs to its end,
    the code of an uncaught [SystemExit], 1 after the traceback of an
    uncaught exception, 130 after an uncaught interrupt. *)
Definition exit_status {A} (r : result A) : Z :=
  match r with
  | Ok _ => 0
  | Raise (SystemExit code) => code
  | Raise (Exception _ _) => 1
  | Raise KeyboardInterrupt => 130
  end.

(** Truth value of an object in a condition. *)
Definition truthy (v : pyval) : bool :=
  match v with
  | VNone => false
  | VBool b => b
  | VInt n => negb (n =? 0)
  | VFloat h => negb (h =? 0)
  | VStr s => negb (pystr_eqb s [])
  | VList l => match l with [] => false | _ => true end
  | VDict d => match d with [] => false | _ => true end
  end.

(** [v > n] for an [int] literal [n]; ordering a non-number against an
    [int] is a [TypeError]. [True] and [False] compare as 1 and 0. *)
Definition gt_int (v : pyval) (n : Z) : result bool :=
  match v with
  | VInt m => Ok (n <? m)
  | VBool b => Ok (n <? (if b then 1 else 0))
  | VFloat h => Ok (100 * n <? h)
  | _ => Raise (Exception "TypeError" (lit "'>' not supported"))
  end.

(** [v.get(k, default)]; only a [dict] has the method. *)
Definition get (v : pyval) (k : string) (default : pyval) : result pyval :=
  match v with
  | VDict d => Ok (from_option id default (dict_get d k))
  | _ => Raise (Exception "AttributeError" (lit "no attribute 'get'"))
  end.

(** [v[k]] for a string key. *)
Definition subscript (v : pyval) (k : string) : result pyval :=
  match v with
  | VDict d =>
      match dict_get d k with
      | Some x => Ok x
      | None => Raise (Exception "KeyError" (lit k))
      end
  | _ => Raise (Exception "TypeError" (lit "not subscriptable"))
  end.

End Py.

(** ** The host: commands, cache directory, clock, configuration *)

Module Host.
Import Py.

(** What [subprocess.run(..., capture_output=True, text=True)] returns. *)
Record CompletedProcess : Type := {
  returncode : Z;
  stdout : pystr;
}.

(** A naive local [datetime]. *)
Record datetime : Type := {
  year : Z; month : Z; day : Z;
  hour : Z; minute : Z; second : Z;
  microsecond : Z;
}.

(** What reading [config.json] gives in [load_config]. *)
Inductive config_read : Type :=
| ConfigLoaded (config : pyval)
| ConfigNotFound
| ConfigMalformed (msg : pystr)
| ConfigRaises (e : py_exc).

Record world : Type := {
  (** [subprocess.run(argv, ...)]: the completed process, or what the call
      raises ([FileNotFoundError], [TimeoutExpired], an interrupt ...). *)
  subprocess_run : list pystr -> result CompletedProcess;
  (** The walk of [/var/cache/dnf]: [Ok None] when the directory does not
      exist, otherwise what [os.path.getsize] gives for each file met. *)
  cache_walk : result (option (list (result Z)));
  (** Successive readings of [datetime.now()]. *)
  clock : nat -> datetime;
  (** [datetime.timestamp()], which depends on the local time zone. *)
  posix_timestamp : datetime -> Z;
  config_json : config_read;
  (** [Path.mkdir(parents=True, exist_ok=True)] and [open(path, 'w')]:
      the exception raised for a path, if any. *)
  mkdir_fault : pystr -> option py_exc;
  open_fault : pystr -> option py_exc;
  (** [datetime.fromtimestamp(ts)] in the local time zone; [None] when it
      raises for a time out of range. *)
  fromtimestamp : Z -> option datetime;
  (** The session hook: importing [DatabaseManager], building it and
      [insert_package_metrics(session, report)]. *)
  database_insert : pystr -> pyval -> result ();
}.

(** A command line given by literals. *)
Definition sh (w : world) (argv : list string) : result CompletedProcess :=
  subprocess_run w (lit <$> argv).

(** The end of [try: ... except Exception as e: print(...)] followed by
    [return acc]: what was accumulated so far is returned. *)
Definition except_Exception_return {A} (e : py_exc) (acc : A) : result A :=
  match e with
  | Exception _ _ => Ok acc
  | _ => Raise e
  end.

Definition len {A} (l : list A) : Z := Z.of_nat (length l).

(** [round(n / d, 2)] for ints [n] and [0 < d], in hundredths: the
    quotient is rounded to two places, halves to the even neighbour. *)
Definition round2 (n d : Z) : Z := round_half_even (100 * n) d.

(** [isoformat()] *)
Definition isoformat (t : datetime) : pystr :=
  zfill 4 (year t) ++ lit "-" ++ zfill 2 (month t) ++ lit "-" ++
  zfill 2 (day t) ++ lit "T" ++ zfill 2 (hour t) ++ lit ":" ++
  zfill 2 (minute t) ++ lit ":" ++ zfill 2 (second t) ++
  (if microsecond t =? 0 then [] else lit "." ++ zfill 6 (microsecond t)).

(** A line that [if line.strip()] keeps. *)
Definition nonblank (line : pystr) : bool :=
  match strip line with [] => false | _ => true end.

End Host.

(** ** modules/packages.py *)

Module Packages.
Import Py Host.

Record installed : Type := {
  in_name : pystr;
  in_version : pystr;
  in_repository : pystr;
}.

Definition installed_dict (p : installed) : pyval :=
  VDict [("name", VStr (in_name p));
         ("version", VStr (in_version p));
         ("repository", VStr (in_repository p))].

(** One line of [dnf list installed] after the first. *)
Definition parse_installed_line (line : pystr) : option installed :=
  if negb (nonblank line) || startswith (lit "Installed") line
  then None
  else match split_ws line with
       | p0 :: p1 :: p2 :: _ =>
           Some {| in_name := rsplit1_head 46 p0;
                   in_version := p1;
                   in_repository := p2 |}
       | _ => None
       end.

(** [get_all_packages]: [lines[1:]] leaves the first line out. *)
Definition get_all_packages (w : world) : result (list installed) :=
  match sh w ["dnf"; "list"; "installed"] with
  | Raise e => except_Exception_return e []
  | Ok result =>
      if returncode result =? 0 then
        Ok (omap parse_installed_line
              (drop 1 (split_on 10 (strip (stdout result)))))
      else Ok []
  end.

(** The conversion of the text of a [Size] line to bytes in
    [get_package_details]; [None] when no unit letter is found and
    [size_bytes] keeps its value. *)
Definition size_to_bytes (value : pystr) : result (option Z) :=
  let size_str := lower value in
  if contains (lit "k") size_str then
    x ← float_of_str (strip (remove_char 107 size_str));
    n ← int_of_float (float_mul_1024 x);
    mret (Some n)
  else if contains (lit "m") size_str then
    x ← float_of_str (strip (remove_char 109 size_str));
    n ← int_of_float (float_mul_1024 (float_mul_1024 x));
    mret (Some n)
  else if contains (lit "g") size_str then
    x ← float_of_str (strip (remove_char 103 size_str));
    n ← int_of_float (float_mul_1024 (float_mul_1024 (float_mul_1024 x)));
    mret (Some n)
  else mret None.

(** One line of [dnf info]. *)
Definition info_line (line : pystr) (details : pydict) : result pydict :=
  if contains (lit ":") line then
    match split1 58 line with
    | [key; value] =>
        let key := strip key in
        let value := strip value in
        if pystr_eqb key (lit "Size") then
          size ← size_to_bytes value;
          mret (match size with
                | Some n => dict_set details "size_bytes" (VInt n)
                | None => details
                end)
        else if pystr_eqb key (lit "Summary") then
          mret (dict_set details "description" (VStr value))
        else if pystr_eqb key (lit "URL") then
          mret (dict_set details "url" (VStr value))
        else mret details
    | _ => mret details
    end
  else mret details.

(** The loop over the lines: the details reached, and the exception that
    stopped the loop, if any. *)
Fixpoint scan_info (lines : list pystr) (details : pydict)
    : pydict * option py_exc :=
  match lines with
  | [] => (details, None)
  | line :: rest =>
      match info_line line details with
      | Ok details' => scan_info rest details'
      | Raise e => (details, Some e)
      end
  end.

Definition get_package_details (package_name : pystr) (w : world)
    : result pydict :=
  let details :=
    [("name", VStr package_name);
     ("size_bytes", VInt 0);
     ("install_date", VNone);
     ("install_reason", VStr (lit "unknown"));
     ("description", VStr []);
     ("url", VStr [])] in
  match subprocess_run w [lit "dnf"; lit "info"; package_name] with
  | Raise e => except_Exception_return e details
  | Ok result =>
      let '(details, stopped) :=
        if returncode result =? 0
        then scan_info (split_on 10 (stdout result)) details
        else (details, None) in
      match stopped with
      | Some e => except_Exception_return e details
      | None =>
          match subprocess_run w [lit "rpm"; lit "-q"; lit "--queryformat";
                                  lit "%{INSTALLTIME}"; package_name] with
          | Raise e => except_Exception_return e details
          | Ok rpm_result =>
              let details :=
                if (returncode rpm_result =? 0) && nonblank (stdout rpm_result)
                then match int_of_str (strip (stdout rpm_result)) with
                     | Some timestamp =>
                         match fromtimestamp w timestamp with
                         | Some t => dict_set details "install_date"
                                              (VStr (isoformat t))
                         | None => details
                         end
                     | None => details
                     end
                else details in
              match subprocess_run w [lit "dnf"; lit "repoquery";
                                      lit "--userinstalled"; package_name] with
              | Raise e => except_Exception_return e details
              | Ok reason_result =>
                  Ok (dict_set details "install_reason"
                        (VStr (if (returncode reason_result =? 0)
                                  && nonblank (stdout reason_result)
                               then lit "user" else lit "dependency")))
              end
          end
      end
  end.

(** An entry of [get_packages_by_size]. *)
Record pkg_size : Type := {
  ps_name : pystr;
  ps_size_bytes : Z;
  ps_size_mb : Z;   (* hundredths *)
  ps_version : pystr;
}.

Definition pkg_size_dict (p : pkg_size) : pyval :=
  VDict [("name", VStr (ps_name p));
         ("size_bytes", VInt (ps_size_bytes p));
         ("size_mb", VFloat (ps_size_mb p));
         ("version", VStr (ps_version p))].

(** One line of [rpm -qa --queryformat '%{NAME}|%{SIZE}|%{VERSION}\n']:
    the [except: continue] around [int(parts[1])] drops the line. *)
Definition parse_size_line (line : pystr) : option pkg_size :=
  if contains (lit "|") line then
    match split_on 124 line with
    | p0 :: p1 :: p2 :: _ =>
        match int_of_str p1 with
        | Some n =>
            Some {| ps_name := p0; ps_size_bytes := n;
                    ps_size_mb := round2 n (1024 * 1024);
                    ps_version := p2 |}
        | None => None
        end
    | _ => None
    end
  else None.

(** [packages.sort(key=lambda x: x['size_bytes'], reverse=True)]: stable,
    largest first. *)
Fixpoint insert_desc (p : pkg_size) (l : list pkg_size) : list pkg_size :=
  match l with
  | [] => [p]
  | q :: l' =>
      if ps_size_bytes p <? ps_size_bytes q then q :: insert_desc p l'
      else p :: l
  end.

Definition sort_desc (l : list pkg_size) : list pkg_size :=
  foldr insert_desc [] l.

Definition get_packages_by_size (w : world) : result (list pkg_size) :=
  match subprocess_run w [lit "rpm"; lit "-qa"; lit "--queryformat";
                          lit "%{NAME}|%{SIZE}|%{VERSION}" ++ [10]] with
  | Raise e => except_Exception_return e []
  | Ok result =>
      if returncode result =? 0 then
        Ok (sort_desc
              (omap parse_size_line (split_on 10 (strip (stdout result)))))
      else Ok []
  end.

Record pkg_count : Type := {
  total : Z;
  user_installed : Z;
  dependencies : Z;
}.

Definition get_package_count (w : world) : result pkg_count :=
  let count := {| total := 0; user_installed := 0; dependencies := 0 |} in
  match sh w ["rpm"; "-qa"] with
  | Raise e => except_Exception_return e count
  | Ok total_result =>
      let count :=
        if returncode total_result =? 0 then
          {| total := len (split_on 10 (strip (stdout total_result)));
             user_installed := user_installed count;
             dependencies := dependencies count |}
        else count in
      match sh w ["dnf"; "repoquery"; "--userinstalled"] with
      | Raise e => except_Exception_return e count
      | Ok user_result =>
          let count :=
            if returncode user_result =? 0 then
              {| total := total count;
                 user_installed :=
                   len (filter (fun l => nonblank l = true)
                          (split_on 10 (strip (stdout user_result))));
                 dependencies := dependencies count |}
            else count in
          Ok {| total := total count;
                user_installed := user_installed count;
                dependencies := total count - user_installed count |}
      end
  end.

Definition collect_package_metrics (config : pyval) (w : world)
    : result pyval :=
  counts ← get_package_count w;
  by_size ← get_packages_by_size w;
  let packages_by_size := take 50 by_size in
  let total_size_bytes := foldr Z.add 0 (ps_size_bytes <$> packages_by_size) in
  mret (VDict
    [("summary", VDict
        [("total_packages", VInt (total counts));
         ("user_installed", VInt (user_installed counts));
         ("dependencies", VInt (dependencies counts));
         ("total_size_gb", VFloat (round2 total_size_bytes (1024 ^ 3)))]);
     ("largest_packages", VList (pkg_size_dict <$> take 20 packages_by_size));
     ("all_packages_sample",
        VList (pkg_size_dict <$> take 100 packages_by_size))]).

End Packages.

(** ** modules/updates.py *)

Module Updates.
Import Py Host.

Record update_record : Type := {
  up_package : pystr;
  up_new_version : pystr;
  up_repository : pystr;
}.

Record advisory : Type := {
  adv_advisory : pystr;
  adv_severity : pystr;
}.

Definition update_dict (u : update_record) : pyval :=
  VDict [("package", VStr (up_package u));
         ("new_version", VStr (up_new_version u));
         ("repository", VStr (up_repository u))].

Definition advisory_dict (a : advisory) : pyval :=
  VDict [("advisory", VStr (adv_advisory a));
         ("type", VStr (lit "security"));
         ("severity", VStr (adv_severity a))].

(** One line of [dnf check-update --quiet]. *)
Definition parse_update_line (line : pystr) : option update_record :=
  if negb (nonblank line) || startswith (lit "Last") line
     || startswith (lit "Security") line
  then None
  else match split_ws line with
       | p0 :: p1 :: p2 :: _ =>
           Some {| up_package := rsplit1_head 46 p0;
                   up_new_version := p1;
                   up_repository := p2 |}
       | _ => None
       end.

Definition get_updates_available (w : world) : result (list update_record) :=
  match sh w ["dnf"; "check-update"; "--quiet"] with
  | Raise e => except_Exception_return e []
  | Ok result =>
      if (returncode result =? 0) || (returncode result =? 100) then
        Ok (omap parse_update_line (split_on 10 (strip (stdout result))))
      else Ok []
  end.

(** One line of [dnf updateinfo list security --available]. *)
Definition parse_security_line (line : pystr) : option advisory :=
  if contains (lit "FEDORA") line || contains (lit "security") (lower line)
  then match split_ws line with
       | p0 :: p1 :: _ => Some {| adv_advisory := p0; adv_severity := p1 |}
       | _ => None
       end
  else None.

Definition get_security_updates (w : world) : result (list advisory) :=
  match sh w ["dnf"; "updateinfo"; "list"; "security"; "--available"] with
  | Raise e => except_Exception_return e []
  | Ok result =>
      if returncode result =? 0 then
        Ok (omap parse_security_line (split_on 10 (strip (stdout result))))
      else Ok []
  end.

Definition get_update_summary (w : world) : result pyval :=
  updates ← get_updates_available w;
  security ← get_security_updates w;
  mret (VDict
    [("total_updates", VInt (len updates));
     ("security_updates", VInt (len security));
     ("updates_list", VList (update_dict <$> take 30 updates));
     ("security_list", VList (advisory_dict <$> take 10 security))]).

Definition collect_update_metrics (config : pyval) (w : world)
    : result pyval :=
  get_update_summary w.

End Updates.

(** ** modules/orphans.py *)

Module Orphans.
Import Py Host.

Definition name_dict (name : pystr) : pyval := VDict [("name", VStr name)].

(** One line of [dnf repoquery --unneeded]. *)
Definition parse_orphan_line (line : pystr) : option pystr :=
  if nonblank line then Some (rsplit1_head 46 (strip line)) else None.

Definition get_orphaned_packages (w : world) : result (list pystr) :=
  match sh w ["dnf"; "repoquery"; "--unneeded"] with
  | Raise e => except_Exception_return e []
  | Ok result =>
      if returncode result =? 0 then
        Ok (omap parse_orphan_line (split_on 10 (strip (stdout result))))
      else Ok []
  end.

(** The loop over the lines of [dnf autoremove --assumeno], with its flag
    [in_remove_section]. *)
Fixpoint scan_autoremove (in_remove_section : bool) (lines : list pystr)
    : list pystr :=
  match lines with
  | [] => []
  | line :: rest =>
      if contains (lit "Removing:") line || contains (lit "Removing") line
      then scan_autoremove true rest
      else if in_remove_section
              && nonblank line && negb (startswith (lit "Transaction") line)
      then match split_ws line with
           | p0 :: _ =>
               if pystr_eqb p0 (lit "Installing")
                  || pystr_eqb p0 (lit "Upgrading")
                  || pystr_eqb p0 (lit "Removing")
               then scan_autoremove in_remove_section rest
               else p0 :: scan_autoremove in_remove_section rest
           | [] => scan_autoremove in_remove_section rest
           end
      else scan_autoremove in_remove_section rest
  end.

Definition get_autoremovable_packages (w : world) : result (list pystr) :=
  match sh w ["dnf"; "autoremove"; "--assumeno"] with
  | Raise e => except_Exception_return e []
  | Ok result => Ok (scan_autoremove false (split_on 10 (stdout result)))
  end.

Definition collect_orphan_metrics (config : pyval) (w : world)
    : result pyval :=
  orphaned ← get_orphaned_packages w;
  autoremove ← get_autoremovable_packages w;
  mret (VDict
    [("orphaned_count", VInt (len orphaned));
     ("orphaned_packages", VList (name_dict <$> take 50 orphaned));
     ("autoremovable_count", VInt (len autoremove));
     ("autoremovable_packages", VList (name_dict <$> take 30 autoremove))]).

End Orphans.

(** ** modules/cache.py *)

Module Cache.
Import Py Host.

(** The sum of the sizes of the files met; [except: continue] skips a file
    whose size cannot be read. *)
Definition walk_total (sizes : list (result Z)) : Z :=
  foldr (fun r acc => match r with Ok n => n + acc | Raise _ => acc end)
        0 sizes.

Definition get_cache_size (w : world) : result pydict :=
  let cache_info :=
    [("total_size_mb", VInt 0);
     ("packages_cache", VInt 0);
     ("metadata_cache", VInt 0);
     ("cache_dir", VStr (lit "/var/cache/dnf"))] in
  match cache_walk w with
  | Raise e => except_Exception_return e cache_info
  | Ok None => Ok cache_info
  | Ok (Some sizes) =>
      let total_size := walk_total sizes in
      let cache_info :=
        dict_set cache_info "total_size_mb"
                 (VFloat (round2 total_size (1024 * 1024))) in
      Ok (dict_set cache_info "total_size_gb"
                   (VFloat (round2 total_size (1024 * 1024 * 1024))))
  end.

Definition get_cache_info_dnf (w : world) : result pydict :=
  let info := [] in
  match sh w ["du"; "-sh"; "/var/cache/dnf"] with
  | Raise e => except_Exception_return e info
  | Ok result =>
      if returncode result =? 0 then
        match split_ws (stdout result) with
        | size_str :: _ => Ok (dict_set info "cache_size_human" (VStr size_str))
        | [] => Ok info   (* IndexError, swallowed *)
        end
      else Ok info
  end.

Definition collect_cache_metrics (config : pyval) (w : world)
    : result pyval :=
  cache_size ← get_cache_size w;
  cache_info ← get_cache_info_dnf w;
  total_size_mb ← subscript (VDict cache_size) "total_size_mb";
  can_clean ← gt_int total_size_mb 100;
  mret (VDict (dict_update (dict_update cache_size cache_info)
                           [("can_clean", VBool can_clean)])).

End Cache.

(** ** modules/dependencies.py *)

Module Dependencies.
Import Py Host.

Definition issue_dict (line : pystr) : pyval := VDict [("issue", VStr line)].
Definition rpm_issue_dict (line : pystr) : pyval :=
  VDict [("rpm_issue", VStr line)].
Definition package_dict (line : pystr) : pyval :=
  VDict [("package", VStr line)].

(** One line of [dnf check]. *)
Definition parse_check_line (line : pystr) : option pyval :=
  if contains (lit "missing") (lower line)
     || contains (lit "broken") (lower line)
  then Some (issue_dict (strip line)) else None.

Definition parse_rpm_line (line : pystr) : option pyval :=
  if nonblank line then Some (rpm_issue_dict (strip line)) else None.

Definition check_broken_dependencies (w : world) : result (list pyval) :=
  match sh w ["dnf"; "check"] with
  | Raise e => except_Exception_return e []
  | Ok result =>
      let broken :=
        if negb (returncode result =? 0)
        then omap parse_check_line (split_on 10 (stdout result))
        else [] in
      match sh w ["rpm"; "-Va"; "--nofiles"; "--nodigest"] with
      | Raise e => except_Exception_return e broken
      | Ok rpm_result =>
          if nonblank (stdout rpm_result) then
            Ok (broken ++
                omap parse_rpm_line
                     (take 10 (split_on 10 (strip (stdout rpm_result)))))
          else Ok broken
      end
  end.

Definition parse_duplicate_line (line : pystr) : option pyval :=
  if nonblank line then Some (package_dict (strip line)) else None.

Definition get_duplicate_packages (w : world) : result (list pyval) :=
  match sh w ["dnf"; "repoquery"; "--duplicates"] with
  | Raise e => except_Exception_return e []
  | Ok result =>
      if returncode result =? 0 then
        Ok (omap parse_duplicate_line (split_on 10 (strip (stdout result))))
      else Ok []
  end.

(** [get_dependency_count]: its bare [except: pass] catches everything,
    an interrupt included. *)
Definition get_dependency_count (package : pystr) (w : world) : result Z :=
  let count := 0 in
  try_except_all
    (result ← subprocess_run w [lit "dnf"; lit "repoquery"; lit "--requires";
                                package];
     mret (if returncode result =? 0
           then len (filter (fun l => nonblank l = true)
                       (split_on 10 (strip (stdout result))))
           else count))
    (Ok count).

Definition collect_dependency_metrics (config : pyval) (w : world)
    : result pyval :=
  broken ← check_broken_dependencies w;
  duplicates ← get_duplicate_packages w;
  mret (VDict
    [("broken_dependencies", VInt (len broken));
     ("broken_list", VList (take 20 broken));
     ("duplicate_packages", VInt (len duplicates));
     ("duplicate_list", VList (take 20 duplicates));
     ("has_issues", VBool ((0 <? len broken) || (0 <? len duplicates)))]).

End Dependencies.

(** ** Text of values: [str()], [json.dump], UTF-8 *)

Module Text.
Import Py Host.

(** [repr] of a two-place float: at least one decimal, no trailing zero. *)
Definition str_of_float (h : Z) : pystr :=
  let a := Z.abs h in
  let frac := a mod 100 in
  (if h <? 0 then [45] else []) ++ digits (a / 100) ++ [46] ++
  (if frac mod 10 =? 0 then digits (frac / 10) else zfill 2 frac).

(** [s.join(pieces)] *)
Fixpoint join (sep : pystr) (pieces : list pystr) : pystr :=
  match pieces with
  | [] => []
  | [p] => p
  | p :: rest => p ++ sep ++ join sep rest
  end.

(** What an f-string writes for [{v}]. Strings inside a list or a dict are
    quoted without [repr]'s escapes; the collectors only format numbers. *)
Fixpoint format_value (nested : bool) (v : pyval) : pystr :=
  match v with
  | VNone => lit "None"
  | VBool b => if b then lit "True" else lit "False"
  | VInt n => str_of_int n
  | VFloat h => str_of_float h
  | VStr s => if nested then [39] ++ s ++ [39] else s
  | VList l => lit "[" ++ join (lit ", ") (map (format_value true) l) ++ lit "]"
  | VDict d =>
      lit "{" ++
      join (lit ", ")
        (map (fun kv => [39] ++ lit kv.1 ++ lit "': " ++ format_value true kv.2) d)
      ++ lit "}"
  end.

Definition hex_digit (n : Z) : Z := if n <? 10 then 48 + n else 87 + n.

(** The escapes of [json.dump(..., ensure_ascii=False)] inside a string. *)
Definition json_escape_char (c : Z) : pystr :=
  if c =? 34 then lit "\" ++ [34]
  else if c =? 92 then lit "\\"
  else if c =? 10 then lit "\n"
  else if c =? 13 then lit "\r"
  else if c =? 9 then lit "\t"
  else if c =? 8 then lit "\b"
  else if c =? 12 then lit "\f"
  else if (0 <=? c) && (c <? 32)
       then lit "\u00" ++ [hex_digit (c / 16); hex_digit (c mod 16)]
  else [c].

Definition json_string (s : pystr) : pystr :=
  [34] ++ concat (json_escape_char <$> s) ++ [34].

Definition newline_indent (level : nat) : pystr :=
  [10] ++ replicate (2 * level) 32.

(** [json.dumps(v, indent=2, ensure_ascii=False)], [level] being the depth
    of the value. *)
Fixpoint json_dumps (level : nat) (v : pyval) : pystr :=
  match v with
  | VNone => lit "null"
  | VBool b => if b then lit "true" else lit "false"
  | VInt n => str_of_int n
  | VFloat h => str_of_float h
  | VStr s => json_string s
  | VList l =>
      match l with
      | [] => lit "[]"
      | _ => lit "[" ++ newline_indent (S level) ++
             join (lit "," ++ newline_indent (S level))
                  (map (json_dumps (S level)) l) ++
             newline_indent level ++ lit "]"
      end
  | VDict d =>
      match d with
      | [] => lit "{}"
      | _ => lit "{" ++ newline_indent (S level) ++
             join (lit "," ++ newline_indent (S level))
                  (map (fun kv => json_string (lit kv.1) ++ lit ": " ++
                                  json_dumps (S level) kv.2) d) ++
             newline_indent level ++ lit "}"
      end
  end.

(** The UTF-8 bytes of one code point; a surrogate or a value out of range
    has none ([UnicodeEncodeError]). *)
Definition utf8_char (c : Z) : option (list Z) :=
  if c <? 0 then None
  else if c <? 128 then Some [c]
  else if c <? 2048 then Some [192 + c / 64; 128 + c mod 64]
  else if c <? 65536 then
    if (55296 <=? c) && (c <=? 57343) then None
    else Some [224 + c / 4096; 128 + (c / 64) mod 64; 128 + c mod 64]
  else if c <? 1114112 then
    Some [240 + c / 262144; 128 + (c / 4096) mod 64;
          128 + (c / 64) mod 64; 128 + c mod 64]
  else None.

Fixpoint utf8_encode (s : pystr) : option (list Z) :=
  match s with
  | [] => Some []
  | c :: s' =>
      match utf8_char c, utf8_encode s' with
      | Some b, Some bs => Some (b ++ bs)
      | _, _ => None
      end
  end.

End Text.

(** ** package_analyzer.py *)

Module Analyzer.
Import Py Host Text.

(** A file on disk: its bytes, or what an interrupted write left. *)
Inductive file : Type :=
| FileBytes (bytes : list Z)
| FilePartial.

(** What a run changes: how often the clock was read, and the files. *)
Record state : Type := {
  ticks : nat;
  files : gmap pystr file;
}.

(** [datetime.now()] *)
Definition datetime_now (w : world) (s : state) : datetime * state :=
  (clock w (ticks s), {| ticks := S (ticks s); files := files s |}).

(** [strftime("%Y%m%d_%H%M%S")] *)
Definition strftime_file (t : datetime) : pystr :=
  zfill 4 (year t) ++ zfill 2 (month t) ++ zfill 2 (day t) ++ lit "_" ++
  zfill 2 (hour t) ++ zfill 2 (minute t) ++ zfill 2 (second t).

(** A [pathlib.Path]: its root (empty, [/] or [//]) and its components. *)
Record Path : Type := {
  root : pystr;
  parts : list pystr;
}.

Fixpoint drop_slashes (s : pystr) : pystr :=
  match s with
  | 47 :: s' => drop_slashes s'
  | _ => s
  end.

(** [Path(s)]: runs of slashes collapse, [.] components and a trailing
    slash go, and exactly two leading slashes are kept as the root. *)
Definition Path_of (s : pystr) : Path :=
  let lead := (length s - length (drop_slashes s))%nat in
  {| root := match lead with
             | O => []
             | 2%nat => lit "//"
             | _ => lit "/"
             end;
     parts := filter (fun p => p ≠ [] ∧ p ≠ lit ".") (split_on 47 s) |}.

(** [p / name] *)
Definition Path_div (p : Path) (name : pystr) : Path :=
  let q := Path_of name in
  match root q with
  | [] => {| root := root p; parts := parts p ++ parts q |}
  | _ => q
  end.

(** [str(p)] *)
Definition Path_str (p : Path) : pystr :=
  match root p, parts p with
  | [], [] => lit "."
  | r, ps => r ++ join (lit "/") ps
  end.

(** The five collector entry points that [collect_all_metrics] looks up in
    the imported modules. *)
Record Collectors : Type := {
  packages_collect : pyval -> world -> result pyval;
  updates_collect : pyval -> world -> result pyval;
  orphans_collect : pyval -> world -> result pyval;
  cache_collect : pyval -> world -> result pyval;
  dependencies_collect : pyval -> world -> result pyval;
}.

(** [from modules import packages, updates, orphans, cache, dependencies] *)
Definition modules : Collectors := {|
  packages_collect := Packages.collect_package_metrics;
  updates_collect := Updates.collect_update_metrics;
  orphans_collect := Orphans.collect_orphan_metrics;
  cache_collect := Cache.collect_cache_metrics;
  dependencies_collect := Dependencies.collect_dependency_metrics;
|}.

(** [try: metrics[k] = call  except Exception as e: metrics[k] = {"error": str(e)}] *)
Definition collect_into (metrics : pydict) (k : string) (call : result pyval)
    : result pydict :=
  entry ← try_except_Exception call
            (fun msg => Ok (VDict [("error", VStr msg)]));
  mret (dict_set metrics k entry).

Definition collect_all_metrics_with (ms : Collectors) (config : pyval)
    (w : world) : result pyval :=
  let metrics := [] in
  metrics ← collect_into metrics "packages" (packages_collect ms config w);
  metrics ← collect_into metrics "updates" (updates_collect ms config w);
  metrics ← collect_into metrics "orphans" (orphans_collect ms config w);
  metrics ← collect_into metrics "cache" (cache_collect ms config w);
  metrics ← collect_into metrics "dependencies"
              (dependencies_collect ms config w);
  mret (VDict metrics).

Definition collect_all_metrics : pyval -> world -> result pyval :=
  collect_all_metrics_with modules.

(** [metrics.get(section, {}).get(key, default)] *)
Definition get2 (metrics : pyval) (section key : string) (default : pyval)
    : result pyval :=
  sub ← get metrics section (VDict []);
  get sub key default.

(** [metrics[section][key]] *)
Definition subscript2 (metrics : pyval) (section key : string)
    : result pyval :=
  sub ← subscript metrics section;
  subscript sub key.

Definition issue (type severity : string) (message : pystr) : pyval :=
  VDict [("type", VStr (lit type));
         ("severity", VStr (lit severity));
         ("message", VStr message)].

(** [ç], [õ], [ã], [ó] and [ê] in the messages. *)
Definition msg_updates : pystr :=
  lit " atualiza" ++ [231; 245] ++ lit "es dispon" ++ [237] ++ lit "veis".
Definition msg_security : pystr :=
  lit " atualiza" ++ [231; 245] ++ lit "es de seguran" ++ [231] ++
  lit "a dispon" ++ [237] ++ lit "veis".
Definition msg_orphans : pystr :=
  lit " pacotes " ++ [243] ++ lit "rf" ++ [227] ++ lit "os detectados".
Definition msg_dependencies : pystr :=
  lit "Problemas de depend" ++ [234] ++ lit "ncias detectados".

(** The issue list of [generate_report], rule after rule. *)
Definition derive_issues (metrics : pyval) : result (list pyval) :=
  let issues := [] in
  v ← get2 metrics "updates" "total_updates" (VInt 0);
  c ← gt_int v 0;
  issues ←
    (if c : bool then
       n ← subscript2 metrics "updates" "total_updates";
       mret (issues ++ [issue "updates" "info"
                          (format_value false n ++ msg_updates)])
     else mret issues);
  v ← get2 metrics "updates" "security_updates" (VInt 0);
  c ← gt_int v 0;
  issues ←
    (if c : bool then
       n ← subscript2 metrics "updates" "security_updates";
       mret (issues ++ [issue "security" "warning"
                          (format_value false n ++ msg_security)])
     else mret issues);
  v ← get2 metrics "orphans" "orphaned_count" (VInt 0);
  c ← gt_int v 10;
  issues ←
    (if c : bool then
       n ← subscript2 metrics "orphans" "orphaned_count";
       mret (issues ++ [issue "orphans" "info"
                          (format_value false n ++ msg_orphans)])
     else mret issues);
  v ← get2 metrics "cache" "can_clean" (VBool false);
  issues ←
    (if truthy v then
       n ← subscript2 metrics "cache" "total_size_mb";
       mret (issues ++ [issue "cache" "info"
                          (lit "Cache do DNF ocupando " ++
                           format_value false n ++ lit "MB")])
     else mret issues);
  v ← get2 metrics "dependencies" "has_issues" (VBool false);
  issues ←
    (if truthy v then
       mret (issues ++ [issue "dependencies" "warning" msg_dependencies])
     else mret issues);
  mret issues.

(** The report assembled from the merged metrics at time [timestamp]. *)
Definition build_report (w : world) (timestamp : datetime) (metrics : pyval)
    : result pyval :=
  issues ← derive_issues metrics;
  sub ← get metrics "packages" (VDict []);
  summary ← get sub "summary" (VDict []);
  total_packages ← get summary "total_packages" (VInt 0);
  total_updates ← get2 metrics "updates" "total_updates" (VInt 0);
  cache_size_mb ← get2 metrics "cache" "total_size_mb" (VInt 0);
  mret (VDict
    [("timestamp", VStr (isoformat timestamp));
     ("timestamp_unix", VInt (posix_timestamp w timestamp));
     ("metrics", metrics);
     ("issues", VList issues);
     ("summary", VDict
        [("total_packages", total_packages);
         ("total_updates", total_updates);
         ("total_issues", VInt (len issues));
         ("cache_size_mb", cache_size_mb)])]).

Definition generate_report_with (ms : Collectors) (config : pyval)
    (w : world) (s : state) : result pyval * state :=
  let '(timestamp, s) := datetime_now w s in
  (metrics ← collect_all_metrics_with ms config w;
   build_report w timestamp metrics, s).

Definition generate_report : pyval -> world -> state -> result pyval * state :=
  generate_report_with modules.

Definition default_output_dir : pystr :=
  lit "/home/montezuma/.bin/data/scripts-data/reports/raw".

(** The name of the file of a report written at [t]. *)
Definition report_filename (t : datetime) : pystr :=
  lit "packages_" ++ strftime_file t ++ lit ".json".

Definition set_file (s : state) (path : pystr) (f : file) : state :=
  {| ticks := ticks s; files := <[path := f]> (files s) |}.

Definition save_report (report config : pyval) (w : world) (s : state)
    : result pystr * state :=
  match get config "output_dir" (VStr default_output_dir) with
  | Raise e => (Raise e, s)
  | Ok (VStr dir) =>
      let output_dir := Path_of dir in
      match mkdir_fault w (Path_str output_dir) with
      | Some e => (Raise e, s)
      | None =>
          let '(now, s) := datetime_now w s in
          let filename := report_filename now in
          let filepath := Path_str (Path_div output_dir filename) in
          match open_fault w filepath with
          | Some e => (Raise e, s)
          | None =>
              match utf8_encode (json_dumps 0 report) with
              | Some bytes => (Ok filepath, set_file s filepath (FileBytes bytes))
              | None =>
                  (Raise (Exception "UnicodeEncodeError"
                            (lit "surrogates not allowed")),
                   set_file s filepath FilePartial)
              end
          end
      end
  | Ok _ => (Raise (Exception "TypeError" (lit "expected str")), s)
  end.

(** The [:.1f] format of [print_summary] accepts numbers only. *)
Definition format_1f (v : pyval) : result () :=
  match v with
  | VInt _ | VBool _ | VFloat _ => Ok ()
  | VStr _ => Raise (Exception "ValueError" (lit "Unknown format code 'f'"))
  | _ => Raise (Exception "TypeError" (lit "unsupported format string"))
  end.

Fixpoint print_issues (issues : list pyval) : result () :=
  match issues with
  | [] => Ok ()
  | i :: rest =>
      _ ← subscript i "severity";
      _ ← subscript i "message";
      print_issues rest
  end.

(** [print_summary]: what is printed is left out, what can raise is kept.
    The report is the one [main] built, whose issues are a list. *)
Definition print_summary (report : pyval) : result () :=
  summary ← get report "summary" (VDict []);
  _ ← get summary "total_packages" (VInt 0);
  _ ← get summary "total_updates" (VInt 0);
  cache ← get summary "cache_size_mb" (VInt 0);
  _ ← format_1f cache;
  issues ← get report "issues" (VList []);
  match issues with
  | VList l => print_issues (take 5 l)
  | _ => Raise (Exception "TypeError" (lit "issues is not a list"))
  end.

Definition load_config (w : world) : result pyval :=
  match config_json w with
  | ConfigLoaded config => Ok config
  | ConfigNotFound =>
      Ok (VDict [("output_dir",
                  VStr (lit "/home/montezuma/.bin/data/scripts-data/reports/packages/raw"))])
  | ConfigMalformed _ => Raise (SystemExit 1)
  | ConfigRaises e => Raise e
  end.

(** [if args.session:] *)
Definition session_mode (session : option pystr) : option pystr :=
  match session with
  | Some (c :: id) => Some (c :: id)
  | _ => None
  end.

(** [report['session_id'] = args.session] *)
Definition set_session (report : pyval) (id : pystr) : result pyval :=
  match report with
  | VDict d => Ok (VDict (dict_set d "session_id" (VStr id)))
  | _ => Raise (Exception "TypeError" (lit "no item assignment"))
  end.

(** The body of the [try] of [main], up to and including [sys.exit(0)]. *)
Definition main_try_with (ms : Collectors) (session : option pystr)
    (config : pyval) (w : world) (s : state) : result () * state :=
  let '(r, s) := generate_report_with ms config w s in
  match r with
  | Raise e => (Raise e, s)
  | Ok report =>
      match (match session_mode session with
             | Some id => set_session report id
             | None => Ok report
             end) with
      | Raise e => (Raise e, s)
      | Ok report =>
          let '(saved, s) := save_report report config w s in
          match saved with
          | Raise e => (Raise e, s)
          | Ok filepath =>
              (_ ← match session_mode session with
                   | Some id =>
                       try_except_Exception (database_insert w id report)
                                            (fun _ => Ok ())
                   | None => Ok ()
                   end;
               _ ← print_summary report;
               Raise (SystemExit 0), s)
          end
      end
  end.

(** [main], after the arguments were parsed into [session]. *)
Definition main_with (ms : Collectors) (session : option pystr)
    (w : world) (s : state) : result () * state :=
  match load_config w with
  | Raise e => (Raise e, s)
  | Ok config =>
      let '(r, s) := main_try_with ms session config w s in
      (match r with
       | Raise KeyboardInterrupt => Raise (SystemExit 130)
       | Raise (Exception _ _) => Raise (SystemExit 1)
       | other => other
       end, s)
  end.

Definition main : option pystr -> world -> state -> result () * state :=
  main_with modules.

End Analyzer.

(** ** ai_package_reporter.py: start-up and entry point *)

Module Reporter.
Import Py Host.

(** What the script does that can be observed from outside. *)
Inductive action : Type :=
| Print (text : pystr)
| CreateClient (api_key : pystr)
| RunMain.

Definition msg_no_key : pystr :=
  [10060] ++ lit " ERRO: Vari" ++ [225] ++
  lit "vel GEMINI_API_KEY n" ++ [227] ++ lit "o encontrada!".
Definition msg_configure : pystr :=
  lit "Configure com: export GEMINI_API_KEY='sua_chave_aqui'".

(** [os.getenv(name)] *)
Definition getenv (environ : gmap string pystr) (name : string)
    : option pystr :=
  environ !! name.

(** The module-level statements before the definitions: the key is read,
    and the client is built only with a non-empty key. *)
Definition startup (environ : gmap string pystr)
    : list action * result pystr :=
  match getenv environ "GEMINI_API_KEY" with
  | Some (c :: key) => ([CreateClient (c :: key)], Ok (c :: key))
  | _ => ([Print msg_no_key; Print msg_configure], Raise (SystemExit 1))
  end.

Definition fence_json : pystr := lit "```json".
Definition fence : pystr := lit "```".

(** In [chamar_gemini], the text that is handed to [json.loads] for the
    text of a response: a markdown fence is taken off, then what stands
    from the first opening brace to the last closing brace is kept. *)
Definition extract_json_text (text : pystr) : pystr :=
  let resultado := strip text in
  let json_text :=
    if contains fence_json resultado then
      let json_start := find fence_json resultado 0 + 7 in
      let json_end := find fence resultado (Z.to_nat json_start) in
      if json_start <? json_end
      then strip (slice resultado json_start json_end)
      else resultado
    else if contains fence resultado then
      let json_start := find fence resultado 0 + 3 in
      let json_end := rfind fence resultado in
      if json_start <? json_end
      then strip (slice resultado json_start json_end)
      else resultado
    else resultado in
  let first_brace := find [123] json_text 0 in
  let last_brace := rfind [125] json_text in
  if negb (first_brace =? -1) && negb (last_brace =? -1)
  then slice json_text first_brace (last_brace + 1)
  else json_text.

(** The helpers of [main] reach the disk, the network and the terminal;
    each is given by what it returns ([None] after a failure it reports
    itself) or raises. *)
Record session : Type := {
  obter_ultimo_json : result (option pystr);
  ler_json : result (option pyval);
  chamar_gemini : result (option pyval);
  preencher_template : result (option pystr);
  salvar_html : result (option pystr);
  (** The answers read by [input()], one per call; reading past the last
      one is [EOFError]. *)
  stdin : list (result pystr);
  abrir_no_navegador : result bool;
}.

(** A step that [main] follows with [if not x: sys.exit(1)]. *)
Definition required {A} (step : result (option A)) : result A :=
  x ← step;
  match x with
  | Some a => Ok a
  | None => Raise (SystemExit 1)
  end.

Definition is_yes (a : pystr) : bool :=
  pystr_eqb a (lit "s") || pystr_eqb a (lit "sim")
  || pystr_eqb a (lit "y") || pystr_eqb a (lit "yes").

Definition is_no (a : pystr) : bool :=
  pystr_eqb a (lit "n") || pystr_eqb a (lit "nao")
  || pystr_eqb a (lit "n" ++ [227] ++ lit "o") || pystr_eqb a (lit "no").

(** The [while True] loop that asks whether to open the browser. *)
Fixpoint ask_open (ss : session) (answers : list (result pystr)) : result () :=
  match answers with
  | [] => Raise (Exception "EOFError" (lit "EOF when reading a line"))
  | Raise e :: _ => Raise e
  | Ok line :: rest =>
      let abrir := lower (strip line) in
      if is_yes abrir then _ ← abrir_no_navegador ss; Ok ()
      else if is_no abrir then Ok ()
      else ask_open ss rest
  end.

Definition main_try (ss : session) : result () :=
  _ ← required (obter_ultimo_json ss);
  _ ← required (ler_json ss);
  _ ← required (chamar_gemini ss);
  _ ← required (preencher_template ss);
  _ ← required (salvar_html ss);
  ask_open ss (stdin ss).

Definition main (ss : session) : result () :=
  match main_try ss with
  | Raise KeyboardInterrupt => Raise (SystemExit 130)
  | Raise (Exception _ _) => Raise (SystemExit 1)
  | other => other
  end.

(** The whole script: start-up, then [main()] under the [__main__] guard. *)
Definition script (environ : gmap string pystr) (ss : session)
    : list action * result () :=
  match startup environ with
  | (trace, Raise e) => (trace, Raise e)
  | (trace, Ok _) => (trace ++ [RunMain], main ss)
  end.

End Reporter.

(** * Vocabulary of the properties *)

Module Spec.
Import Py Host Text.

(** What a collector call comes to, as long as it neither is interrupted
    nor exits: it returns a value or raises an [Exception]. *)
Inductive collector_outcome : Type :=
| Returns (v : pyval)
| Fails (cls : string) (msg : pystr).

Definition outcome_result (o : collector_outcome) : result pyval :=
  match o with
  | Returns v => Ok v
  | Fails cls msg => Raise (Exception cls msg)
  end.

(** The entry the aggregator stores for an outcome. *)
Definition outcome_entry (o : collector_outcome) : pyval :=
  match o with
  | Returns v => v
  | Fails _ msg => VDict [("error", VStr msg)]
  end.


(** A collector that comes to a given outcome. *)
Definition stub (o : collector_outcome) : pyval -> world -> result pyval :=
  fun _ _ => outcome_result o.

Definition stubs (p u o c d : collector_outcome) : Analyzer.Collectors := {|
  Analyzer.packages_collect := stub p;
  Analyzer.updates_collect := stub u;
  Analyzer.orphans_collect := stub o;
  Analyzer.cache_collect := stub c;
  Analyzer.dependencies_collect := stub d;
|}.

(** [v[k]] of a dict, when there is one. *)
Definition field (v : pyval) (k : string) : option pyval :=
  match v with
  | VDict d => dict_get d k
  | _ => None
  end.

(** [report["summary"][k]] *)
Definition summary_field (report : pyval) (k : string) : option pyval :=
  s ← field report "summary"; field s k.

(** The length of the list stored under [k]. *)
Definition list_length_at (v : pyval) (k : string) : option nat :=
  match field v k with
  | Some (VList l) => Some (length l)
  | _ => None
  end.

Definition sample_time : datetime :=
  {| year := 2025; month := 3; day := 9;
     hour := 14; minute := 5; second := 7; microsecond := 0 |}.

(** A host on which every command exits with [rc] and prints nothing; the
    cache directory holds the files of sizes [cache]. *)
Definition silent_world (rc : Z) (cache : list Z) : world := {|
  subprocess_run := fun _ => Ok {| returncode := rc; stdout := [] |};
  cache_walk := Ok (Some (Ok <$> cache));
  clock := fun _ => sample_time;
  posix_timestamp := fun _ => 1741529107;
  config_json := ConfigNotFound;
  mkdir_fault := fun _ => None;
  open_fault := fun _ => None;
  fromtimestamp := fun _ => Some sample_time;
  database_insert := fun _ _ => Ok ();
|}.

Definition initial_state : Analyzer.state :=
  {| Analyzer.ticks := 0; Analyzer.files := ∅ |}.

(** Every command of the host completes and prints nothing. *)
Definition all_output_empty (w : world) : Prop :=
  forall argv, exists rc,
    subprocess_run w argv = Ok {| returncode := rc; stdout := [] |}.

(** An exception that [except Exception] does not catch. *)
Definition uncaught (e : py_exc) : Prop :=
  match e with
  | Exception _ _ => False
  | _ => True
  end.

(** What a function ending in [except Exception: ...; return acc] can
    give: a value, or an exception that is not an [Exception]. *)
Definition guarded {A} (r : result A) : Prop :=
  match r with
  | Ok _ => True
  | Raise e => uncaught e
  end.

(** The result of a collector respects the caps [caps], a list of keys
    with the greatest length allowed for the list under each key; a
    collector raises nothing that [except Exception] would catch. *)
Definition capped (r : result pyval) (caps : list (string * nat)) : Prop :=
  match r with
  | Ok v =>
      Forall (fun kc => exists n, list_length_at v kc.1 = Some n /\ (n <= kc.2)%nat)
             caps
  | Raise e => uncaught e
  end.

(** A number in hundredths: an [int] [n] is [100 * n], a two-place float
    is its own count. *)
Definition hundredths_of (v : pyval) : option Z :=
  match v with
  | VInt n => Some (100 * n)
  | VFloat h => Some h
  | _ => None
  end.

(** The five rules of the issue list, in the order of the code: the type
    and severity of the issue each rule adds when its condition holds. *)
Definition rule_kinds (total_updates security_updates orphaned_count : Z)
    (can_clean has_issues : bool) : list (string * string) :=
  (if 0 <? total_updates then [("updates", "info")] else []) ++
  (if 0 <? security_updates then [("security", "warning")] else []) ++
  (if 10 <? orphaned_count then [("orphans", "info")] else []) ++
  (if can_clean then [("cache", "info")] else []) ++
  (if has_issues then [("dependencies", "warning")] else []).

(** The type and the severity of an issue. *)
Definition issue_kind (i : pyval) : option (pystr * pystr) :=
  match field i "type", field i "severity" with
  | Some (VStr t), Some (VStr s) => Some (t, s)
  | _, _ => None
  end.

Definition kind_of_rule (ts : string * string) : option (pystr * pystr) :=
  Some (lit ts.1, lit ts.2).

(** Merged metrics with given counters and flags. *)
Definition sample_metrics (total_updates security_updates orphaned_count : Z)
    (can_clean has_issues : bool) : pyval :=
  VDict [("packages", VDict [("error", VStr (lit "boom"))]);
         ("updates", VDict [("total_updates", VInt total_updates);
                            ("security_updates", VInt security_updates)]);
         ("orphans", VDict [("orphaned_count", VInt orphaned_count)]);
         ("cache", VDict [("total_size_mb", VFloat 25012);
                          ("can_clean", VBool can_clean)]);
         ("dependencies", VDict [("has_issues", VBool has_issues)])].

(** A reporter session in which every helper succeeds and the user
    declines to open the browser. *)
Definition sample_session : Reporter.session := {|
  Reporter.obter_ultimo_json := Ok (Some (lit "packages_20250309_140507.json"));
  Reporter.ler_json := Ok (Some (VDict []));
  Reporter.chamar_gemini := Ok (Some (VDict []));
  Reporter.preencher_template := Ok (Some (lit "<html></html>"));
  Reporter.salvar_html := Ok (Some (lit "report.html"));
  Reporter.stdin := [Ok (lit "n")];
  Reporter.abrir_no_navegador := Ok true;
|}.

(** The ranges of the fields of a [datetime]; the year has four digits. *)
Definition valid_datetime (t : datetime) : Prop :=
  1000 <= year t <= 9999 /\ 1 <= month t <= 12 /\ 1 <= day t <= 31 /\
  0 <= hour t <= 23 /\ 0 <= minute t <= 59 /\ 0 <= second t <= 59.

(** A time at the granularity of the second. *)
Definition second_stamp (t : datetime) : Z * Z * Z * Z * Z * Z :=
  (year t, month t, day t, hour t, minute t, second t).

(** [os.path.basename(path)] *)
Definition basename (path : pystr) : pystr :=
  default [] (last (split_on 47 path)).

(** [w] decimal digits. *)
Definition all_digits (w : nat) (s : pystr) : Prop :=
  length s = w /\ Forall (fun c => is_digit c = true) s.

(** The check that [zfill w n] is [n] written with [w] digits. *)
Definition zfill_ok (w : nat) (n : Z) : bool :=
  (length (zfill w n) =? w)%nat && forallb is_digit (zfill w n)
  && (digits_value (zfill w n) =? n).

(** A file name: not empty, not [.], without a slash. *)
Definition simple_name (f : pystr) : Prop :=
  f <> [] /\ f <> lit "." /\ Forall (fun c => c <> 47) f.

(** A silent host whose clock advances by one second at each reading. *)
Definition ticking_world : world := {|
  subprocess_run := fun _ => Ok {| returncode := 0; stdout := [] |};
  cache_walk := Ok None;
  clock := fun n =>
    {| year := 2025; month := 3; day := 9; hour := 14; minute := 5;
       second := 7 + Z.of_nat (n mod 50); microsecond := 0 |};
  posix_timestamp := fun _ => 1741529107;
  config_json := ConfigNotFound;
  mkdir_fault := fun _ => None;
  open_fault := fun _ => None;
  fromtimestamp := fun _ => None;
  database_insert := fun _ _ => Ok ();
|}.

Definition sample_config : pyval :=
  VDict [("output_dir", VStr (lit "/var/tmp/reports/"))].

(** A decimal literal from its digits before and after the point. *)
Definition decimal_text (ip fp : pystr) : pystr :=
  match fp with
  | [] => ip
  | _ => ip ++ [46] ++ fp
  end.

(** The text ["<value> <unit>"] of a size. *)
Definition size_text (ip fp : pystr) (unit : Z) : pystr :=
  decimal_text ip fp ++ [32; unit].

Definition digit_string (s : pystr) : Prop :=
  Forall (fun c => is_digit c = true) s.

(** The power of 1024 of a unit letter: k, m, g. *)
Definition unit_power (unit : Z) : option nat :=
  if unit =? 107 then Some 1%nat
  else if unit =? 109 then Some 2%nat
  else if unit =? 103 then Some 3%nat
  else None.

(** The bytes computed for the value [ip.fp] in a unit of [1024 ^ k] are
    within one of [value * 1024 ^ k]; the value is
    [digits_value (ip ++ fp) / 10 ^ length fp], and the inequality is
    cleared of the denominator. *)
Definition size_within_one (ip fp : pystr) (unit : Z) (k : nat) : Prop :=
  exists bytes,
    Packages.size_to_bytes (size_text ip fp unit) = Ok (Some bytes) /\
    Z.abs (bytes * 10 ^ Z.of_nat (length fp)
           - digits_value (ip ++ fp) * 1024 ^ Z.of_nat k)
    <= 10 ^ Z.of_nat (length fp).

(** A silent host on which [dnf info] prints three lines for any package. *)
Definition info_world : world := {|
  subprocess_run := fun argv =>
    match argv with
    | [_; sub; _] =>
        if bool_decide (sub = lit "info")
        then Ok {| returncode := 0;
                   stdout := lit "Name         : bash" ++ [10] ++
                             lit "Size         : 1.2 M" ++ [10] ++
                             lit "Summary      : The GNU shell" ++ [10] |}
        else Ok {| returncode := 0; stdout := [] |}
    | _ => Ok {| returncode := 0; stdout := [] |}
    end;
  cache_walk := Ok None;
  clock := fun _ => sample_time;
  posix_timestamp := fun _ => 1741529107;
  config_json := ConfigNotFound;
  mkdir_fault := fun _ => None;
  open_fault := fun _ => None;
  fromtimestamp := fun _ => Some sample_time;
  database_insert := fun _ _ => Ok ();
|}.

(** A host on which the user interrupts the first command. *)
Definition interrupted_world : world := {|
  subprocess_run := fun _ => Raise KeyboardInterrupt;
  cache_walk := Ok None;
  clock := fun _ => sample_time;
  posix_timestamp := fun _ => 1741529107;
  config_json := ConfigNotFound;
  mkdir_fault := fun _ => None;
  open_fault := fun _ => None;
  fromtimestamp := fun _ => Some sample_time;
  database_insert := fun _ _ => Ok ();
|}.

(** A silent host on which no file can be opened for writing. *)
Definition readonly_world : world := {|
  subprocess_run := fun _ => Ok {| returncode := 0; stdout := [] |};
  cache_walk := Ok None;
  clock := fun _ => sample_time;
  posix_timestamp := fun _ => 1741529107;
  config_json := ConfigNotFound;
  mkdir_fault := fun _ => None;
  open_fault := fun _ =>
    Some (Exception "PermissionError" (lit "Permission denied"));
  fromtimestamp := fun _ => Some sample_time;
  database_insert := fun _ _ => Ok ();
|}.

(** The five fields that the rules read, as the metrics hold them: ints
    for the counters, bools for the flags, and a size next to a true
    [can_clean]. *)
Definition metrics_fields (metrics : pyval)
    (total_updates security_updates orphaned_count : Z)
    (can_clean has_issues : bool) : Prop :=
  Analyzer.get2 metrics "updates" "total_updates" (VInt 0)
    = Ok (VInt total_updates) /\
  Analyzer.get2 metrics "updates" "security_updates" (VInt 0)
    = Ok (VInt security_updates) /\
  Analyzer.get2 metrics "orphans" "orphaned_count" (VInt 0)
    = Ok (VInt orphaned_count) /\
  Analyzer.get2 metrics "cache" "can_clean" (VBool false)
    = Ok (VBool can_clean) /\
  Analyzer.get2 metrics "dependencies" "has_issues" (VBool false)
    = Ok (VBool has_issues) /\
  (can_clean = true ->
   exists size, Analyzer.subscript2 metrics "cache" "total_size_mb" = Ok size).

(** [p] stands before [q] in a list ordered by size, largest first. *)
Definition size_ge (p q : Packages.pkg_size) : Prop :=
  Packages.ps_size_bytes q <= Packages.ps_size_bytes p.

(** The host [w] with another session hook. *)
Definition with_database (w : world) (hook : pystr -> pyval -> result ())
    : world := {|
  subprocess_run := subprocess_run w;
  cache_walk := cache_walk w;
  clock := clock w;
  posix_timestamp := posix_timestamp w;
  config_json := config_json w;
  mkdir_fault := mkdir_fault w;
  open_fault := open_fault w;
  fromtimestamp := fromtimestamp w;
  database_insert := hook;
|}.

(** A host on which every command prints [out] and exits with [rc]. *)
Definition printing_world (rc : Z) (out : pystr) : world := {|
  subprocess_run := fun _ => Ok {| returncode := rc; stdout := out |};
  cache_walk := Ok None;
  clock := fun _ => sample_time;
  posix_timestamp := fun _ => 1741529107;
  config_json := ConfigNotFound;
  mkdir_fault := fun _ => None;
  open_fault := fun _ => None;
  fromtimestamp := fun _ => Some sample_time;
  database_insert := fun _ _ => Ok ();
|}.

(** A non-empty text without white space. *)
Definition is_word (s : pystr) : bool :=
  match s with
  | [] => false
  | _ => forallb (fun c => negb (isspace c)) s
  end.

(** A row of the tables that [dnf list] and [dnf check-update] print:
    [name.arch], version and repository in columns, with at least one
    blank between two columns. *)
Record table_row : Type := {
  row_name : pystr;
  row_arch : pystr;
  row_version : pystr;
  row_repo : pystr;
  row_gap1 : nat;
  row_gap2 : nat;
}.

Definition render_row (r : table_row) : pystr :=
  row_name r ++ lit "." ++ row_arch r ++ replicate (S (row_gap1 r)) 32 ++
  row_version r ++ replicate (S (row_gap2 r)) 32 ++ row_repo r.

(** The columns are words and the architecture has no dot. *)
Definition row_ok (r : table_row) : bool :=
  is_word (row_name r) && is_word (row_arch r) &&
  forallb (fun c => negb (c =? 46)) (row_arch r) &&
  is_word (row_version r) && is_word (row_repo r).

Definition update_of_row (r : table_row) : Updates.update_record :=
  {| Updates.up_package := row_name r;
     Updates.up_new_version := row_version r;
     Updates.up_repository := row_repo r |}.

Definition installed_of_row (r : table_row) : Packages.installed :=
  {| Packages.in_name := row_name r;
     Packages.in_version := row_version r;
     Packages.in_repository := row_repo r |}.

(** The lines, each followed by a line feed. *)
Definition print_lines (lines : list pystr) : pystr :=
  join [10] lines ++ [10].

(** A line that begins and ends with a character other than white space
    and has no line feed. *)
Definition is_line (s : pystr) : bool :=
  match s with
  | [] => false
  | c :: _ => negb (isspace c) && negb (isspace (List.last s 32))
              && forallb (fun c => negb (c =? 10)) s
  end.

Definition sample_row : table_row :=
  {| row_name := lit "bash"; row_arch := lit "x86_64";
     row_version := lit "5.2.26-3.fc40"; row_repo := lit "updates";
     row_gap1 := 20; row_gap2 := 4 |}.

(** [s] begins and ends with a character other than white space. *)
Definition framed (s : pystr) : Prop :=
  (exists c t, s = c :: t /\ isspace c = false) /\
  (exists t d, s = t ++ [d] /\ isspace d = false).

(** The rows that [get_updates_available] and [get_all_packages] keep. *)
Definition update_row_ok (r : table_row) : bool :=
  row_ok r && negb (startswith (lit "Last") (row_name r))
  && negb (startswith (lit "Security") (row_name r)).

Definition installed_row_ok (r : table_row) : bool :=
  row_ok r && negb (startswith (lit "Installed") (row_name r)).

(** Only white space. *)
Definition is_blank (s : pystr) : bool := forallb isspace s.

(** The character [x] does not occur in [s]. *)
Definition lacks (x : Z) (s : pystr) : bool :=
  forallb (fun c => negb (c =? x)) s.

(** A text in braces. *)
Definition in_braces (body : pystr) : pystr := lit "{" ++ body ++ lit "}".

(** An answer in ASCII, where [lower] is exact, that the loop of the
    reporter takes neither for a yes nor for a no. *)
Definition ignored_answer (a : result pystr) : bool :=
  match a with
  | Ok line =>
      forallb (fun c => c <? 128) line
      && negb (Reporter.is_yes (lower (strip line)))
      && negb (Reporter.is_no (lower (strip line)))
  | Raise _ => false
  end.

End Spec.

(** * Properties *)

Import Py Host Text Spec.

(** ** Aggregation: the failure boundary of [collect_all_metrics] *)

Lemma collect_into_outcome metrics k o :
  Analyzer.collect_into metrics k (outcome_result o)
  = Ok (dict_set metrics k (outcome_entry o)).
Proof. destruct o; reflexivity. Qed.

(** C1. Whatever subset of the five collectors raises an exception,
    [collect_all_metrics] returns a dict with exactly the five keys
    packages, updates, orphans, cache and dependencies; the key of a
    collector that raised [e] holds [{"error": str(e)}], the key of a
    collector that returned holds its value, and nothing is raised. *)
Theorem collect_all_metrics_five_keys
    (ms : Analyzer.Collectors) (config : pyval) (w : world)
    (p u o c d : collector_outcome) :
  Analyzer.packages_collect ms config w = outcome_result p ->
  Analyzer.updates_collect ms config w = outcome_result u ->
  Analyzer.orphans_collect ms config w = outcome_result o ->
  Analyzer.cache_collect ms config w = outcome_result c ->
  Analyzer.dependencies_collect ms config w = outcome_result d ->
  Analyzer.collect_all_metrics_with ms config w
  = Ok (VDict [("packages", outcome_entry p);
               ("updates", outcome_entry u);
               ("orphans", outcome_entry o);
               ("cache", outcome_entry c);
               ("dependencies", outcome_entry d)]).
Proof.
  intros Hp Hu Ho Hc Hd. unfold Analyzer.collect_all_metrics_with.
  rewrite Hp, Hu, Ho, Hc, Hd.
  repeat (rewrite collect_into_outcome; cbn).
  reflexivity.
Qed.

(** The first of the outcomes above with a failing updates collector. *)
Lemma collect_all_metrics_five_keys_witness :
  Analyzer.collect_all_metrics_with
    (stubs (Returns (VDict [])) (Fails "RuntimeError" (lit "boom"))
           (Returns (VDict [])) (Returns (VDict [])) (Returns (VDict [])))
    (VDict []) (silent_world 0 [])
  = Ok (VDict [("packages", VDict []);
               ("updates", VDict [("error", VStr (lit "boom"))]);
               ("orphans", VDict []);
               ("cache", VDict []);
               ("dependencies", VDict [])]).
Proof.
  apply (collect_all_metrics_five_keys
           (stubs (Returns (VDict [])) (Fails "RuntimeError" (lit "boom"))
                  (Returns (VDict [])) (Returns (VDict [])) (Returns (VDict [])))
           (VDict []) (silent_world 0 [])
           (Returns (VDict [])) (Fails "RuntimeError" (lit "boom"))
           (Returns (VDict [])) (Returns (VDict [])) (Returns (VDict [])));
    reflexivity.
Defined.

(** An interrupt is not a collector failure: it leaves the aggregator. *)
Lemma collect_all_metrics_interrupt ms config w :
  Analyzer.packages_collect ms config w = Raise KeyboardInterrupt ->
  Analyzer.collect_all_metrics_with ms config w = Raise KeyboardInterrupt.
Proof.
  intros H. unfold Analyzer.collect_all_metrics_with. rewrite H. reflexivity.
Qed.

(** ** End to end on a silent host *)

(** C3, at the input where the code departs from the specification: every command
    exits 0 with empty output and the cache is empty. The report counts
    one package, since [''.split('\n')] is [['']]; updates and issues
    are 0. *)
Theorem silent_host_counts_one_package :
  exists report s,
    Analyzer.generate_report (VDict []) (silent_world 0 []) initial_state
    = (Ok report, s) /\
    summary_field report "total_packages" = Some (VInt 1) /\
    summary_field report "total_updates" = Some (VInt 0) /\
    summary_field report "total_issues" = Some (VInt 0).
Proof.
  eexists _, _. split; [vm_compute; reflexivity|].
  repeat split.
Qed.

(** ** Truncation of the record lists *)

Lemma except_Exception_return_cases {A} (e : py_exc) (acc : A) :
  (exists cls msg, e = Exception cls msg /\ except_Exception_return e acc = Ok acc)
  \/ (uncaught e /\ except_Exception_return e acc = Raise e).
Proof. destruct e; simpl; eauto. Qed.

Lemma guarded_except {A} (e : py_exc) (acc : A) :
  guarded (except_Exception_return e acc).
Proof. destruct e; simpl; auto. Qed.

#[local] Hint Resolve guarded_except : core.

Ltac guarded_tac :=
  repeat match goal with
         | |- guarded (match ?x with _ => _ end) => destruct x
         | |- guarded (if ?c then _ else _) => destruct c
         | |- guarded (Ok _) => exact I
         | |- guarded (except_Exception_return _ _) => apply guarded_except
         end.

Lemma get_package_count_guarded w : guarded (Packages.get_package_count w).
Proof. unfold Packages.get_package_count. guarded_tac. Qed.

Lemma get_packages_by_size_guarded w :
  guarded (Packages.get_packages_by_size w).
Proof. unfold Packages.get_packages_by_size. guarded_tac. Qed.

Lemma get_updates_available_guarded w :
  guarded (Updates.get_updates_available w).
Proof. unfold Updates.get_updates_available. guarded_tac. Qed.

Lemma get_security_updates_guarded w :
  guarded (Updates.get_security_updates w).
Proof. unfold Updates.get_security_updates. guarded_tac. Qed.

Lemma get_orphaned_packages_guarded w :
  guarded (Orphans.get_orphaned_packages w).
Proof. unfold Orphans.get_orphaned_packages. guarded_tac. Qed.

Lemma get_autoremovable_packages_guarded w :
  guarded (Orphans.get_autoremovable_packages w).
Proof. unfold Orphans.get_autoremovable_packages. guarded_tac. Qed.

Lemma length_take_le {A} (n : nat) (l : list A) : (length (take n l) <= n)%nat.
Proof. rewrite length_take. lia. Qed.

Lemma length_fmap_take_le {A B} (f : A -> B) (n : nat) (l : list A) :
  (length (f <$> take n l) <= n)%nat.
Proof. rewrite length_fmap. apply length_take_le. Qed.

Lemma collect_package_metrics_capped config w :
  capped (Packages.collect_package_metrics config w)
         [("largest_packages", 20%nat); ("all_packages_sample", 100%nat)].
Proof.
  unfold Packages.collect_package_metrics.
  pose proof (get_package_count_guarded w) as Hc.
  pose proof (get_packages_by_size_guarded w) as Hs.
  destruct (Packages.get_package_count w) as [counts|e]; [|exact Hc].
  destruct (Packages.get_packages_by_size w) as [by_size|e]; [|exact Hs].
  cbn. repeat constructor.
  - eexists. split; [reflexivity|]. apply length_fmap_take_le.
  - eexists. split; [reflexivity|]. apply length_fmap_take_le.
Qed.

Lemma collect_update_metrics_capped config w :
  capped (Updates.collect_update_metrics config w)
         [("updates_list", 30%nat); ("security_list", 10%nat)].
Proof.
  unfold Updates.collect_update_metrics, Updates.get_update_summary.
  pose proof (get_updates_available_guarded w) as Hu.
  pose proof (get_security_updates_guarded w) as Hs.
  destruct (Updates.get_updates_available w) as [updates|e]; [|exact Hu].
  destruct (Updates.get_security_updates w) as [security|e]; [|exact Hs].
  cbn. repeat constructor.
  - eexists. split; [reflexivity|]. apply length_fmap_take_le.
  - eexists. split; [reflexivity|]. apply length_fmap_take_le.
Qed.

Lemma collect_orphan_metrics_capped config w :
  capped (Orphans.collect_orphan_metrics config w)
         [("orphaned_packages", 50%nat); ("autoremovable_packages", 30%nat)].
Proof.
  unfold Orphans.collect_orphan_metrics.
  pose proof (get_orphaned_packages_guarded w) as Ho.
  pose proof (get_autoremovable_packages_guarded w) as Ha.
  destruct (Orphans.get_orphaned_packages w) as [orphaned|e]; [|exact Ho].
  destruct (Orphans.get_autoremovable_packages w) as [autoremove|e]; [|exact Ha].
  cbn. repeat constructor.
  - eexists. split; [reflexivity|]. apply length_fmap_take_le.
  - eexists. split; [reflexivity|]. apply length_fmap_take_le.
Qed.

(** C6. Whatever the commands print, the packages collector returns at
    most 20 [largest_packages] and at most 100 [all_packages_sample], the
    updates collector at most 30 [updates_list] and 10 [security_list]
    entries, and the orphans collector at most 50 [orphaned_packages] and
    30 [autoremovable_packages] entries. *)
Theorem collectors_truncate_lists (config : pyval) (w : world) :
  capped (Packages.collect_package_metrics config w)
         [("largest_packages", 20%nat); ("all_packages_sample", 100%nat)] /\
  capped (Updates.collect_update_metrics config w)
         [("updates_list", 30%nat); ("security_list", 10%nat)] /\
  capped (Orphans.collect_orphan_metrics config w)
         [("orphaned_packages", 50%nat); ("autoremovable_packages", 30%nat)].
Proof.
  split; [apply collect_package_metrics_capped|].
  split; [apply collect_update_metrics_capped|apply collect_orphan_metrics_capped].
Qed.

(** ** The cache collector *)

Lemma dict_get_set_eq d k v : dict_get (dict_set d k v) k = Some v.
Proof.
  induction d as [|[k' v'] d IH]; simpl.
  - rewrite String.eqb_refl. reflexivity.
  - destruct (String.eqb k k') eqn:E; simpl; rewrite E; auto.
Qed.

Lemma dict_get_set_ne d k k' v :
  k <> k' -> dict_get (dict_set d k v) k' = dict_get d k'.
Proof.
  intros Hne. induction d as [|[k0 v0] d IH]; simpl.
  - destruct (String.eqb k' k) eqn:E; [|reflexivity].
    apply String.eqb_eq in E. congruence.
  - destruct (String.eqb k k0) eqn:E; simpl.
    + apply String.eqb_eq in E. subst k0.
      destruct (String.eqb k' k) eqn:E'; [|reflexivity].
      apply String.eqb_eq in E'. congruence.
    + destruct (String.eqb k' k0); auto.
Qed.

Lemma get_cache_size_guarded w : guarded (Cache.get_cache_size w).
Proof. unfold Cache.get_cache_size. guarded_tac. Qed.

Lemma get_cache_info_dnf_guarded w : guarded (Cache.get_cache_info_dnf w).
Proof. unfold Cache.get_cache_info_dnf. guarded_tac. Qed.

(** The size entry of [get_cache_size]: the int 0 of the initial dict, or
    the rounded size of the walk. *)
Lemma get_cache_size_total_size_mb w cache_size :
  Cache.get_cache_size w = Ok cache_size ->
  exists v h, dict_get cache_size "total_size_mb" = Some v /\
              hundredths_of v = Some h.
Proof.
  unfold Cache.get_cache_size.
  destruct (cache_walk w) as [[sizes|]|e].
  - intros [= <-]. eexists _, _. split; reflexivity.
  - intros [= <-]. eexists _, _. split; reflexivity.
  - destruct e; simpl; intros [= <-].
    eexists _, _. split; reflexivity.
Qed.

(** The only key [get_cache_info_dnf] may set. *)
Lemma get_cache_info_dnf_keys w cache_info :
  Cache.get_cache_info_dnf w = Ok cache_info ->
  cache_info = [] \/ exists s, cache_info = [("cache_size_human", VStr s)].
Proof.
  unfold Cache.get_cache_info_dnf.
  destruct (sh w _) as [r|e].
  - destruct (returncode r =? 0); [|intros [= <-]; auto].
    destruct (split_ws (stdout r)); intros [= <-]; eauto.
  - destruct e; simpl; intros [= <-]; auto.
Qed.

Lemma gt_int_hundredths v h n :
  hundredths_of v = Some h ->
  exists b, gt_int v n = Ok b /\ (b = true <-> 100 * n < h).
Proof.
  destruct v; simpl; try discriminate; intros [= <-]; eexists; split;
    try reflexivity; rewrite Z.ltb_lt; lia.
Qed.

(** The size and the flag in a result of [collect_cache_metrics]. *)
Lemma collect_cache_metrics_fields (config : pyval) (w : world) :
  match Cache.collect_cache_metrics config w with
  | Ok metrics =>
      exists size h b,
        field metrics "total_size_mb" = Some size /\
        hundredths_of size = Some h /\
        field metrics "can_clean" = Some (VBool b) /\
        (b = true <-> 100 * 100 < h)
  | Raise e => uncaught e
  end.
Proof.
  unfold Cache.collect_cache_metrics.
  pose proof (get_cache_size_guarded w) as Hg.
  pose proof (get_cache_size_total_size_mb w) as Hsz.
  destruct (Cache.get_cache_size w) as [cache_size|e]; [|exact Hg].
  destruct (Hsz _ eq_refl) as (size & h & Hget & Hh). clear Hsz Hg.
  pose proof (get_cache_info_dnf_guarded w) as Hg.
  pose proof (get_cache_info_dnf_keys w) as Hk.
  destruct (Cache.get_cache_info_dnf w) as [cache_info|e]; [|exact Hg].
  cbn. rewrite Hget. cbn.
  destruct (gt_int_hundredths size h 100 Hh) as (b & Hgt & Hb).
  rewrite Hgt. cbn.
  exists size, h, b. split; [|split; [exact Hh|split; [|exact Hb]]].
  - rewrite dict_get_set_ne by discriminate.
    destruct (Hk _ eq_refl) as [->|[s ->]]; cbn; [exact Hget|].
    rewrite dict_get_set_ne by discriminate. exact Hget.
  - apply dict_get_set_eq.
Qed.

(** C10. In every result of [collect_cache_metrics], [can_clean] is true
    exactly when the [total_size_mb] of the same result exceeds 100 (the
    size is counted in hundredths of a megabyte, so 100 MB is 10000). *)
Theorem can_clean_iff_over_100_mb (config : pyval) (w : world) :
  match Cache.collect_cache_metrics config w with
  | Ok metrics =>
      exists size h b,
        field metrics "total_size_mb" = Some size /\
        hundredths_of size = Some h /\
        field metrics "can_clean" = Some (VBool b) /\
        (b = true <-> 100 * 100 < h)
  | Raise e => uncaught e
  end.
Proof. apply collect_cache_metrics_fields. Qed.

(** ** Issue derivation *)

(** A value that [.get(..).get(.., default)] finds and that is not the
    default is the value the subscripts find. *)
Lemma get2_subscript2 metrics section key default v :
  Analyzer.get2 metrics section key default = Ok v ->
  v <> default ->
  Analyzer.subscript2 metrics section key = Ok v.
Proof.
  unfold Analyzer.get2, Analyzer.subscript2.
  destruct metrics as [| | | | | |d]; try discriminate. cbn.
  destruct (dict_get d section) as [sub|]; cbn.
  - destruct sub as [| | | | | |d']; try discriminate. cbn.
    destruct (dict_get d' key); cbn; congruence.
  - congruence.
Qed.

Lemma get2_int_above metrics section key n bound :
  Analyzer.get2 metrics section key (VInt 0) = Ok (VInt n) ->
  (bound <? n) = true -> 0 <= bound ->
  Analyzer.subscript2 metrics section key = Ok (VInt n).
Proof.
  intros H Hlt Hb. apply (get2_subscript2 _ _ _ _ _ H).
  apply Z.ltb_lt in Hlt. intros [= ->]. lia.
Qed.

(** The issue list, rule by rule. *)
Lemma derive_issues_rules (metrics : pyval)
    (total_updates security_updates orphaned_count : Z)
    (can_clean has_issues : bool) :
  Analyzer.get2 metrics "updates" "total_updates" (VInt 0)
    = Ok (VInt total_updates) ->
  Analyzer.get2 metrics "updates" "security_updates" (VInt 0)
    = Ok (VInt security_updates) ->
  Analyzer.get2 metrics "orphans" "orphaned_count" (VInt 0)
    = Ok (VInt orphaned_count) ->
  Analyzer.get2 metrics "cache" "can_clean" (VBool false)
    = Ok (VBool can_clean) ->
  Analyzer.get2 metrics "dependencies" "has_issues" (VBool false)
    = Ok (VBool has_issues) ->
  (can_clean = true ->
   exists size, Analyzer.subscript2 metrics "cache" "total_size_mb" = Ok size) ->
  exists issues,
    Analyzer.derive_issues metrics = Ok issues /\
    issue_kind <$> issues
    = kind_of_rule <$> rule_kinds total_updates security_updates
                                  orphaned_count can_clean has_issues.
Proof.
  intros Hu Hs Ho Hc Hd Hsize. unfold Analyzer.derive_issues, rule_kinds.
  rewrite Hu. cbn.
  destruct (0 <? total_updates) eqn:Eu;
    [rewrite (get2_int_above _ _ _ _ _ Hu Eu) by lia|]; cbn;
  rewrite Hs; cbn;
  (destruct (0 <? security_updates) eqn:Es;
    [rewrite (get2_int_above _ _ _ _ _ Hs Es) by lia|]); cbn;
  rewrite Ho; cbn;
  (destruct (10 <? orphaned_count) eqn:Eo;
    [rewrite (get2_int_above _ _ _ _ _ Ho Eo) by lia|]); cbn;
  rewrite Hc; cbn;
  (destruct can_clean;
    [destruct (Hsize eq_refl) as [size ->]|]); cbn;
  rewrite Hd; cbn;
  destruct has_issues; cbn;
  eexists; split; reflexivity.
Qed.

(** C2. The issues derived from merged metrics are those of the five
    threshold rules and no others: an updates/info issue when
    total_updates > 0, a security/warning issue when security_updates > 0,
    an orphans/info issue when orphaned_count > 10, a cache/info issue when
    can_clean is true and a dependencies/warning issue when has_issues is
    true. The list depends on the metrics alone. The cache section carries
    its size whenever it carries a true flag. *)
Theorem derive_issues_five_rules (metrics : pyval)
    (total_updates security_updates orphaned_count : Z)
    (can_clean has_issues : bool) :
  Analyzer.get2 metrics "updates" "total_updates" (VInt 0)
    = Ok (VInt total_updates) ->
  Analyzer.get2 metrics "updates" "security_updates" (VInt 0)
    = Ok (VInt security_updates) ->
  Analyzer.get2 metrics "orphans" "orphaned_count" (VInt 0)
    = Ok (VInt orphaned_count) ->
  Analyzer.get2 metrics "cache" "can_clean" (VBool false)
    = Ok (VBool can_clean) ->
  Analyzer.get2 metrics "dependencies" "has_issues" (VBool false)
    = Ok (VBool has_issues) ->
  (can_clean = true ->
   exists size, Analyzer.subscript2 metrics "cache" "total_size_mb" = Ok size) ->
  exists issues,
    Analyzer.derive_issues metrics = Ok issues /\
    issue_kind <$> issues
    = kind_of_rule <$> rule_kinds total_updates security_updates
                                  orphaned_count can_clean has_issues.
Proof. apply derive_issues_rules. Qed.

(** The example of the specification: 23 updates of which 5 are security
    updates, with 11 orphans and a cache to clean. *)
Lemma derive_issues_five_rules_witness :
  exists issues,
    Analyzer.derive_issues (sample_metrics 23 5 11 true false) = Ok issues /\
    issue_kind <$> issues
    = kind_of_rule <$> rule_kinds 23 5 11 true false.
Proof.
  apply (derive_issues_five_rules (sample_metrics 23 5 11 true false)
           23 5 11 true false); try reflexivity.
  intros _. eexists. reflexivity.
Defined.

(** With 5 orphans, no orphan issue. *)
Example derive_issues_few_orphans :
  exists issues,
    Analyzer.derive_issues (sample_metrics 0 0 5 false false) = Ok issues /\
    issue_kind <$> issues = [].
Proof. eexists. split; reflexivity. Qed.

(** ** Exit codes *)

(** The body of the [try] of [main] never falls through: it ends in
    [sys.exit(0)] or in what was raised before. *)
Lemma main_try_never_returns ms session config w s u :
  (Analyzer.main_try_with ms session config w s).1 <> Ok u.
Proof.
  unfold Analyzer.main_try_with.
  destruct (Analyzer.generate_report_with ms config w s) as [[report|e] s1];
    cbn; [|discriminate].
  destruct (match Analyzer.session_mode session with
            | Some id => Analyzer.set_session report id
            | None => Ok report
            end) as [report'|e]; cbn; [|discriminate].
  destruct (Analyzer.save_report report' config w s1) as [[path|e] s2];
    cbn; [|discriminate].
  destruct (match Analyzer.session_mode session with
            | Some id => _
            | None => Ok ()
            end) as [[]|e]; cbn; [|discriminate].
  destruct (Analyzer.print_summary report') as [[]|e]; cbn; discriminate.
Qed.

(** C7. Once the configuration is loaded, the exit code of the analyzer is
    0 when the run reaches its final [sys.exit(0)], 130 when a
    [KeyboardInterrupt] is raised inside the run, and 1 when any other
    exception (an instance of [Exception]) is raised inside it. *)
Theorem main_exit_codes (ms : Analyzer.Collectors) (session : option pystr)
    (w : world) (s : Analyzer.state) (config : pyval) :
  Analyzer.load_config w = Ok config ->
  let body := (Analyzer.main_try_with ms session config w s).1 in
  let status := exit_status (Analyzer.main_with ms session w s).1 in
  (body = Raise (SystemExit 0) -> status = 0) /\
  (body = Raise KeyboardInterrupt -> status = 130) /\
  (forall cls msg, body = Raise (Exception cls msg) -> status = 1).
Proof.
  intros Hcfg body status. subst body status.
  unfold Analyzer.main_with. rewrite Hcfg.
  destruct (Analyzer.main_try_with ms session config w s) as [r s'].
  cbn. repeat split.
  - intros ->. reflexivity.
  - intros ->. reflexivity.
  - intros cls msg ->. reflexivity.
Qed.

(** On a silent host whose configuration file is missing. *)
Lemma main_exit_codes_witness :
  let config :=
    VDict [("output_dir",
            VStr (lit "/home/montezuma/.bin/data/scripts-data/reports/packages/raw"))] in
  let body := (Analyzer.main_try_with Analyzer.modules None config
                 (silent_world 0 []) initial_state).1 in
  let status := exit_status (Analyzer.main_with Analyzer.modules None
                               (silent_world 0 []) initial_state).1 in
  (body = Raise (SystemExit 0) -> status = 0) /\
  (body = Raise KeyboardInterrupt -> status = 130) /\
  (forall cls msg, body = Raise (Exception cls msg) -> status = 1).
Proof.
  apply (main_exit_codes Analyzer.modules None (silent_world 0 [])
           initial_state). reflexivity.
Defined.

(** The three codes are reached: a run on a silent host exits 0. *)
Example main_silent_host_exits_0 :
  exit_status (Analyzer.main None (silent_world 0 []) initial_state).1 = 0.
Proof. vm_compute. reflexivity. Qed.

(** ** Start-up of the reporter *)

(** C8. When [GEMINI_API_KEY] is unset or empty, the reporter prints its
    two lines and exits with code 1: no client is built and [main] is not
    run. *)
Theorem reporter_without_key_exits_1 (environ : gmap string pystr)
    (ss : Reporter.session) :
  Reporter.getenv environ "GEMINI_API_KEY" = None \/
  Reporter.getenv environ "GEMINI_API_KEY" = Some [] ->
  Reporter.script environ ss
  = ([Reporter.Print Reporter.msg_no_key; Reporter.Print Reporter.msg_configure],
     Raise (SystemExit 1)) /\
  exit_status (Reporter.script environ ss).2 = 1.
Proof.
  intros H.
  assert (Hs : Reporter.startup environ
               = ([Reporter.Print Reporter.msg_no_key;
                   Reporter.Print Reporter.msg_configure],
                  Raise (SystemExit 1))).
  { unfold Reporter.startup. destruct H as [H|H]; rewrite H; reflexivity. }
  unfold Reporter.script. rewrite Hs. split; reflexivity.
Qed.

Lemma reporter_without_key_exits_1_witness :
  Reporter.script ∅ sample_session
  = ([Reporter.Print Reporter.msg_no_key; Reporter.Print Reporter.msg_configure],
     Raise (SystemExit 1)) /\
  exit_status (Reporter.script ∅ sample_session).2 = 1.
Proof.
  apply (reporter_without_key_exits_1 ∅ sample_session).
  left. reflexivity.
Defined.

(** With a key, the client is built and [main] runs. *)
Example reporter_with_key_runs :
  Reporter.script (<["GEMINI_API_KEY" := lit "k"]> ∅) sample_session
  = ([Reporter.CreateClient (lit "k"); Reporter.RunMain], Ok ()).
Proof. vm_compute. reflexivity. Qed.

(** ** Time stamps and file names *)

Lemma forallb_seq_range (f : nat -> bool) (m : nat) :
  forallb f (seq 0 m) = true -> forall i, (i < m)%nat -> f i = true.
Proof.
  intros H i Hi. rewrite forallb_forall in H. apply H.
  apply in_seq. lia.
Qed.

Lemma zfill_ok_below (w m : nat) :
  forallb (fun i => zfill_ok w (Z.of_nat i)) (seq 0 m) = true ->
  forall n, 0 <= n < Z.of_nat m -> zfill_ok w n = true.
Proof.
  intros H n Hn.
  rewrite <- (Z2Nat.id n) by lia.
  apply (forallb_seq_range _ _ H). lia.
Qed.

Lemma zfill_2_ok n : 0 <= n < 100 -> zfill_ok 2 n = true.
Proof.
  intros Hn. apply (zfill_ok_below 2 (Z.to_nat 100)); [|lia].
  vm_compute. reflexivity.
Qed.

Lemma zfill_4_ok n : 0 <= n < 10000 -> zfill_ok 4 n = true.
Proof.
  intros Hn. apply (zfill_ok_below 4 (Z.to_nat 10000)); [|lia].
  vm_compute. reflexivity.
Qed.

Lemma zfill_ok_spec w n :
  zfill_ok w n = true ->
  all_digits w (zfill w n) /\ digits_value (zfill w n) = n.
Proof.
  unfold zfill_ok, all_digits. rewrite !andb_true_iff.
  intros [[Hl Hd] Hv]. apply Nat.eqb_eq in Hl. apply Z.eqb_eq in Hv.
  rewrite forallb_forall in Hd. repeat split; auto.
  apply Forall_forall. intros c Hc. apply Hd.
  apply list_elem_of_In. exact Hc.
Qed.

Lemma valid_zfill t :
  valid_datetime t ->
  zfill_ok 4 (year t) = true /\ zfill_ok 2 (month t) = true /\
  zfill_ok 2 (day t) = true /\ zfill_ok 2 (hour t) = true /\
  zfill_ok 2 (minute t) = true /\ zfill_ok 2 (second t) = true.
Proof.
  intros (Hy & Hmo & Hd & Hh & Hmi & Hs).
  repeat split; first [apply zfill_4_ok | apply zfill_2_ok]; lia.
Qed.

(** The stamp of a valid time: eight digits, an underscore, six digits. *)
Lemma strftime_file_shape t :
  valid_datetime t ->
  exists date time,
    Analyzer.strftime_file t = date ++ lit "_" ++ time /\
    all_digits 8 date /\ all_digits 6 time.
Proof.
  intros Hv. destruct (valid_zfill t Hv) as (Hy & Hmo & Hd & Hh & Hmi & Hs).
  apply zfill_ok_spec in Hy, Hmo, Hd, Hh, Hmi, Hs.
  destruct Hy as [[Ly Dy] _], Hmo as [[Lmo Dmo] _], Hd as [[Ld Dd] _],
           Hh as [[Lh Dh] _], Hmi as [[Lmi Dmi] _], Hs as [[Ls Ds] _].
  exists (zfill 4 (year t) ++ zfill 2 (month t) ++ zfill 2 (day t)),
         (zfill 2 (hour t) ++ zfill 2 (minute t) ++ zfill 2 (second t)).
  split; [|split].
  - unfold Analyzer.strftime_file. rewrite <- !app_assoc. reflexivity.
  - split; [rewrite !length_app; lia|]. rewrite !Forall_app. auto.
  - split; [rewrite !length_app; lia|]. rewrite !Forall_app. auto.
Qed.

(** Two valid times with the same stamp agree to the second. *)
Lemma strftime_file_inj t1 t2 :
  valid_datetime t1 -> valid_datetime t2 ->
  Analyzer.strftime_file t1 = Analyzer.strftime_file t2 ->
  second_stamp t1 = second_stamp t2.
Proof.
  intros Hv1 Hv2 Heq.
  destruct (valid_zfill t1 Hv1) as (Hy1 & Hmo1 & Hd1 & Hh1 & Hmi1 & Hs1).
  destruct (valid_zfill t2 Hv2) as (Hy2 & Hmo2 & Hd2 & Hh2 & Hmi2 & Hs2).
  apply zfill_ok_spec in Hy1, Hmo1, Hd1, Hh1, Hmi1, Hs1,
                         Hy2, Hmo2, Hd2, Hh2, Hmi2, Hs2.
  destruct Hy1 as [[Ly1 _] Vy1], Hmo1 as [[Lmo1 _] Vmo1],
           Hd1 as [[Ld1 _] Vd1], Hh1 as [[Lh1 _] Vh1],
           Hmi1 as [[Lmi1 _] Vmi1], Hs1 as [[Ls1 _] Vs1],
           Hy2 as [[Ly2 _] Vy2], Hmo2 as [[Lmo2 _] Vmo2],
           Hd2 as [[Ld2 _] Vd2], Hh2 as [[Lh2 _] Vh2],
           Hmi2 as [[Lmi2 _] Vmi2], Hs2 as [[Ls2 _] Vs2].
  unfold Analyzer.strftime_file in Heq.
  apply app_inj_1 in Heq as [Ey Heq]; [|congruence].
  apply app_inj_1 in Heq as [Emo Heq]; [|congruence].
  apply app_inj_1 in Heq as [Ed Heq]; [|congruence].
  apply app_inj_1 in Heq as [_ Heq]; [|reflexivity].
  apply app_inj_1 in Heq as [Eh Heq]; [|congruence].
  apply app_inj_1 in Heq as [Emi Es]; [|congruence].
  unfold second_stamp.
  rewrite <- Vy1, <- Vmo1, <- Vd1, <- Vh1, <- Vmi1, <- Vs1.
  rewrite Ey, Emo, Ed, Eh, Emi, Es.
  rewrite Vy2, Vmo2, Vd2, Vh2, Vmi2, Vs2. reflexivity.
Qed.

(** ** Paths *)

Lemma split_on_nonempty sep s : split_on sep s <> [].
Proof.
  destruct s as [|c s]; simpl; [discriminate|].
  destruct (c =? sep); [discriminate|].
  destruct (split_on sep s); discriminate.
Qed.

Lemma split_on_no_sep sep s :
  Forall (fun c => c <> sep) s -> split_on sep s = [s].
Proof.
  induction 1 as [|c s Hc _ IH]; simpl; [reflexivity|].
  apply Z.eqb_neq in Hc. rewrite Hc, IH. reflexivity.
Qed.

Lemma split_on_app sep a b :
  split_on sep (a ++ sep :: b) = split_on sep a ++ split_on sep b.
Proof.
  induction a as [|c a IH]; simpl.
  - rewrite Z.eqb_refl. reflexivity.
  - destruct (c =? sep); [rewrite IH; reflexivity|].
    rewrite IH. pose proof (split_on_nonempty sep a) as Hne.
    destruct (split_on sep a); [contradiction|reflexivity].
Qed.

Lemma basename_after_slash pre f :
  Forall (fun c => c <> 47) f ->
  basename (pre ++ 47 :: f) = f.
Proof.
  intros Hf. unfold basename.
  rewrite split_on_app, (split_on_no_sep 47 f Hf), last_snoc. reflexivity.
Qed.

Lemma basename_simple f : Forall (fun c => c <> 47) f -> basename f = f.
Proof.
  intros Hf. unfold basename. rewrite (split_on_no_sep 47 f Hf). reflexivity.
Qed.

Lemma Path_of_simple_name f :
  simple_name f ->
  Analyzer.Path_of f = {| Analyzer.root := []; Analyzer.parts := [f] |}.
Proof.
  intros (Hne & Hdot & Hf). unfold Analyzer.Path_of.
  rewrite (split_on_no_sep 47 f Hf).
  assert (Hd : Analyzer.drop_slashes f = f).
  { destruct Hf as [|c f Hc _]; [reflexivity|]. simpl.
    destruct c as [|p|p]; try reflexivity.
    do 6 (destruct p as [p|p|]; try reflexivity). contradiction. }
  rewrite Hd, Nat.sub_diag. f_equal.
  rewrite filter_cons_True by auto. reflexivity.
Qed.

Lemma join_snoc sep ps f :
  ps <> [] -> Text.join sep (ps ++ [f]) = Text.join sep ps ++ sep ++ f.
Proof.
  induction ps as [|p ps IH]; [contradiction|]. intros _.
  destruct ps as [|q ps].
  - reflexivity.
  - change (Text.join sep ((p :: q :: ps) ++ [f]))
      with (p ++ sep ++ Text.join sep ((q :: ps) ++ [f])).
    rewrite IH by discriminate.
    change (Text.join sep (p :: q :: ps))
      with (p ++ sep ++ Text.join sep (q :: ps)).
    rewrite <- !app_assoc. reflexivity.
Qed.

Lemma Path_of_root dir :
  Analyzer.root (Analyzer.Path_of dir) = [] \/
  Analyzer.root (Analyzer.Path_of dir) = lit "/" \/
  Analyzer.root (Analyzer.Path_of dir) = lit "//".
Proof.
  unfold Analyzer.Path_of. cbn.
  destruct (length dir - length (Analyzer.drop_slashes dir))%nat
    as [|[|[|n]]]; auto.
Qed.

Lemma basename_Path_str_snoc r ps f :
  r = [] \/ r = lit "/" \/ r = lit "//" ->
  f <> [] -> Forall (fun c => c <> 47) f ->
  basename (Analyzer.Path_str
              {| Analyzer.root := r; Analyzer.parts := ps ++ [f] |}) = f.
Proof.
  intros Hroot Hne Hf. unfold Analyzer.Path_str. cbn [Analyzer.root Analyzer.parts].
  destruct ps as [|q ps].
  - cbn [app]. destruct Hroot as [-> | [-> | ->]]; cbn.
    + apply basename_simple. exact Hf.
    + apply (basename_after_slash [] f Hf).
    + apply (basename_after_slash [47] f Hf).
  - assert (Hj : r ++ Text.join (lit "/") ((q :: ps) ++ [f])
                 = (r ++ Text.join (lit "/") (q :: ps)) ++ 47 :: f).
    { rewrite join_snoc by discriminate. rewrite <- app_assoc. reflexivity. }
    transitivity (basename ((r ++ Text.join (lit "/") (q :: ps)) ++ 47 :: f)).
    + f_equal. rewrite <- Hj. destruct r; reflexivity.
    + apply basename_after_slash. exact Hf.
Qed.

(** The last component of [Path(dir) / f] is [f]. *)
Lemma basename_Path_div dir f :
  simple_name f ->
  basename (Analyzer.Path_str (Analyzer.Path_div (Analyzer.Path_of dir) f)) = f.
Proof.
  intros Hs. pose proof Hs as (Hne & Hdot & Hf).
  unfold Analyzer.Path_div. rewrite (Path_of_simple_name f Hs).
  cbn [Analyzer.root Analyzer.parts].
  apply basename_Path_str_snoc; auto using Path_of_root.
Qed.

Lemma is_digit_not_slash c : is_digit c = true -> c <> 47.
Proof. unfold is_digit. rewrite andb_true_iff, Z.leb_le. lia. Qed.

Lemma all_digits_no_slash w s :
  all_digits w s -> Forall (fun c => c <> 47) s.
Proof.
  intros [_ H]. eapply Forall_impl; [exact H|]. apply is_digit_not_slash.
Qed.

Lemma report_filename_simple t :
  valid_datetime t -> simple_name (Analyzer.report_filename t).
Proof.
  intros Hv. destruct (strftime_file_shape t Hv) as (date & time & E & Hd & Ht).
  unfold Analyzer.report_filename. rewrite E.
  change (lit "packages_") with [112; 97; 99; 107; 97; 103; 101; 115; 95].
  change (lit "_") with [95]. change (lit ".json") with [46; 106; 115; 111; 110].
  split; [discriminate|]. split; [discriminate|].
  rewrite !Forall_app. repeat split.
  - repeat (constructor; [discriminate|]). constructor.
  - eapply all_digits_no_slash; eauto.
  - repeat (constructor; [discriminate|]). constructor.
  - eapply all_digits_no_slash; eauto.
  - repeat (constructor; [discriminate|]). constructor.
Qed.

(** What a successful [save_report] computed and wrote. *)
Lemma save_report_ok report config w s path s' :
  Analyzer.save_report report config w s = (Ok path, s') ->
  exists dir bytes,
    path = Analyzer.Path_str
             (Analyzer.Path_div (Analyzer.Path_of dir)
                (Analyzer.report_filename (clock w (Analyzer.ticks s)))) /\
    utf8_encode (json_dumps 0 report) = Some bytes /\
    Analyzer.ticks s' = S (Analyzer.ticks s) /\
    Analyzer.files s' = <[path := Analyzer.FileBytes bytes]> (Analyzer.files s).
Proof.
  unfold Analyzer.save_report.
  destruct (get config "output_dir" _) as [v|e]; [|discriminate].
  destruct v as [| | | |dir| |]; try discriminate.
  destruct (mkdir_fault w _); [discriminate|]. cbn.
  destruct (open_fault w _); [discriminate|].
  destruct (utf8_encode (json_dumps 0 report)) as [bytes|]; [|discriminate].
  intros [= <- <-]. exists dir, bytes. cbn. auto.
Qed.

(** ** Persistence *)

(** C5. Two calls of [save_report] whose clock readings differ at the
    granularity of the second compute distinct paths, and the second call
    leaves the file at the path of the first as it was. *)
Theorem save_report_distinct_seconds
    (report1 report2 config1 config2 : pyval) (w1 w2 : world)
    (s1 s2 s1' s2' : Analyzer.state) (path1 path2 : pystr) :
  valid_datetime (clock w1 (Analyzer.ticks s1)) ->
  valid_datetime (clock w2 (Analyzer.ticks s2)) ->
  second_stamp (clock w1 (Analyzer.ticks s1))
    <> second_stamp (clock w2 (Analyzer.ticks s2)) ->
  Analyzer.save_report report1 config1 w1 s1 = (Ok path1, s1') ->
  Analyzer.save_report report2 config2 w2 s2 = (Ok path2, s2') ->
  path1 <> path2 /\
  Analyzer.files s2' !! path1 = Analyzer.files s2 !! path1.
Proof.
  intros Hv1 Hv2 Hdiff H1 H2.
  apply save_report_ok in H1 as (dir1 & bytes1 & Hp1 & _ & _ & _).
  apply save_report_ok in H2 as (dir2 & bytes2 & Hp2 & _ & _ & Hf2).
  assert (Hne : path1 <> path2).
  { intros Heq. apply Hdiff. apply strftime_file_inj; auto.
    assert (Hb : basename path1 = basename path2) by congruence.
    rewrite Hp1, Hp2 in Hb.
    rewrite !basename_Path_div in Hb by (apply report_filename_simple; auto).
    unfold Analyzer.report_filename in Hb.
    apply app_inv_head in Hb. apply app_inv_tail in Hb. exact Hb. }
  split; [exact Hne|].
  rewrite Hf2. apply lookup_insert_ne. congruence.
Qed.

(** Two reports saved one after the other on a host whose clock moved on
    by a second. *)
Lemma save_report_distinct_seconds_witness :
  let r1 := Analyzer.save_report (VDict []) sample_config ticking_world
              initial_state in
  let r2 := Analyzer.save_report (VList []) sample_config ticking_world r1.2 in
  exists path1 path2,
    r1.1 = Ok path1 /\ r2.1 = Ok path2 /\ path1 <> path2 /\
    Analyzer.files r2.2 !! path1 = Analyzer.files r1.2 !! path1.
Proof.
  intros r1 r2.
  exists (lit "/var/tmp/reports/packages_20250309_140507.json"),
         (lit "/var/tmp/reports/packages_20250309_140508.json").
  split; [vm_compute; reflexivity|]. split; [vm_compute; reflexivity|].
  apply (save_report_distinct_seconds (VDict []) (VList [])
           sample_config sample_config ticking_world ticking_world
           initial_state r1.2 r1.2 r2.2).
  - vm_compute. intuition discriminate.
  - vm_compute. intuition discriminate.
  - vm_compute. discriminate.
  - reflexivity.
  - reflexivity.
Defined.

(** C9. A report saved by [save_report] is in a file named
    [packages_<YYYYMMDD_HHMMSS>.json], the stamp being the current time
    under [%Y%m%d_%H%M%S] (eight digits, an underscore, six digits), and
    the bytes of the file are the UTF-8 encoding of the JSON text of the
    report. *)
Theorem save_report_file_format
    (report config : pyval) (w : world) (s s' : Analyzer.state)
    (path : pystr) :
  valid_datetime (clock w (Analyzer.ticks s)) ->
  Analyzer.save_report report config w s = (Ok path, s') ->
  exists date time bytes,
    basename path = lit "packages_" ++ (date ++ lit "_" ++ time) ++ lit ".json" /\
    all_digits 8 date /\ all_digits 6 time /\
    date ++ lit "_" ++ time
      = Analyzer.strftime_file (clock w (Analyzer.ticks s)) /\
    Analyzer.files s' !! path = Some (Analyzer.FileBytes bytes) /\
    utf8_encode (json_dumps 0 report) = Some bytes.
Proof.
  intros Hv H.
  apply save_report_ok in H as (dir & bytes & Hp & Hb & _ & Hf).
  destruct (strftime_file_shape _ Hv) as (date & time & E & Hd & Ht).
  exists date, time, bytes.
  split; [|split; [exact Hd|split; [exact Ht|split;
    [symmetry; exact E|split; [|exact Hb]]]]].
  - rewrite Hp, basename_Path_div by (apply report_filename_simple; auto).
    unfold Analyzer.report_filename. rewrite E. reflexivity.
  - rewrite Hf. apply lookup_insert_eq.
Qed.

Lemma save_report_file_format_witness :
  exists date time bytes,
    basename (lit "/var/tmp/reports/packages_20250309_140507.json")
      = lit "packages_" ++ (date ++ lit "_" ++ time) ++ lit ".json" /\
    all_digits 8 date /\ all_digits 6 time /\
    date ++ lit "_" ++ time
      = Analyzer.strftime_file (clock ticking_world (Analyzer.ticks initial_state)) /\
    Analyzer.files
      (Analyzer.save_report (VDict []) sample_config ticking_world initial_state).2
      !! lit "/var/tmp/reports/packages_20250309_140507.json"
      = Some (Analyzer.FileBytes bytes) /\
    utf8_encode (json_dumps 0 (VDict [])) = Some bytes.
Proof.
  apply (save_report_file_format (VDict []) sample_config ticking_world
           initial_state).
  - vm_compute. intuition discriminate.
  - reflexivity.
Defined.

(** ** Sizes in bytes *)

Lemma round_half_even_error a b :
  0 < b -> 2 * Z.abs (round_half_even a b * b - a) <= b.
Proof.
  intros Hb. unfold round_half_even.
  pose proof (Z.div_mod a b ltac:(lia)) as Hdm.
  pose proof (Z.mod_pos_bound a b Hb) as Hr.
  set (f := a / b) in *. set (r := a mod b) in *.
  destruct (2 * r <? b) eqn:E1; [apply Z.ltb_lt in E1; nia|].
  apply Z.ltb_ge in E1.
  destruct (b <? 2 * r) eqn:E2; [apply Z.ltb_lt in E2; nia|].
  apply Z.ltb_ge in E2.
  destruct (Z.even f); nia.
Qed.

Lemma round_half_even_nonneg a b : 0 <= a -> 0 < b -> 0 <= round_half_even a b.
Proof.
  intros Ha Hb. unfold round_half_even.
  pose proof (Z.div_pos a b Ha Hb).
  repeat match goal with |- context [if ?c then _ else _] => destruct c end; lia.
Qed.

(** The logarithm computed is a lower bound: [2 ^ l * b <= a]. *)
Lemma floor_log2_ratio_lower a b :
  0 < a -> 0 < b -> 0 <= floor_log2_ratio a b ->
  b * 2 ^ floor_log2_ratio a b <= a.
Proof.
  intros Ha Hb. unfold floor_log2_ratio.
  pose proof (Z.log2_spec a Ha) as [Ha1 Ha2].
  pose proof (Z.log2_spec b Hb) as [Hb1 Hb2].
  pose proof (Z.log2_nonneg a) as Hla. pose proof (Z.log2_nonneg b) as Hlb.
  set (la := Z.log2 a) in *. set (lb := Z.log2 b) in *.
  destruct (0 <=? la - lb) eqn:E0.
  - destruct (b * 2 ^ (la - lb) <=? a) eqn:E1.
    + intros _. apply Z.leb_le in E1. exact E1.
    + intros Hl.
      assert (Hp : 2 ^ la = 2 ^ (la - lb - 1) * 2 ^ (lb + 1)).
      { rewrite <- Z.pow_add_r by lia. f_equal. lia. }
      assert (0 < 2 ^ (la - lb - 1)) by (apply Z.pow_pos_nonneg; lia).
      replace (Z.succ lb) with (lb + 1) in Hb2 by lia. nia.
  - apply Z.leb_gt in E0.
    destruct (b <=? a * 2 ^ (- (la - lb))); lia.
Qed.

(** Below [2 ^ (53 - n)] the nearest double has an exponent of at most
    [- n], and its mantissa is the rounded quotient. *)
Lemma nearest_double_small a b n :
  0 < a -> 0 < b -> 10 <= n <= 30 -> a * 2 ^ n < 2 ^ 53 * b ->
  exists m s,
    nearest_double false a b = Finite false m (- s) /\
    n <= s /\ 0 <= m /\ 2 * Z.abs (m * b - a * 2 ^ s) <= b.
Proof.
  intros Ha Hb Hn Hlt. unfold nearest_double.
  replace (a =? 0) with false by (symmetry; apply Z.eqb_neq; lia).
  set (l := floor_log2_ratio a b).
  assert (Hl : l + n < 53).
  { destruct (Z.le_gt_cases 0 l) as [H0|H0]; [|lia].
    pose proof (floor_log2_ratio_lower a b Ha Hb H0) as Hlow. fold l in Hlow.
    assert (H2 : 2 ^ (l + n) < 2 ^ 53).
    { rewrite Z.pow_add_r by lia.
      assert (0 < 2 ^ n) by (apply Z.pow_pos_nonneg; lia).
      assert (0 < 2 ^ l) by (apply Z.pow_pos_nonneg; lia).
      nia. }
    apply Z.pow_lt_mono_r_iff in H2; lia. }
  set (e := Z.max (l - 52) (- 1074)).
  assert (He : e <= - n) by lia.
  replace (0 <=? e) with false by (symmetry; apply Z.leb_gt; lia).
  exists (round_half_even (a * 2 ^ (- e)) b), (- e).
  assert (Hp : 0 < 2 ^ (- e)) by (apply Z.pow_pos_nonneg; lia).
  split; [|split; [lia|split]].
  - unfold float_make.
    replace (0 <=? e) with false by (symmetry; apply Z.leb_gt; lia).
    rewrite Z.opp_involutive. reflexivity.
  - apply round_half_even_nonneg; nia.
  - apply round_half_even_error. exact Hb.
Qed.

Lemma float_mul_1024_exact m e :
  e + 10 < 0 \/ (e + 10 = 0 /\ m < 2 ^ 1024) ->
  float_mul_1024 (Finite false m e) = Finite false m (e + 10).
Proof.
  intros H. unfold float_mul_1024, float_make.
  destruct H as [H|[H Hm]].
  - replace (0 <=? e + 10) with false by (symmetry; apply Z.leb_gt; lia).
    reflexivity.
  - rewrite H. cbn [Z.leb Z.compare andb].
    replace (2 ^ 1024 <=? m * 2 ^ 0) with false; [reflexivity|].
    symmetry. apply Z.leb_gt. rewrite Z.pow_0_r. lia.
Qed.

Lemma iter_float_mul_1024 m s (j : nat) :
  10 * Z.of_nat j <= s ->
  (10 * Z.of_nat j = s -> m < 2 ^ 1024) ->
  Nat.iter j float_mul_1024 (Finite false m (- s))
  = Finite false m (- s + 10 * Z.of_nat j).
Proof.
  induction j as [|j IH]; intros Hj Hm.
  - simpl. rewrite Z.add_0_r. reflexivity.
  - rewrite Nat.iter_succ, Nat2Z.inj_succ in *.
    rewrite IH; [|lia|intros E; exfalso; lia].
    rewrite float_mul_1024_exact.
    + f_equal. lia.
    + destruct (Z.eq_dec (10 * Z.succ (Z.of_nat j)) s) as [E|E].
      * right. split; [lia|auto].
      * left. lia.
Qed.

(** The integer part of the scaled double is within one of the scaled
    quotient: [|bytes - (a / b) * 1024 ^ k| <= 1], cleared of fractions. *)
Lemma int_of_scaled_double a b (k : nat) :
  0 <= a -> 0 < b -> (1 <= k <= 3)%nat ->
  a * 1024 ^ Z.of_nat k < 2 ^ 53 * b ->
  exists bytes,
    int_of_float (Nat.iter k float_mul_1024 (nearest_double false a b))
    = Ok bytes /\
    Z.abs (bytes * b - a * 1024 ^ Z.of_nat k) <= b.
Proof.
  intros Ha Hb Hk Hlt.
  destruct (Z.eq_dec a 0) as [->|Hne].
  { exists 0. split; [|rewrite Z.abs_eq; lia].
    destruct k as [|[|[|[|k]]]]; try lia; reflexivity. }
  set (n := 10 * Z.of_nat k).
  assert (Hpow : 1024 ^ Z.of_nat k = 2 ^ n).
  { unfold n. change 1024 with (2 ^ 10). rewrite <- Z.pow_mul_r by lia.
    reflexivity. }
  rewrite Hpow in *.
  destruct (nearest_double_small a b n ltac:(lia) Hb ltac:(lia) Hlt)
    as (m & s & Hnd & Hs & Hm & Herr).
  rewrite Hnd.
  assert (H2n : 0 < 2 ^ n) by (apply Z.pow_pos_nonneg; lia).
  assert (Hsplit : 2 ^ s = 2 ^ n * 2 ^ (s - n)).
  { rewrite <- Z.pow_add_r by lia. f_equal. lia. }
  assert (Hd : 0 < 2 ^ (s - n)) by (apply Z.pow_pos_nonneg; lia).
  set (d := 2 ^ (s - n)) in *.
  rewrite iter_float_mul_1024; [|lia|].
  2:{ intros E. assert (s = n) by lia. subst s.
      assert (d = 1) by (unfold d; rewrite Z.sub_diag; reflexivity).
      assert (2 ^ 53 < 2 ^ 1024) by (apply Z.pow_lt_mono_r; lia).
      assert (m * b <= a * 2 ^ n + b) by lia.
      nia. }
  fold n. unfold int_of_float.
  exists (m / d). split.
  - f_equal. destruct (0 <=? - s + n) eqn:E.
    + apply Z.leb_le in E. assert (s = n) by lia. subst s.
      unfold d. rewrite Z.sub_diag, Z.add_opp_diag_l.
      change (2 ^ 0) with 1. rewrite Z.mul_1_r, Z.div_1_r. reflexivity.
    + unfold d. f_equal. f_equal. lia.
  - pose proof (Z.div_mod m d ltac:(lia)) as Hdm.
    pose proof (Z.mod_pos_bound m d Hd) as Hr.
    set (q := m / d) in *. set (r := m mod d) in *.
    assert (Hx : Z.abs ((q * b - a * 2 ^ n) * d) <= b * d).
    { replace ((q * b - a * 2 ^ n) * d)
        with ((m * b - a * 2 ^ s) - r * b) by (rewrite Hsplit; nia).
      apply Z.abs_le. split; [|nia].
      assert (r <= d - 1) by lia. nia. }
    rewrite Z.abs_mul, (Z.abs_eq d) in Hx by lia. nia.
Qed.

(** At 2^54 + 1 kilobytes the double nearest to the value is 2^54, and the
    bytes computed are 1024 short of [value * 1024]. *)
Lemma size_huge_value_off_by_1024 :
  Packages.size_to_bytes (lit "18014398509481985 k")
  = Ok (Some 18446744073709551616) /\
  18014398509481985 * 1024 - 18446744073709551616 = 1024.
Proof. split; vm_compute; reflexivity. Qed.

(** C4 as stated, for every size text, fails at ["18014398509481985 k"]:
    the bytes computed are not within one of [value * 1024]. *)
Lemma size_huge_value_not_within_one :
  ~ size_within_one (lit "18014398509481985") [] 107 1.
Proof.
  intros (bytes & Hb & Hab).
  assert (E : Packages.size_to_bytes (size_text (lit "18014398509481985") [] 107)
              = Ok (Some 18446744073709551616)) by (vm_compute; reflexivity).
  rewrite E in Hb. injection Hb as <-.
  vm_compute in Hab. apply Hab. reflexivity.
Qed.

(** *** The text of a size *)

Lemma is_digit_range c : is_digit c = true <-> 48 <= c <= 57.
Proof. unfold is_digit. rewrite andb_true_iff, !Z.leb_le. tauto. Qed.

Lemma isspace_printable c : 33 <= c <= 127 -> isspace c = false.
Proof.
  intros Hc. apply not_true_is_false. unfold isspace.
  rewrite !orb_true_iff, !andb_true_iff, !Z.leb_le, !Z.eqb_eq. lia.
Qed.

Lemma lower_char_id c : ~ (65 <= c <= 90) -> lower_char c = c.
Proof.
  intros Hc. unfold lower_char.
  destruct ((65 <=? c) && (c <=? 90)) eqn:E; [|reflexivity].
  apply andb_true_iff in E as [E1 E2]. apply Z.leb_le in E1, E2. lia.
Qed.

Lemma lower_id s : Forall (fun c => ~ (65 <= c <= 90)) s -> lower s = s.
Proof.
  unfold lower. induction 1 as [|c s Hc _ IH]; [reflexivity|].
  rewrite fmap_cons, IH, (lower_char_id c Hc). reflexivity.
Qed.

Lemma contains_single u s : contains [u] s = existsb (Z.eqb u) s.
Proof.
  induction s as [|c s IH]; [reflexivity|].
  cbn [contains startswith existsb]. rewrite IH, andb_true_r. reflexivity.
Qed.

Lemma existsb_eqb_false u s :
  Forall (fun c => c <> u) s -> existsb (Z.eqb u) s = false.
Proof.
  induction 1 as [|c s Hc _ IH]; [reflexivity|].
  cbn [existsb]. rewrite IH, orb_false_r. apply Z.eqb_neq. congruence.
Qed.

Lemma filter_all {A} (P : A -> Prop) `{forall x, Decision (P x)} (l : list A) :
  Forall P l -> filter P l = l.
Proof.
  induction 1 as [|x l Hx _ IH]; [reflexivity|].
  rewrite filter_cons_True by exact Hx. rewrite IH. reflexivity.
Qed.

Lemma lstrip_nonspace c s : isspace c = false -> lstrip (c :: s) = c :: s.
Proof. intros H. cbn [lstrip]. rewrite H. reflexivity. Qed.

(** A text between two printable characters is what [strip] leaves of it
    and of it followed by a space. *)
Lemma strip_trailing_space s :
  (exists c s', s = c :: s' /\ isspace c = false) ->
  (exists s' l, s = s' ++ [l] /\ isspace l = false) ->
  strip s = s /\ strip (s ++ [32]) = s.
Proof.
  intros (c & s1 & E1 & Hc) (s2 & l & E2 & Hl). unfold strip, rstrip.
  split.
  - rewrite E1, (lstrip_nonspace c s1 Hc), <- E1, E2.
    rewrite reverse_snoc, (lstrip_nonspace l _ Hl), <- reverse_snoc.
    apply reverse_involutive.
  - rewrite E1. change ((c :: s1) ++ [32]) with (c :: (s1 ++ [32])).
    rewrite (lstrip_nonspace c _ Hc).
    change (c :: (s1 ++ [32])) with ((c :: s1) ++ [32]). rewrite <- E1.
    rewrite reverse_snoc. cbn [lstrip isspace].
    replace (lstrip (32 :: reverse s)) with (lstrip (reverse s)) by reflexivity.
    rewrite E2, reverse_snoc, (lstrip_nonspace l _ Hl), <- reverse_snoc.
    apply reverse_involutive.
Qed.

Lemma forallb_digits s : digit_string s -> forallb is_digit s = true.
Proof.
  induction 1 as [|c s Hc _ IH]; [reflexivity|].
  cbn [forallb]. rewrite Hc, IH. reflexivity.
Qed.

Lemma digit_string_no_point s :
  digit_string s -> Forall (fun c => c <> 46) s.
Proof.
  intros H. eapply Forall_impl; [exact H|].
  intros c Hc. apply is_digit_range in Hc. lia.
Qed.

Lemma decimal_text_chars ip fp :
  digit_string ip -> digit_string fp ->
  Forall (fun c => 46 <= c <= 57) (decimal_text ip fp).
Proof.
  intros Hi Hf.
  assert (Hd : forall s, digit_string s -> Forall (fun c => 46 <= c <= 57) s).
  { intros s H. eapply Forall_impl; [exact H|].
    intros c Hc. apply is_digit_range in Hc. lia. }
  unfold decimal_text. destruct fp as [|f fp]; [auto|].
  rewrite !Forall_app. split; [auto|]. split; [|auto].
  constructor; [lia|constructor].
Qed.

Lemma decimal_text_first ip fp :
  ip <> [] -> digit_string ip ->
  exists c s, decimal_text ip fp = c :: s /\ is_digit c = true.
Proof.
  intros Hne Hi. destruct Hi as [|c ip Hc _]; [contradiction|].
  unfold decimal_text. destruct fp; eauto.
Qed.

Lemma decimal_text_last ip fp :
  ip <> [] -> digit_string ip -> digit_string fp ->
  exists s l, decimal_text ip fp = s ++ [l] /\ is_digit l = true.
Proof.
  intros Hne Hi Hf. unfold decimal_text.
  destruct fp as [|f fp].
  - destruct (exists_last Hne) as (s & l & ->).
    exists s, l. split; [reflexivity|].
    apply Forall_app in Hi as [_ Hl]. inversion Hl; auto.
  - assert (Hfne : f :: fp <> []) by discriminate.
    destruct (exists_last Hfne) as (s & l & E). rewrite E in *.
    exists (ip ++ [46] ++ s), l. split; [rewrite <- !app_assoc; reflexivity|].
    apply Forall_app in Hf as [_ Hl]. inversion Hl; auto.
Qed.

Lemma strip_decimal_text ip fp :
  ip <> [] -> digit_string ip -> digit_string fp ->
  strip (decimal_text ip fp) = decimal_text ip fp /\
  strip (decimal_text ip fp ++ [32]) = decimal_text ip fp.
Proof.
  intros Hne Hi Hf. apply strip_trailing_space.
  - destruct (decimal_text_first ip fp Hne Hi) as (c & s & E & Hc).
    exists c, s. split; [exact E|].
    apply is_digit_range in Hc. apply isspace_printable. lia.
  - destruct (decimal_text_last ip fp Hne Hi Hf) as (s & l & E & Hl).
    exists s, l. split; [exact E|].
    apply is_digit_range in Hl. apply isspace_printable. lia.
Qed.

(** [float()] of a decimal literal is the double nearest to its value. *)
Lemma float_of_decimal_text ip fp :
  ip <> [] -> digit_string ip -> digit_string fp ->
  float_of_str (decimal_text ip fp)
  = Ok (nearest_double false (digits_value (ip ++ fp))
                       (10 ^ Z.of_nat (length fp))).
Proof.
  intros Hne Hi Hf. unfold float_of_str.
  destruct (strip_decimal_text ip fp Hne Hi Hf) as [-> _].
  destruct (decimal_text_first ip fp Hne Hi) as (c & s & E & Hc).
  apply is_digit_range in Hc.
  rewrite E.
  replace (c =? 45) with false by (symmetry; apply Z.eqb_neq; lia).
  replace (c =? 43) with false by (symmetry; apply Z.eqb_neq; lia).
  rewrite <- E. unfold decimal_text.
  destruct fp as [|f fp].
  - rewrite (split_on_no_sep 46 ip (digit_string_no_point ip Hi)).
    rewrite app_nil_r.
    destruct ip as [|i ip]; [contradiction|].
    rewrite (forallb_digits _ Hi). reflexivity.
  - change (ip ++ [46] ++ f :: fp) with (ip ++ 46 :: (f :: fp)).
    rewrite split_on_app.
    rewrite (split_on_no_sep 46 ip (digit_string_no_point ip Hi)).
    rewrite (split_on_no_sep 46 (f :: fp) (digit_string_no_point _ Hf)).
    cbn [app].
    assert (Hall : digit_string (ip ++ f :: fp)) by (apply Forall_app; auto).
    destruct (ip ++ f :: fp) as [|d ds] eqn:Eds.
    + destruct ip; discriminate.
    + rewrite (forallb_digits _ Hall). reflexivity.
Qed.

Lemma digits_value_nonneg s : digit_string s -> 0 <= digits_value s.
Proof.
  intros H. unfold digits_value.
  assert (G : forall acc, 0 <= acc ->
              0 <= fold_left (fun acc c => 10 * acc + (c - 48)) s acc).
  { induction H as [|c s Hc _ IH]; intros a Ha; [exact Ha|].
    cbn [fold_left]. apply IH. apply is_digit_range in Hc. lia. }
  apply G. lia.
Qed.

(** The conversion of ["<value> <unit>"]: the double nearest to the value,
    multiplied [k] times by 1024, then its integer part. *)
Lemma size_to_bytes_size_text ip fp unit k :
  ip <> [] -> digit_string ip -> digit_string fp ->
  unit_power unit = Some k ->
  Packages.size_to_bytes (size_text ip fp unit)
  = (n ← int_of_float
           (Nat.iter k float_mul_1024
              (nearest_double false (digits_value (ip ++ fp))
                              (10 ^ Z.of_nat (length fp))));
     mret (Some n)).
Proof.
  intros Hne Hi Hf Hu.
  pose proof (decimal_text_chars ip fp Hi Hf) as Hch.
  destruct (strip_decimal_text ip fp Hne Hi Hf) as [_ Hstrip].
  pose proof (float_of_decimal_text ip fp Hne Hi Hf) as Hfloat.
  set (D := decimal_text ip fp) in *.
  assert (Hcases : (unit = 107 /\ k = 1%nat) \/ (unit = 109 /\ k = 2%nat)
                   \/ (unit = 103 /\ k = 3%nat)).
  { unfold unit_power in Hu.
    destruct (unit =? 107) eqn:E1; [apply Z.eqb_eq in E1; left; split; congruence|].
    destruct (unit =? 109) eqn:E2;
      [apply Z.eqb_eq in E2; right; left; split; congruence|].
    destruct (unit =? 103) eqn:E3;
      [apply Z.eqb_eq in E3; right; right; split; congruence|discriminate]. }
  assert (Hno : forall u, 100 <= u -> Forall (fun c => c <> u) D).
  { intros u Hu'. eapply Forall_impl; [exact Hch|].
    intros c Hc. cbv beta in *. lia. }
  assert (Hlow : lower (size_text ip fp unit) = D ++ [32; unit]).
  { unfold size_text. fold D. apply lower_id. apply Forall_app. split.
    - eapply Forall_impl; [exact Hch|]. intros c Hc. cbv beta in *. lia.
    - destruct Hcases as [[-> _]|[[-> _]|[-> _]]]; repeat constructor; lia. }
  assert (Hrm : remove_char unit (D ++ [32; unit]) = D ++ [32]).
  { unfold remove_char. rewrite filter_app. f_equal.
    - apply filter_all. apply Hno. lia.
    - rewrite filter_cons_True by lia.
      rewrite filter_cons_False by (intros X; apply X; reflexivity).
      reflexivity. }
  unfold Packages.size_to_bytes. rewrite Hlow.
  change (lit "k") with [107]. change (lit "m") with [109].
  change (lit "g") with [103]. rewrite !contains_single, !existsb_app.
  rewrite !(existsb_eqb_false _ D) by (apply Hno; lia).
  destruct Hcases as [[-> ->]|[[-> ->]|[-> ->]]]; cbn [existsb Z.eqb orb Pos.eqb];
    rewrite Hrm, Hstrip, Hfloat; reflexivity.
Qed.

(** C4, amended. For a size text ["<value> k"], ["<value> m"] or
    ["<value> g"] whose value is a decimal literal and whose size
    [value * 1024 ^ n] is below 2^53 bytes, the [size_bytes] computed is
    within one of [value * 1024 ^ n]. *)
Theorem size_bytes_within_one_below_2_53
    (ip fp : pystr) (unit : Z) (k : nat) :
  ip <> [] -> digit_string ip -> digit_string fp ->
  unit_power unit = Some k ->
  digits_value (ip ++ fp) * 1024 ^ Z.of_nat k
    < 2 ^ 53 * 10 ^ Z.of_nat (length fp) ->
  size_within_one ip fp unit k.
Proof.
  intros Hne Hi Hf Hu Hlt. unfold size_within_one.
  rewrite (size_to_bytes_size_text ip fp unit k Hne Hi Hf Hu).
  assert (Hk : (1 <= k <= 3)%nat).
  { unfold unit_power in Hu.
    repeat match type of Hu with
           | (if ?c then _ else _) = _ => destruct c
           end; inversion Hu; lia. }
  assert (Ha : 0 <= digits_value (ip ++ fp)).
  { apply digits_value_nonneg. apply Forall_app. auto. }
  assert (Hb : 0 < 10 ^ Z.of_nat (length fp)) by (apply Z.pow_pos_nonneg; lia).
  destruct (int_of_scaled_double _ _ k Ha Hb Hk Hlt) as (bytes & Hbytes & Hab).
  exists bytes. rewrite Hbytes. split; [reflexivity|exact Hab].
Qed.

(** 1.2 M is 1258291 bytes, within one of 1258291.2. *)
Lemma size_bytes_within_one_below_2_53_witness :
  size_within_one (lit "1") (lit "2") 109 2.
Proof.
  apply (size_bytes_within_one_below_2_53 (lit "1") (lit "2") 109 2).
  - discriminate.
  - repeat constructor.
  - repeat constructor.
  - reflexivity.
  - vm_compute. reflexivity.
Defined.

Example size_of_1_2_m :
  Packages.size_to_bytes (lit "1.2 M") = Ok (Some 1258291).
Proof. vm_compute. reflexivity. Qed.

(** Through [get_package_details]: the [Size] line of [dnf info]. *)
Example get_package_details_size :
  exists details,
    Packages.get_package_details (lit "bash") info_world = Ok details /\
    dict_get details "size_bytes" = Some (VInt 1258291) /\
    dict_get details "description" = Some (VStr (lit "The GNU shell")).
Proof. eexists. split; [vm_compute; reflexivity|]. split; reflexivity. Qed.

(** ** The three exit codes of the analyzer, reached *)

Example main_interrupted_exits_130 :
  exit_status (Analyzer.main None interrupted_world initial_state).1 = 130.
Proof. vm_compute. reflexivity. Qed.

Example main_write_failure_exits_1 :
  exit_status (Analyzer.main None readonly_world initial_state).1 = 1.
Proof. vm_compute. reflexivity. Qed.

(** A run in session mode. *)
Example main_session_exits_0 :
  exit_status
    (Analyzer.main (Some (lit "s1")) (silent_world 0 []) initial_state).1 = 0.
Proof. vm_compute. reflexivity. Qed.

(** ** The entry point of the reporter *)

(** The reporter exits with 130 on an interrupt, with 1 on any other
    exception or when a step fails, and with 0 at the end of [main]. *)
Lemma reporter_main_exit_codes (ss : Reporter.session) :
  (forall u, Reporter.main_try ss = Ok u ->
             exit_status (Reporter.main ss) = 0) /\
  (Reporter.main_try ss = Raise KeyboardInterrupt ->
   exit_status (Reporter.main ss) = 130) /\
  (forall cls msg, Reporter.main_try ss = Raise (Exception cls msg) ->
                   exit_status (Reporter.main ss) = 1) /\
  (forall code, Reporter.main_try ss = Raise (SystemExit code) ->
                exit_status (Reporter.main ss) = code).
Proof.
  unfold Reporter.main. repeat split; intros; rewrite H; reflexivity.
Qed.

Lemma required_none {A} : @Reporter.required A (Ok None) = Raise (SystemExit 1).
Proof. reflexivity. Qed.

(** Without a report to read, the reporter exits with 1. *)
Example reporter_no_report_exits_1 :
  exit_status
    (Reporter.main
       {| Reporter.obter_ultimo_json := Ok None;
          Reporter.ler_json := Reporter.ler_json sample_session;
          Reporter.chamar_gemini := Reporter.chamar_gemini sample_session;
          Reporter.preencher_template := Reporter.preencher_template sample_session;
          Reporter.salvar_html := Reporter.salvar_html sample_session;
          Reporter.stdin := [];
          Reporter.abrir_no_navegador := Ok true |}) = 1.
Proof. reflexivity. Qed.

(** ** The metrics of the collectors of the repository *)

Lemma collect_update_metrics_shape config w :
  match Updates.collect_update_metrics config w with
  | Ok v => exists tu su ul sl,
      v = VDict [("total_updates", VInt tu); ("security_updates", VInt su);
                 ("updates_list", ul); ("security_list", sl)]
  | Raise e => uncaught e
  end.
Proof.
  unfold Updates.collect_update_metrics, Updates.get_update_summary.
  pose proof (get_updates_available_guarded w) as Hu.
  pose proof (get_security_updates_guarded w) as Hs.
  destruct (Updates.get_updates_available w) as [updates|e]; [|exact Hu].
  destruct (Updates.get_security_updates w) as [security|e]; [|exact Hs].
  cbn. eauto 6.
Qed.

Lemma collect_orphan_metrics_shape config w :
  match Orphans.collect_orphan_metrics config w with
  | Ok v => exists oc ol ac al,
      v = VDict [("orphaned_count", VInt oc); ("orphaned_packages", ol);
                 ("autoremovable_count", VInt ac);
                 ("autoremovable_packages", al)]
  | Raise e => uncaught e
  end.
Proof.
  unfold Orphans.collect_orphan_metrics.
  pose proof (get_orphaned_packages_guarded w) as Ho.
  pose proof (get_autoremovable_packages_guarded w) as Ha.
  destruct (Orphans.get_orphaned_packages w) as [orphaned|e]; [|exact Ho].
  destruct (Orphans.get_autoremovable_packages w) as [autoremove|e];
    [|exact Ha].
  cbn. eauto 6.
Qed.

Lemma check_broken_dependencies_guarded w :
  guarded (Dependencies.check_broken_dependencies w).
Proof. unfold Dependencies.check_broken_dependencies. guarded_tac. Qed.

Lemma get_duplicate_packages_guarded w :
  guarded (Dependencies.get_duplicate_packages w).
Proof. unfold Dependencies.get_duplicate_packages. guarded_tac. Qed.

Lemma collect_dependency_metrics_shape config w :
  match Dependencies.collect_dependency_metrics config w with
  | Ok v => exists bn bl dn dl hi,
      v = VDict [("broken_dependencies", bn); ("broken_list", bl);
                 ("duplicate_packages", dn); ("duplicate_list", dl);
                 ("has_issues", VBool hi)]
  | Raise e => uncaught e
  end.
Proof.
  unfold Dependencies.collect_dependency_metrics.
  pose proof (check_broken_dependencies_guarded w) as Hb.
  pose proof (get_duplicate_packages_guarded w) as Hd.
  destruct (Dependencies.check_broken_dependencies w) as [broken|e];
    [|exact Hb].
  destruct (Dependencies.get_duplicate_packages w) as [duplicates|e];
    [|exact Hd].
  cbn. eauto 7.
Qed.

Lemma collect_package_metrics_shape config w :
  match Packages.collect_package_metrics config w with
  | Ok v => exists counts size lp ap,
      v = VDict [("summary", VDict
                    [("total_packages", VInt (Packages.total counts));
                     ("user_installed", VInt (Packages.user_installed counts));
                     ("dependencies", VInt (Packages.dependencies counts));
                     ("total_size_gb", size)]);
                 ("largest_packages", lp); ("all_packages_sample", ap)] /\
      Packages.get_package_count w = Ok counts
  | Raise e => uncaught e
  end.
Proof.
  unfold Packages.collect_package_metrics.
  pose proof (get_package_count_guarded w) as Hc.
  pose proof (get_packages_by_size_guarded w) as Hs.
  destruct (Packages.get_package_count w) as [counts|e]; [|exact Hc].
  destruct (Packages.get_packages_by_size w) as [by_size|e]; [|exact Hs].
  cbn. eauto 7.
Qed.

Lemma collect_into_ok metrics k v :
  Analyzer.collect_into metrics k (Ok v) = Ok (dict_set metrics k v).
Proof. reflexivity. Qed.

Lemma collect_into_uncaught metrics k e :
  uncaught e -> Analyzer.collect_into metrics k (Raise e) = Raise e.
Proof. destruct e; [contradiction|reflexivity|reflexivity]. Qed.

(** The metrics merged from the five collectors of the repository hold the
    fields the rules read; only an interrupt or an exit leaves the
    aggregator. *)
Lemma collected_metrics_fields config w :
  match Analyzer.collect_all_metrics config w with
  | Ok metrics =>
      exists counts tu su oc cc hi,
        metrics_fields metrics tu su oc cc hi /\
        Packages.get_package_count w = Ok counts /\
        (sub ← get metrics "packages" (VDict []);
         summary ← get sub "summary" (VDict []);
         get summary "total_packages" (VInt 0))
        = Ok (VInt (Packages.total counts)) /\
        exists size, Analyzer.get2 metrics "cache" "total_size_mb" (VInt 0)
                     = Ok size
  | Raise e => uncaught e
  end.
Proof.
  unfold Analyzer.collect_all_metrics, Analyzer.collect_all_metrics_with.
  cbn [Analyzer.modules Analyzer.packages_collect Analyzer.updates_collect
       Analyzer.orphans_collect Analyzer.cache_collect
       Analyzer.dependencies_collect].
  pose proof (collect_package_metrics_shape config w) as Hp.
  destruct (Packages.collect_package_metrics config w) as [pv|e];
    [rewrite collect_into_ok|rewrite collect_into_uncaught; auto].
  destruct Hp as (counts & psize & lp & ap & -> & Hcount). cbn.
  pose proof (collect_update_metrics_shape config w) as Hu.
  destruct (Updates.collect_update_metrics config w) as [uv|e];
    [rewrite collect_into_ok|rewrite collect_into_uncaught; auto].
  destruct Hu as (tu & su & ul & sl & ->). cbn.
  pose proof (collect_orphan_metrics_shape config w) as Ho.
  destruct (Orphans.collect_orphan_metrics config w) as [ov|e];
    [rewrite collect_into_ok|rewrite collect_into_uncaught; auto].
  destruct Ho as (oc & ol & ac & al & ->). cbn.
  pose proof (collect_cache_metrics_fields config w) as Hc.
  destruct (Cache.collect_cache_metrics config w) as [cv|e];
    [rewrite collect_into_ok|rewrite collect_into_uncaught; auto].
  destruct Hc as (size & h & cc & Hsize & _ & Hcc & _). cbn.
  pose proof (collect_dependency_metrics_shape config w) as Hd.
  destruct (Dependencies.collect_dependency_metrics config w) as [dv|e];
    [rewrite collect_into_ok|rewrite collect_into_uncaught; auto].
  destruct Hd as (bn & bl & dn & dl & hi & ->). cbn.
  destruct cv as [| | | | | |cd]; try discriminate. cbn in Hsize, Hcc.
  exists counts, tu, su, oc, cc, hi.
  split; [|split; [exact Hcount|split; [reflexivity|]]].
  - unfold metrics_fields, Analyzer.get2, Analyzer.subscript2. cbn.
    rewrite Hcc, Hsize. cbn. repeat split; eauto.
  - exists size. unfold Analyzer.get2. cbn. rewrite Hsize. reflexivity.
Qed.

(** The report of [generate_report]: its summary counts what
    [get_package_count] counted, and its issues follow the five rules. *)
Lemma generate_report_summary config w s :
  match (Analyzer.generate_report config w s).1 with
  | Ok report =>
      exists counts issues tu su oc cc hi,
        Packages.get_package_count w = Ok counts /\
        summary_field report "total_packages"
          = Some (VInt (Packages.total counts)) /\
        summary_field report "total_updates" = Some (VInt tu) /\
        field report "issues" = Some (VList issues) /\
        summary_field report "total_issues" = Some (VInt (len issues)) /\
        issue_kind <$> issues = kind_of_rule <$> rule_kinds tu su oc cc hi
  | Raise e => uncaught e
  end.
Proof.
  unfold Analyzer.generate_report, Analyzer.generate_report_with.
  cbn [Analyzer.datetime_now fst].
  pose proof (collected_metrics_fields config w) as Hm.
  unfold Analyzer.collect_all_metrics in Hm.
  destruct (Analyzer.collect_all_metrics_with Analyzer.modules config w)
    as [metrics|e]; [|exact Hm].
  destruct Hm as (counts & tu & su & oc & cc & hi & Hf & Hcount & Htp & size & Hsz).
  pose proof Hf as (Hu & Hs & Ho & Hc & Hd & Hsize).
  destruct (derive_issues_rules metrics tu su oc cc hi Hu Hs Ho Hc Hd Hsize)
    as (issues & Hi & Hk).
  cbn. unfold Analyzer.build_report. rewrite Hi. cbn.
  destruct (get metrics "packages" (VDict [])) as [sub|]; [|discriminate].
  cbn in Htp |- *.
  destruct (get sub "summary" (VDict [])) as [summary|]; [|discriminate].
  cbn in Htp |- *. rewrite Htp. cbn. rewrite Hu. cbn. rewrite Hsz. cbn.
  exists counts, issues, tu, su, oc, cc, hi. repeat split; auto.
Qed.

(** When [rpm -qa] prints nothing, the total is 1 if the command exited
    with 0 and 0 otherwise. *)
Lemma get_package_count_empty_output w rc :
  sh w ["rpm"; "-qa"] = Ok {| returncode := rc; stdout := [] |} ->
  match Packages.get_package_count w with
  | Ok counts => Packages.total counts = if rc =? 0 then 1 else 0
  | Raise e => uncaught e
  end.
Proof.
  intros H. unfold Packages.get_package_count. rewrite H.
  cbn [returncode stdout].
  destruct (sh w ["dnf"; "repoquery"; "--userinstalled"]) as [r|e].
  - destruct (rc =? 0), (returncode r =? 0); reflexivity.
  - destruct e; cbn; auto; destruct (rc =? 0); reflexivity.
Qed.

(** On every host where [rpm -qa] exits with 0 and prints nothing, the
    report counts one package. *)
Lemma empty_rpm_output_counts_one_package config w s :
  sh w ["rpm"; "-qa"] = Ok {| returncode := 0; stdout := [] |} ->
  match (Analyzer.generate_report config w s).1 with
  | Ok report => summary_field report "total_packages" = Some (VInt 1)
  | Raise e => uncaught e
  end.
Proof.
  intros H. pose proof (generate_report_summary config w s) as Hr.
  pose proof (get_package_count_empty_output w 0 H) as Hc.
  destruct (Analyzer.generate_report config w s).1 as [report|e]; [|exact Hr].
  destruct Hr as (counts & issues & tu & su & oc & cc & hi & Hcount & Htp & _).
  rewrite Hcount in Hc. cbn in Hc. rewrite Htp, Hc. reflexivity.
Qed.

(** ** The cleanup threshold in bytes *)

(** A cache of 104862842 bytes rounds to 100.0 MB and is left alone; one
    byte more rounds to 100.01 MB and is flagged. *)
Example can_clean_at_the_threshold :
  (r ← Cache.collect_cache_metrics (VDict []) (silent_world 0 [104862842]);
   subscript r "can_clean") = Ok (VBool false) /\
  (r ← Cache.collect_cache_metrics (VDict []) (silent_world 0 [104862843]);
   subscript r "can_clean") = Ok (VBool true).
Proof. split; vm_compute; reflexivity. Qed.

(** With a cache above the threshold, a silent host has one issue. *)
Example silent_host_large_cache_has_an_issue :
  exists report s,
    Analyzer.generate_report (VDict []) (silent_world 1 [200000000])
                             initial_state = (Ok report, s) /\
    summary_field report "total_packages" = Some (VInt 0) /\
    summary_field report "total_issues" = Some (VInt 1).
Proof. eexists _, _. split; [vm_compute; reflexivity|]. split; reflexivity. Qed.

(** * Further properties of the code *)

(** ** The aggregator with arbitrary collectors *)

(** X1. Whatever the five collectors are, [collect_all_metrics] either
    returns a dict with exactly the five keys in their fixed order, or
    raises what one of the collectors raised, and then it is not an
    [Exception]: only an interrupt or an exit crosses the boundary. *)
Theorem collect_all_metrics_raises_only_uncaught
    (ms : Analyzer.Collectors) (config : pyval) (w : world) :
  match Analyzer.collect_all_metrics_with ms config w with
  | Ok metrics =>
      exists p u o c d,
        metrics = VDict [("packages", p); ("updates", u); ("orphans", o);
                         ("cache", c); ("dependencies", d)]
  | Raise e =>
      uncaught e /\
      (Analyzer.packages_collect ms config w = Raise e \/
       Analyzer.updates_collect ms config w = Raise e \/
       Analyzer.orphans_collect ms config w = Raise e \/
       Analyzer.cache_collect ms config w = Raise e \/
       Analyzer.dependencies_collect ms config w = Raise e)
  end.
Proof.
  unfold Analyzer.collect_all_metrics_with, Analyzer.collect_into.
  destruct (Analyzer.packages_collect ms config w) as [p|[]]; cbn; auto;
  destruct (Analyzer.updates_collect ms config w) as [u|[]]; cbn; auto 6;
  destruct (Analyzer.orphans_collect ms config w) as [o|[]]; cbn; auto 7;
  destruct (Analyzer.cache_collect ms config w) as [c|[]]; cbn; auto 8;
  destruct (Analyzer.dependencies_collect ms config w) as [d|[]]; cbn;
  eauto 10.
Qed.

(** ** The pipeline with the collectors of the repository *)



(** ** Counters and capped lists *)




(** ** The order of the packages by size *)

Lemma insert_desc_perm p l : Packages.insert_desc p l ≡ₚ p :: l.
Proof.
  induction l as [|q l IH]; [reflexivity|]. cbn [Packages.insert_desc].
  destruct (Packages.ps_size_bytes p <? Packages.ps_size_bytes q);
    [|reflexivity].
  rewrite IH. apply Permutation_swap.
Qed.

Lemma sort_desc_perm l : Packages.sort_desc l ≡ₚ l.
Proof.
  induction l as [|p l IH]; [reflexivity|].
  unfold Packages.sort_desc in *. cbn [foldr].
  rewrite insert_desc_perm, IH. reflexivity.
Qed.

Lemma insert_desc_sorted p l :
  StronglySorted size_ge l -> StronglySorted size_ge (Packages.insert_desc p l).
Proof.
  induction 1 as [|q l Hs IH Hq]; cbn [Packages.insert_desc].
  - repeat constructor.
  - destruct (Packages.ps_size_bytes p <? Packages.ps_size_bytes q) eqn:E.
    + apply Z.ltb_lt in E. constructor; [exact IH|].
      rewrite insert_desc_perm. constructor; [unfold size_ge; lia|exact Hq].
    + apply Z.ltb_ge in E. constructor; [constructor; assumption|].
      constructor; [exact E|].
      eapply Forall_impl; [exact Hq|]. unfold size_ge. intros r Hr. lia.
Qed.

Lemma sort_desc_sorted l : StronglySorted size_ge (Packages.sort_desc l).
Proof.
  induction l as [|p l IH]; [constructor|].
  unfold Packages.sort_desc in *. cbn [foldr]. apply insert_desc_sorted, IH.
Qed.

(** X6. The list of [get_packages_by_size] is ordered by size, largest
    first: every entry is at least as large as all the entries after it,
    so the slices [:20] and [:50] of the collector keep the largest. After
    a completed [rpm] with exit code 0 the list holds exactly the records
    parsed from its lines, in another order. *)
Theorem get_packages_by_size_sorted (w : world) :
  match Packages.get_packages_by_size w with
  | Ok l =>
      StronglySorted size_ge l /\
      forall r,
        subprocess_run w [lit "rpm"; lit "-qa"; lit "--queryformat";
                          lit "%{NAME}|%{SIZE}|%{VERSION}" ++ [10]] = Ok r ->
        returncode r = 0 ->
        l ≡ₚ omap Packages.parse_size_line (split_on 10 (strip (stdout r)))
  | Raise e => uncaught e
  end.
Proof.
  unfold Packages.get_packages_by_size.
  destruct (subprocess_run w _) as [r|e].
  - destruct (returncode r =? 0) eqn:E.
    + split; [apply sort_desc_sorted|].
      intros r' [= <-] _. apply sort_desc_perm.
    + split; [constructor|].
      intros r' [= <-] H0. rewrite H0 in E. discriminate.
  - destruct e; cbn; auto. split; [constructor|]. intros r [=].
Qed.

(** ** The package counts *)

(** X7. [get_package_count] keeps [dependencies = total - user_installed]
    when both commands complete, whatever their exit codes. When the
    second command raises an [Exception] after the first completed, the
    total is already set and is returned with [dependencies] still 0;
    when the first one raises, all three counts are 0. *)
Theorem get_package_count_partial_results (w : world) :
  match sh w ["rpm"; "-qa"], sh w ["dnf"; "repoquery"; "--userinstalled"] with
  | Ok r1, Ok r2 =>
      exists counts,
        Packages.get_package_count w = Ok counts /\
        Packages.dependencies counts
        = Packages.total counts - Packages.user_installed counts /\
        0 <= Packages.user_installed counts /\ 0 <= Packages.total counts
  | Ok r1, Raise (Exception _ _) =>
      Packages.get_package_count w
      = Ok {| Packages.total :=
                if returncode r1 =? 0
                then len (split_on 10 (strip (stdout r1))) else 0;
              Packages.user_installed := 0;
              Packages.dependencies := 0 |}
  | Ok r1, Raise e => Packages.get_package_count w = Raise e
  | Raise (Exception _ _), _ =>
      Packages.get_package_count w
      = Ok {| Packages.total := 0; Packages.user_installed := 0;
              Packages.dependencies := 0 |}
  | Raise e, _ => Packages.get_package_count w = Raise e
  end.
Proof.
  unfold Packages.get_package_count.
  destruct (sh w ["rpm"; "-qa"]) as [r1|e1].
  - destruct (sh w ["dnf"; "repoquery"; "--userinstalled"]) as [r2|e2].
    + eexists. split; [reflexivity|].
      destruct (returncode r1 =? 0), (returncode r2 =? 0);
        cbn; unfold len; repeat split; lia.
    + destruct e2; cbn; destruct (returncode r1 =? 0); reflexivity.
  - destruct e1; reflexivity.
Qed.

(** ** What [save_report] and [main] leave unchanged *)






(** ** The session hook *)

Lemma generate_report_with_database config w hook s :
  Analyzer.generate_report config (with_database w hook) s
  = Analyzer.generate_report config w s.
Proof. reflexivity. Qed.

Lemma save_report_with_database report config w hook s :
  Analyzer.save_report report config (with_database w hook) s
  = Analyzer.save_report report config w s.
Proof. reflexivity. Qed.

(** X10. A session hook that raises an [Exception] (a missing
    [database_manager] module, a failing insert) changes nothing in the
    outcome of [main]: the exit status and the files are those of a run
    whose hook succeeds. *)
Theorem main_swallows_database_failure
    (session : option pystr) (w : world) (s : Analyzer.state)
    (cls : string) (msg : pystr) :
  Analyzer.main session
    (with_database w (fun _ _ => Raise (Exception cls msg))) s
  = Analyzer.main session (with_database w (fun _ _ => Ok ())) s.
Proof.
  unfold Analyzer.main, Analyzer.main_with, Analyzer.load_config.
  cbn [config_json with_database].
  destruct (config_json w) as [config| | |e]; [| |reflexivity|reflexivity].
  all: unfold Analyzer.main_try_with;
    change (Analyzer.generate_report_with Analyzer.modules)
      with Analyzer.generate_report;
    rewrite !generate_report_with_database;
    match goal with
    | |- context [Analyzer.generate_report ?c ?w0 ?s0] =>
        destruct (Analyzer.generate_report c w0 s0) as [[report|e] s1]
    end; [|reflexivity];
    match goal with
    | |- context [match ?m with Some _ => _ | None => Ok ?r end] =>
        destruct (match m with
                  | Some id => Analyzer.set_session r id
                  | None => Ok r
                  end) as [report'|e]
    end; [|reflexivity];
    rewrite !save_report_with_database;
    match goal with
    | |- context [Analyzer.save_report ?r ?c ?w0 ?s0] =>
        destruct (Analyzer.save_report r c w0 s0) as [[path|e] s2]
    end; [|reflexivity];
    match goal with
    | |- context [Analyzer.session_mode ?x] =>
        destruct (Analyzer.session_mode x)
    end; reflexivity.
Qed.

(** ** The cleanup threshold, in bytes *)

Lemma round2_mb_over_100 n :
  (100 * 100 <? round2 n (1024 * 1024)) = (104862843 <=? n).
Proof.
  unfold round2.
  pose proof (round_half_even_error (100 * n) (1024 * 1024) ltac:(lia)) as H.
  set (m := round_half_even (100 * n) (1024 * 1024)) in *.
  destruct (104862843 <=? n) eqn:E.
  - apply Z.leb_le in E. apply Z.ltb_lt. lia.
  - apply Z.leb_gt in E. apply Z.ltb_ge. lia.
Qed.

(** X11. [collect_cache_metrics] suggests a cleanup exactly when the
    files of the cache directory that could be measured add up to at
    least 104862843 bytes, the first size that rounds above 100.00 MB.
    Without a cache directory, or when walking it fails, the flag is
    false. *)
Theorem can_clean_byte_threshold (config : pyval) (w : world) :
  match Cache.collect_cache_metrics config w with
  | Ok v =>
      field v "can_clean"
      = Some (VBool match cache_walk w with
                    | Ok (Some sizes) => 104862843 <=? Cache.walk_total sizes
                    | _ => false
                    end)
  | Raise e => uncaught e
  end.
Proof.
  unfold Cache.collect_cache_metrics.
  pose proof (get_cache_size_guarded w) as Hg.
  assert (Hsz : forall cache_size, Cache.get_cache_size w = Ok cache_size ->
             exists v, dict_get cache_size "total_size_mb" = Some v /\
               gt_int v 100
               = Ok match cache_walk w with
                    | Ok (Some sizes) => 104862843 <=? Cache.walk_total sizes
                    | _ => false
                    end).
  { unfold Cache.get_cache_size.
    destruct (cache_walk w) as [[sizes|]|e]; intros cs.
    - intros [= <-]. eexists. split; [reflexivity|]. cbn [gt_int].
      rewrite round2_mb_over_100. reflexivity.
    - intros [= <-]. eexists. split; reflexivity.
    - destruct e; cbn; intros [= <-]. eexists. split; reflexivity. }
  destruct (Cache.get_cache_size w) as [cache_size|e]; [|exact Hg].
  destruct (Hsz _ eq_refl) as (v & Hget & Hgt). clear Hsz Hg.
  pose proof (get_cache_info_dnf_guarded w) as Hg.
  destruct (Cache.get_cache_info_dnf w) as [cache_info|e]; [|exact Hg].
  cbn. rewrite Hget. cbn. rewrite Hgt. cbn.
  apply dict_get_set_eq.
Qed.

(** ** Packages to remove, broken dependencies *)









(** ** Counting the requirements of a package *)

Lemma nonblank_lines_of_blank s :
  nonblank s = false ->
  filter (fun l => nonblank l = true) (split_on 10 (strip s)) = [].
Proof.
  unfold nonblank. destruct (strip s) eqn:E; [|discriminate].
  intros _. reflexivity.
Qed.

(** X14. [get_dependency_count] never raises, not even on an interrupt:
    its bare [except] turns every failure into the count 0. The count is
    never negative, and an output without a non-blank character counts 0
    requirements (where [get_package_count] counts one package). *)
Theorem get_dependency_count_never_raises (package : pystr) (w : world) :
  exists n,
    Dependencies.get_dependency_count package w = Ok n /\ 0 <= n /\
    match subprocess_run w [lit "dnf"; lit "repoquery"; lit "--requires";
                            package] with
    | Ok r => nonblank (stdout r) = false -> n = 0
    | Raise _ => n = 0
    end.
Proof.
  unfold Dependencies.get_dependency_count.
  destruct (subprocess_run w _) as [r|e]; cbn.
  - eexists. split; [reflexivity|]. split.
    + destruct (returncode r =? 0); unfold len; lia.
    + intros Hb. rewrite (nonblank_lines_of_blank _ Hb).
      destruct (returncode r =? 0); reflexivity.
  - exists 0. repeat split; lia.
Qed.

(** ** Reading the tables that dnf prints *)

Lemma split_ws_cons c s :
  split_ws (c :: s) =
  if isspace c then split_ws s
  else match s with
       | [] => [[c]]
       | d :: _ =>
           if isspace d then [c] :: split_ws s
           else match split_ws s with
                | w :: ws => (c :: w) :: ws
                | [] => [[c]]
                end
       end.
Proof. reflexivity. Qed.

Lemma split_ws_spaces n s : split_ws (replicate n 32 ++ s) = split_ws s.
Proof.
  induction n as [|n IH]; [reflexivity|].
  cbn [replicate app]. rewrite split_ws_cons. exact IH.
Qed.

Lemma split_ws_word_then_space w c rest :
  w <> [] -> Forall (fun c => isspace c = false) w -> isspace c = true ->
  split_ws (w ++ c :: rest) = w :: split_ws rest.
Proof.
  intros Hne Hw Hc. induction Hw as [|a w Ha Hw IH]; [done|].
  destruct w as [|b w].
  - cbn [app]. rewrite split_ws_cons, Ha, Hc.
    f_equal. rewrite split_ws_cons, Hc. reflexivity.
  - assert (isspace b = false) as Hb by (inversion Hw; assumption).
    cbn [app] in *. rewrite split_ws_cons, Ha, Hb, IH by done.
    reflexivity.
Qed.

Lemma split_ws_word w :
  w <> [] -> Forall (fun c => isspace c = false) w -> split_ws w = [w].
Proof.
  intros Hne Hw. induction Hw as [|a w Ha Hw IH]; [done|].
  destruct w as [|b w].
  - rewrite split_ws_cons, Ha. reflexivity.
  - assert (isspace b = false) as Hb by (inversion Hw; assumption).
    rewrite split_ws_cons, Ha, Hb, IH by done. reflexivity.
Qed.

Lemma split1_app sep a b :
  Forall (fun c => c <> sep) a -> split1 sep (a ++ sep :: b) = [a; b].
Proof.
  induction 1 as [|c a Hc Ha IH]; cbn [app split1].
  - rewrite Z.eqb_refl. reflexivity.
  - apply Z.eqb_neq in Hc. rewrite Hc, IH. reflexivity.
Qed.

Lemma rsplit1_head_app sep a b :
  Forall (fun c => c <> sep) b -> rsplit1_head sep (a ++ sep :: b) = a.
Proof.
  intros Hb. unfold rsplit1_head.
  rewrite reverse_app, reverse_cons, <- app_assoc. cbn [app].
  rewrite split1_app by (apply Forall_reverse; exact Hb).
  apply reverse_involutive.
Qed.

Lemma startswith_before_dot p n rest :
  Forall (fun c => c <> 46) p ->
  startswith p (n ++ 46 :: rest) = startswith p n.
Proof.
  intros Hp. revert n. induction Hp as [|a p Ha Hp IH]; intros n.
  - destruct n; reflexivity.
  - destruct n as [|b n]; cbn [app startswith].
    + apply Z.eqb_neq in Ha. rewrite Ha. reflexivity.
    + rewrite IH. reflexivity.
Qed.

Lemma split_on_join (lines : list pystr) :
  lines <> [] -> Forall (Forall (fun c => c <> 10)) lines ->
  split_on 10 (join [10] lines) = lines.
Proof.
  intros Hne Hl. induction Hl as [|l rest Hl Hrest IH]; [done|].
  destruct rest as [|l2 rest].
  - apply split_on_no_sep, Hl.
  - change (join [10] (l :: l2 :: rest))
      with (l ++ 10 :: join [10] (l2 :: rest)).
    rewrite split_on_app, (split_on_no_sep _ _ Hl), IH by done.
    reflexivity.
Qed.

Lemma rstrip_snoc s d : isspace d = false -> rstrip (s ++ [d]) = s ++ [d].
Proof.
  intros Hd. unfold rstrip. rewrite reverse_snoc. cbn [lstrip].
  rewrite Hd, reverse_cons, reverse_involutive. reflexivity.
Qed.

Lemma rstrip_snoc_space s d : isspace d = true -> rstrip (s ++ [d]) = rstrip s.
Proof.
  intros Hd. unfold rstrip. rewrite reverse_snoc. cbn [lstrip].
  rewrite Hd. reflexivity.
Qed.

Lemma strip_framed s : framed s -> strip s = s.
Proof.
  intros [(c & t & -> & Hc) (t' & d & Ht & Hd)].
  unfold strip. cbn [lstrip]. rewrite Hc, Ht. apply rstrip_snoc, Hd.
Qed.

Lemma strip_framed_line_feed s : framed s -> strip (s ++ [10]) = s.
Proof.
  intros Hs. pose proof (strip_framed s Hs) as Hstrip.
  destruct Hs as [(c & t & -> & Hc) _].
  unfold strip in *. cbn [app lstrip] in *. rewrite Hc in *.
  change (c :: t ++ [10]) with ((c :: t) ++ [10]).
  rewrite rstrip_snoc_space by reflexivity. exact Hstrip.
Qed.

Lemma nonblank_framed s : framed s -> nonblank s = true.
Proof.
  intros Hs. unfold nonblank. rewrite (strip_framed s Hs).
  destruct Hs as [(c & t & -> & _) _]. reflexivity.
Qed.

Lemma framed_join (lines : list pystr) :
  lines <> [] -> Forall framed lines -> framed (join [10] lines).
Proof.
  intros Hne Hl. split.
  - destruct Hl as [|l rest [(c & t & -> & Hc) _] _]; [done|].
    destruct rest as [|l2 rest]; [by exists c, t|].
    exists c, (t ++ 10 :: join [10] (l2 :: rest)). by split.
  - induction Hl as [|l rest Hl Hrest IH]; [done|].
    destruct rest as [|l2 rest]; [apply Hl|].
    destruct IH as (t & d & Ht & Hd); [done|].
    exists (l ++ 10 :: t), d. split; [|exact Hd].
    change (join [10] (l :: l2 :: rest))
      with (l ++ 10 :: join [10] (l2 :: rest)).
    rewrite Ht, <- app_assoc. reflexivity.
Qed.

Lemma is_word_spec s :
  is_word s = true -> s <> [] /\ Forall (fun c => isspace c = false) s.
Proof.
  intros H. split; [intros ->; discriminate|].
  assert (forallb (fun c => negb (isspace c)) s = true) as Hf
    by (destruct s; [discriminate|exact H]).
  clear H. induction s as [|c s IH]; constructor.
  - cbn in Hf. apply andb_prop in Hf as [Hc _].
    by apply negb_true_iff in Hc.
  - apply IH. cbn in Hf. by apply andb_prop in Hf as [_ ?].
Qed.

Lemma forallb_differs (x : Z) s :
  forallb (fun c => negb (c =? x)) s = true -> Forall (fun c => c <> x) s.
Proof.
  induction s as [|c s IH]; intros Hf; constructor;
    cbn in Hf; apply andb_prop in Hf as [Hc Hs].
  - apply negb_true_iff in Hc. by apply Z.eqb_neq.
  - by apply IH.
Qed.

Lemma nonspace_not_line_feed s :
  Forall (fun c => isspace c = false) s -> Forall (fun c => c <> 10) s.
Proof.
  intros H. eapply Forall_impl; [exact H|].
  intros c Hc ->. discriminate.
Qed.

Lemma word_framed s :
  s <> [] -> Forall (fun c => isspace c = false) s -> framed s.
Proof.
  intros Hne Hs. split.
  - destruct Hs as [|c t Hc _]; [done|]. by exists c, t.
  - destruct (exists_last Hne) as (t & d & ->).
    exists t, d. split; [done|].
    apply Forall_app in Hs as [_ Hd]. by inversion Hd.
Qed.

Lemma is_line_spec s :
  is_line s = true -> framed s /\ Forall (fun c => c <> 10) s.
Proof.
  destruct s as [|c t]; [discriminate|].
  unfold is_line. intros H.
  apply andb_prop in H as [H Hlf]. apply andb_prop in H as [Hc Hd].
  apply negb_true_iff in Hc, Hd. split; [|by apply forallb_differs].
  split; [by exists c, t|].
  exists (removelast (c :: t)), (List.last (c :: t) 32).
  split; [|exact Hd]. by apply app_removelast_last.
Qed.

Section TableRow.
Variable r : table_row.
Hypothesis Hok : row_ok r = true.

Lemma row_columns :
  (row_name r <> [] /\ Forall (fun c => isspace c = false) (row_name r)) /\
  (row_arch r <> [] /\ Forall (fun c => isspace c = false) (row_arch r)) /\
  Forall (fun c => c <> 46) (row_arch r) /\
  (row_version r <> [] /\
   Forall (fun c => isspace c = false) (row_version r)) /\
  (row_repo r <> [] /\ Forall (fun c => isspace c = false) (row_repo r)).
Proof.
  unfold row_ok in Hok.
  apply andb_prop in Hok as [H Hrepo]. apply andb_prop in H as [H Hver].
  apply andb_prop in H as [H Hdot]. apply andb_prop in H as [Hname Harch].
  repeat split;
    try (apply is_word_spec; assumption); by apply forallb_differs.
Qed.

Lemma split_ws_render_row :
  split_ws (render_row r) =
  [row_name r ++ 46 :: row_arch r; row_version r; row_repo r].
Proof.
  destruct row_columns
    as ((Hn1 & Hn2) & (Ha1 & Ha2) & _ & (Hv1 & Hv2) & (Hr1 & Hr2)).
  unfold render_row. change (lit ".") with [46].
  cbn [replicate].
  replace (row_name r ++ [46] ++ row_arch r ++
           (32 :: replicate (row_gap1 r) 32) ++ row_version r ++
           (32 :: replicate (row_gap2 r) 32) ++ row_repo r)
    with ((row_name r ++ 46 :: row_arch r) ++
          32 :: (replicate (row_gap1 r) 32 ++
                 (row_version r ++
                  32 :: (replicate (row_gap2 r) 32 ++ row_repo r))))
    by (rewrite <- !app_assoc; reflexivity).
  rewrite split_ws_word_then_space; [| |
    apply Forall_app; split; [exact Hn2|constructor; [reflexivity|exact Ha2]]
    |reflexivity].
  2: { destruct (row_name r); discriminate. }
  rewrite split_ws_spaces.
  rewrite split_ws_word_then_space by (assumption || reflexivity).
  rewrite split_ws_spaces, split_ws_word by assumption.
  reflexivity.
Qed.

Lemma render_row_framed : framed (render_row r).
Proof.
  destruct row_columns as ((Hn1 & Hn2) & _ & _ & _ & (Hr1 & Hr2)).
  destruct (word_framed _ Hn1 Hn2) as [(c & t & Hn & Hc) _].
  destruct (word_framed _ Hr1 Hr2) as [_ (t' & d & Hr & Hd)].
  unfold render_row. rewrite Hn, Hr. split.
  - eexists c, _. split; [reflexivity|exact Hc].
  - eexists _, d. split; [|exact Hd].
    rewrite !app_assoc. reflexivity.
Qed.

Lemma render_row_no_line_feed : Forall (fun c => c <> 10) (render_row r).
Proof.
  destruct row_columns
    as ((_ & Hn) & (_ & Ha) & _ & (_ & Hv) & (_ & Hr)).
  unfold render_row. rewrite !Forall_app.
  repeat split; try (apply nonspace_not_line_feed; assumption).
  - repeat constructor. discriminate.
  - apply Forall_replicate. discriminate.
  - apply Forall_replicate. discriminate.
Qed.

Lemma startswith_render_row p :
  Forall (fun c => c <> 46) p ->
  startswith p (render_row r) = startswith p (row_name r).
Proof. intros Hp. unfold render_row. by apply startswith_before_dot. Qed.

Lemma parse_update_line_render_row :
  startswith (lit "Last") (row_name r) = false ->
  startswith (lit "Security") (row_name r) = false ->
  Updates.parse_update_line (render_row r) = Some (update_of_row r).
Proof.
  intros HL HS. unfold Updates.parse_update_line.
  rewrite (nonblank_framed _ render_row_framed).
  rewrite !startswith_render_row, HL, HS
    by (repeat constructor; discriminate).
  cbn [negb orb]. rewrite split_ws_render_row.
  destruct row_columns as (_ & _ & Hdot & _).
  rewrite rsplit1_head_app by exact Hdot. reflexivity.
Qed.

Lemma parse_installed_line_render_row :
  startswith (lit "Installed") (row_name r) = false ->
  Packages.parse_installed_line (render_row r) = Some (installed_of_row r).
Proof.
  intros HI. unfold Packages.parse_installed_line.
  rewrite (nonblank_framed _ render_row_framed).
  rewrite !startswith_render_row, HI
    by (repeat constructor; discriminate).
  cbn [negb orb]. rewrite split_ws_render_row.
  destruct row_columns as (_ & _ & Hdot & _).
  rewrite rsplit1_head_app by exact Hdot. reflexivity.
Qed.

End TableRow.

Lemma omap_rendered {A} (parse : pystr -> option A)
    (of_row : table_row -> A) (rows : list table_row) :
  Forall (fun r => parse (render_row r) = Some (of_row r)) rows ->
  omap parse (render_row <$> rows) = of_row <$> rows.
Proof.
  induction 1 as [|r rows Hr _ IH]; [reflexivity|].
  rewrite !fmap_cons. cbn [omap list_omap]. rewrite Hr.
  f_equal. exact IH.
Qed.

Lemma lines_of_print (lines : list pystr) :
  lines <> [] -> Forall framed lines ->
  Forall (Forall (fun c => c <> 10)) lines ->
  split_on 10 (strip (print_lines lines)) = lines.
Proof.
  intros Hne Hf Hlf. unfold print_lines.
  rewrite strip_framed_line_feed by (by apply framed_join).
  by apply split_on_join.
Qed.

Lemma rendered_rows_are_lines (rows : list table_row) :
  Forall (fun r => row_ok r = true) rows ->
  Forall framed (render_row <$> rows) /\
  Forall (Forall (fun c => c <> 10)) (render_row <$> rows).
Proof.
  intros H. rewrite !Forall_fmap. split.
  - eapply Forall_impl; [exact H|]. intros r Hr. by apply render_row_framed.
  - eapply Forall_impl; [exact H|]. intros r Hr.
    by apply render_row_no_line_feed.
Qed.

(** X15. [get_updates_available] reads back the table that
    [dnf check-update] prints: when the command exits with 0 or 100 and
    its output is one row per update ([name.arch], version and repository
    separated by blanks, each row closed by a line feed), the result lists
    the rows in order, with the architecture taken off the name. Rows whose
    name starts with [Last] or [Security] are outside this statement: the
    function skips them. *)
Theorem get_updates_available_reads_table
    (w : world) (r : CompletedProcess) (rows : list table_row) :
  sh w ["dnf"; "check-update"; "--quiet"] = Ok r ->
  returncode r = 0 \/ returncode r = 100 ->
  stdout r = print_lines (render_row <$> rows) ->
  Forall (fun row => update_row_ok row = true) rows ->
  Updates.get_updates_available w = Ok (update_of_row <$> rows).
Proof.
  intros Hsh Hrc Hout Hrows. unfold Updates.get_updates_available.
  rewrite Hsh.
  assert ((returncode r =? 0) || (returncode r =? 100) = true) as ->
    by (destruct Hrc as [-> | ->]; reflexivity).
  rewrite Hout. f_equal.
  destruct rows as [|row rows]; [reflexivity|].
  assert (Forall (fun r => row_ok r = true) (row :: rows)) as Hok.
  { eapply Forall_impl; [exact Hrows|]. intros x Hx.
    unfold update_row_ok in Hx.
    apply andb_prop in Hx as [Hx _]. by apply andb_prop in Hx as [Hx _]. }
  destruct (rendered_rows_are_lines _ Hok) as [Hf Hlf].
  rewrite lines_of_print by done.
  apply omap_rendered.
  eapply Forall_impl; [exact Hrows|]. intros x Hx.
  unfold update_row_ok in Hx.
  apply andb_prop in Hx as [Hx HS]. apply andb_prop in Hx as [Hx HL].
  apply negb_true_iff in HS, HL.
  by apply parse_update_line_render_row.
Qed.

Lemma get_updates_available_reads_table_witness :
  Updates.get_updates_available
    (printing_world 100 (print_lines (render_row <$> [sample_row])))
  = Ok [update_of_row sample_row].
Proof.
  apply (get_updates_available_reads_table
           (printing_world 100 (print_lines (render_row <$> [sample_row])))
           {| returncode := 100;
              stdout := print_lines (render_row <$> [sample_row]) |}
           [sample_row]).
  - reflexivity.
  - right. reflexivity.
  - reflexivity.
  - constructor; [vm_compute; reflexivity|constructor].
Defined.

(** X16. [get_all_packages] never reports the first line of the output of
    [dnf list installed], whatever it holds, and reads every row after it:
    when the command exits with 0 and prints a first line followed by one
    row per package, the result lists exactly those rows in order, with
    the architecture taken off the name. Rows whose name starts with
    [Installed] are outside this statement: the function skips them. *)
Theorem get_all_packages_skips_first_line
    (w : world) (r : CompletedProcess) (header : pystr)
    (rows : list table_row) :
  sh w ["dnf"; "list"; "installed"] = Ok r ->
  returncode r = 0 ->
  is_line header = true ->
  stdout r = print_lines (header :: (render_row <$> rows)) ->
  Forall (fun row => installed_row_ok row = true) rows ->
  Packages.get_all_packages w = Ok (installed_of_row <$> rows).
Proof.
  intros Hsh Hrc Hheader Hout Hrows. unfold Packages.get_all_packages.
  rewrite Hsh, Hrc, Hout. cbn [Z.eqb]. f_equal.
  assert (Forall (fun r => row_ok r = true) rows) as Hok.
  { eapply Forall_impl; [exact Hrows|]. intros x Hx.
    unfold installed_row_ok in Hx. by apply andb_prop in Hx as [Hx _]. }
  destruct (rendered_rows_are_lines _ Hok) as [Hf Hlf].
  destruct (is_line_spec _ Hheader) as [Hhf Hhlf].
  rewrite lines_of_print by (done || by constructor).
  cbn [drop]. apply omap_rendered.
  eapply Forall_impl; [exact Hrows|]. intros x Hx.
  unfold installed_row_ok in Hx. apply andb_prop in Hx as [Hx HI].
  apply negb_true_iff in HI.
  by apply parse_installed_line_render_row.
Qed.

Lemma get_all_packages_skips_first_line_witness :
  Packages.get_all_packages
    (printing_world 0
       (print_lines (render_row sample_row :: (render_row <$> [sample_row]))))
  = Ok [installed_of_row sample_row].
Proof.
  apply (get_all_packages_skips_first_line
           (printing_world 0
              (print_lines
                 (render_row sample_row :: (render_row <$> [sample_row]))))
           {| returncode := 0;
              stdout := print_lines
                (render_row sample_row :: (render_row <$> [sample_row])) |}
           (render_row sample_row) [sample_row]).
  - reflexivity.
  - reflexivity.
  - vm_compute. reflexivity.
  - reflexivity.
  - constructor; [vm_compute; reflexivity|constructor].
Defined.

(** ** The text that the reporter hands to the JSON parser *)

Lemma lstrip_app_nonspace a d b :
  isspace d = false -> lstrip (a ++ d :: b) = lstrip a ++ d :: b.
Proof.
  intros Hd. induction a as [|c a IH]; cbn [app lstrip].
  - rewrite Hd. reflexivity.
  - destruct (isspace c); [exact IH|reflexivity].
Qed.

Lemma rstrip_app_nonspace a d b :
  isspace d = false -> rstrip (a ++ d :: b) = a ++ d :: rstrip b.
Proof.
  intros Hd. unfold rstrip.
  rewrite reverse_app, reverse_cons, <- app_assoc. cbn [app].
  rewrite lstrip_app_nonspace by exact Hd.
  rewrite reverse_app, reverse_cons, reverse_involutive, <- app_assoc.
  reflexivity.
Qed.

Lemma is_blank_spec ws :
  is_blank ws = true -> Forall (fun c => isspace c = true) ws.
Proof.
  induction ws as [|c ws IH]; intros H; constructor;
    cbn in H; apply andb_prop in H as [Hc Hws]; [exact Hc|by apply IH].
Qed.

Lemma lstrip_blank ws : Forall (fun c => isspace c = true) ws -> lstrip ws = [].
Proof.
  induction 1 as [|c ws Hc _ IH]; [reflexivity|].
  cbn [lstrip]. rewrite Hc. exact IH.
Qed.

Lemma rstrip_blank ws : Forall (fun c => isspace c = true) ws -> rstrip ws = [].
Proof.
  intros H. unfold rstrip. rewrite lstrip_blank; [reflexivity|].
  by apply Forall_reverse.
Qed.

Lemma strip_padded ws0 m ws3 :
  framed m -> is_blank ws0 = true -> is_blank ws3 = true ->
  strip (ws0 ++ m ++ ws3) = m.
Proof.
  intros [(c & t & Hm & Hc) (t' & d & Hm' & Hd)] H0 H3.
  apply is_blank_spec in H0, H3. unfold strip.
  rewrite Hm. cbn [app]. rewrite lstrip_app_nonspace by exact Hc.
  rewrite (lstrip_blank _ H0). cbn [app].
  change (c :: t ++ ws3) with ((c :: t) ++ ws3). rewrite <- Hm, Hm'.
  rewrite <- app_assoc. cbn [app].
  rewrite rstrip_app_nonspace by exact Hd.
  rewrite (rstrip_blank _ H3). reflexivity.
Qed.

Lemma Forall_lstrip (P : Z -> Prop) s : Forall P s -> Forall P (lstrip s).
Proof.
  induction 1 as [|c s Hc Hs IH]; [constructor|].
  cbn [lstrip]. destruct (isspace c); [exact IH|by constructor].
Qed.

Lemma Forall_rstrip (P : Z -> Prop) s : Forall P s -> Forall P (rstrip s).
Proof.
  intros H. unfold rstrip. by apply Forall_reverse, Forall_lstrip, Forall_reverse.
Qed.

Lemma startswith_app_self p q : startswith p (p ++ q) = true.
Proof.
  induction p as [|a p IH]; [reflexivity|].
  cbn [app startswith]. rewrite Z.eqb_refl. exact IH.
Qed.

Lemma find_index_eq sub s :
  find_index sub s =
  if startswith sub s then Some 0%nat
  else match s with
       | [] => None
       | _ :: s' => S <$> find_index sub s'
       end.
Proof. destruct s; reflexivity. Qed.

Lemma find_index_after x sub a rest :
  Forall (fun c => c <> x) a ->
  startswith (x :: sub) rest = true ->
  find_index (x :: sub) (a ++ rest) = Some (length a).
Proof.
  intros Ha Hrest. induction Ha as [|c a Hc Ha IH].
  - cbn [app]. rewrite find_index_eq, Hrest. reflexivity.
  - rewrite find_index_eq. cbn [app startswith].
    assert ((x =? c) = false) as -> by (apply Z.eqb_neq; congruence).
    cbn [andb]. rewrite IH. reflexivity.
Qed.

Lemma rfind_index_none x sub s :
  Forall (fun c => c <> x) s -> rfind_index (x :: sub) s = None.
Proof.
  induction 1 as [|c s Hc Hs IH]; [reflexivity|].
  cbn [rfind_index startswith]. rewrite IH.
  assert ((x =? c) = false) as -> by (apply Z.eqb_neq; congruence).
  reflexivity.
Qed.

Lemma rfind_index_app sub a rest i :
  rfind_index sub rest = Some i ->
  rfind_index sub (a ++ rest) = Some (length a + i)%nat.
Proof.
  intros H. induction a as [|c a IH]; [exact H|].
  cbn [app rfind_index]. rewrite IH. reflexivity.
Qed.

Lemma rfind_index_before x a rest :
  Forall (fun c => c <> x) rest ->
  rfind_index [x] (a ++ x :: rest) = Some (length a).
Proof.
  intros Hrest. rewrite (rfind_index_app _ _ _ 0%nat); [f_equal; lia|].
  cbn [rfind_index startswith]. rewrite rfind_index_none by exact Hrest.
  rewrite Z.eqb_refl. reflexivity.
Qed.

Lemma contains_none x sub s :
  Forall (fun c => c <> x) s -> contains (x :: sub) s = false.
Proof.
  induction 1 as [|c s Hc Hs IH]; [reflexivity|].
  cbn [contains startswith]. rewrite IH.
  assert ((x =? c) = false) as -> by (apply Z.eqb_neq; congruence).
  reflexivity.
Qed.

Lemma contains_here sub s : startswith sub s = true -> contains sub s = true.
Proof. intros H. destruct s; cbn [contains]; rewrite H; reflexivity. Qed.

Lemma slice_middle (a m b : pystr) :
  slice (a ++ m ++ b) (Z.of_nat (length a)) (Z.of_nat (length a + length m))
  = m.
Proof.
  unfold slice. rewrite Nat2Z.id.
  replace (Z.to_nat (Z.of_nat (length a + length m) - Z.of_nat (length a)))
    with (length m) by lia.
  rewrite drop_app_length, take_app_length. reflexivity.
Qed.

(** The last step of the extraction, on a text whose first opening brace
    and last closing brace delimit [in_braces body]. *)
Lemma brace_slice (c1 body c2 : pystr) :
  Forall (fun c => c <> 123) c1 -> Forall (fun c => c <> 125) c2 ->
  (if negb (find [123] (c1 ++ in_braces body ++ c2) 0 =? -1)
      && negb (rfind [125] (c1 ++ in_braces body ++ c2) =? -1)
   then slice (c1 ++ in_braces body ++ c2)
          (find [123] (c1 ++ in_braces body ++ c2) 0)
          (rfind [125] (c1 ++ in_braces body ++ c2) + 1)
   else c1 ++ in_braces body ++ c2) = in_braces body.
Proof.
  intros H1 H2.
  assert (find [123] (c1 ++ in_braces body ++ c2) 0 = Z.of_nat (length c1))
    as ->.
  { unfold find. rewrite drop_0, find_index_after by done. reflexivity. }
  assert (rfind [125] (c1 ++ in_braces body ++ c2)
          = Z.of_nat (length c1 + length body + 1)) as ->.
  { unfold rfind, in_braces. change (lit "{") with [123].
    change (lit "}") with [125].
    replace (c1 ++ ([123] ++ body ++ [125]) ++ c2)
      with ((c1 ++ 123 :: body) ++ 125 :: c2)
      by (rewrite <- !app_assoc; reflexivity).
    rewrite rfind_index_before by exact H2.
    rewrite !length_app. cbn [length]. f_equal. lia. }
  assert ((Z.of_nat (length c1 + length body + 1) =? -1) = false) as ->
    by (apply Z.eqb_neq; lia).
  assert ((Z.of_nat (length c1) =? -1) = false) as ->
    by (apply Z.eqb_neq; lia).
  cbn [negb andb].
  replace (Z.of_nat (length c1 + length body + 1) + 1)
    with (Z.of_nat (length c1 + length (in_braces body)))
    by (unfold in_braces; change (lit "{") with [123];
        change (lit "}") with [125]; rewrite !length_app; cbn [length]; lia).
  apply slice_middle.
Qed.

Lemma lacks_spec x s : lacks x s = true -> Forall (fun c => c <> x) s.
Proof. apply forallb_differs. Qed.

Lemma blank_lacks x ws :
  isspace x = false -> is_blank ws = true -> Forall (fun c => c <> x) ws.
Proof.
  intros Hx Hws. apply is_blank_spec in Hws.
  eapply Forall_impl; [exact Hws|]. intros c Hc ->. congruence.
Qed.

Lemma in_braces_lacks x body :
  x <> 123 -> x <> 125 -> Forall (fun c => c <> x) body ->
  Forall (fun c => c <> x) (in_braces body).
Proof.
  intros H1 H2 Hb. unfold in_braces. change (lit "{") with [123].
  change (lit "}") with [125]. rewrite !Forall_app.
  repeat split; [|exact Hb|]; repeat constructor; congruence.
Qed.

Lemma in_braces_framed body : framed (in_braces body).
Proof.
  unfold in_braces. change (lit "{") with [123].
  change (lit "}") with [125]. split.
  - by exists 123, (body ++ [125]).
  - exists (123 :: body), 125. by split.
Qed.

Lemma strip_around_braces c1 body c2 :
  strip (c1 ++ in_braces body ++ c2)
  = lstrip c1 ++ in_braces body ++ rstrip c2.
Proof.
  unfold strip, in_braces. change (lit "{") with [123].
  change (lit "}") with [125].
  rewrite <- !app_assoc. cbn [app].
  rewrite lstrip_app_nonspace by reflexivity.
  replace (lstrip c1 ++ 123 :: body ++ 125 :: c2)
    with ((lstrip c1 ++ 123 :: body) ++ 125 :: c2)
    by (rewrite <- app_assoc; reflexivity).
  rewrite rstrip_app_nonspace by reflexivity.
  rewrite <- app_assoc. reflexivity.
Qed.

(** X17. From a response without a markdown fence, [chamar_gemini] hands
    to the JSON parser exactly the text from the first opening brace to the
    last closing brace: what the model wrote before the object (without an
    opening brace) and after it (without a closing brace) is dropped. *)
Theorem extract_json_text_plain (c1 body c2 : pystr) :
  lacks 96 (c1 ++ body ++ c2) = true ->
  lacks 123 c1 = true ->
  lacks 125 c2 = true ->
  Reporter.extract_json_text (c1 ++ in_braces body ++ c2) = in_braces body.
Proof.
  intros Hq H1 H2. apply lacks_spec in Hq, H1, H2.
  apply Forall_app in Hq as [Hq1 Hq]. apply Forall_app in Hq as [Hqb Hq2].
  unfold Reporter.extract_json_text. cbv zeta.
  rewrite strip_around_braces.
  assert (Forall (fun c => c <> 96)
            (lstrip c1 ++ in_braces body ++ rstrip c2)) as Hq'.
  { rewrite !Forall_app. repeat split.
    - by apply Forall_lstrip.
    - by apply in_braces_lacks.
    - by apply Forall_rstrip. }
  change Reporter.fence_json with (96 :: lit "``json").
  change Reporter.fence with (96 :: lit "``").
  rewrite !contains_none by exact Hq'.
  apply brace_slice; [by apply Forall_lstrip|by apply Forall_rstrip].
Qed.

Lemma extract_json_text_plain_witness :
  Reporter.extract_json_text
    (lit "Here it is: " ++ in_braces (lit "a: {b: 1}") ++ lit " Done.")
  = in_braces (lit "a: {b: 1}").
Proof.
  apply (extract_json_text_plain (lit "Here it is: ") (lit "a: {b: 1}")
           (lit " Done.")); vm_compute; reflexivity.
Defined.

(** X18. From a response that is a fenced block tagged [json] holding one
    object in braces, with any white space around the fences and around
    the object, [chamar_gemini] hands exactly the object to the JSON
    parser, as long as the object has no backquote. *)
Theorem extract_json_text_fenced (ws0 ws1 body ws2 ws3 : pystr) :
  is_blank ws0 = true -> is_blank ws1 = true ->
  is_blank ws2 = true -> is_blank ws3 = true ->
  lacks 96 body = true ->
  Reporter.extract_json_text
    (ws0 ++ (Reporter.fence_json ++ (ws1 ++ in_braces body ++ ws2)
             ++ Reporter.fence) ++ ws3)
  = in_braces body.
Proof.
  intros H0 H1 H2 H3 Hq. apply lacks_spec in Hq.
  set (A := ws1 ++ in_braces body ++ ws2).
  set (M := Reporter.fence_json ++ A ++ Reporter.fence).
  assert (Forall (fun c => c <> 96) A) as HA.
  { unfold A. rewrite !Forall_app. repeat split.
    - by apply blank_lacks.
    - by apply in_braces_lacks.
    - by apply blank_lacks. }
  assert (2 <= length A)%nat as HlenA.
  { unfold A, in_braces. change (lit "{") with [123].
    change (lit "}") with [125]. rewrite !length_app. cbn [length]. lia. }
  assert (framed M) as HM.
  { split.
    - by exists 96, (lit "``json" ++ A ++ Reporter.fence).
    - exists (Reporter.fence_json ++ A ++ lit "``"), 96. split; [|done].
      unfold M. rewrite <- !app_assoc. reflexivity. }
  unfold Reporter.extract_json_text. cbv zeta.
  rewrite (strip_padded ws0 M ws3 HM H0 H3).
  assert (contains Reporter.fence_json M = true) as ->
    by apply contains_here, startswith_app_self.
  assert (find Reporter.fence_json M 0 = 0) as ->.
  { unfold find. rewrite drop_0, find_index_eq.
    unfold M. rewrite startswith_app_self. reflexivity. }
  change (0 + 7) with 7. change (Z.to_nat 7) with (length Reporter.fence_json).
  assert (find Reporter.fence M (length Reporter.fence_json)
          = Z.of_nat (length Reporter.fence_json + length A)) as ->.
  { unfold find, M. rewrite drop_app_length.
    change Reporter.fence with (96 :: lit "``").
    rewrite find_index_after by done. reflexivity. }
  assert ((7 <? Z.of_nat (length Reporter.fence_json + length A)) = true)
    as ->.
  { apply Z.ltb_lt. change (length Reporter.fence_json) with 7%nat. lia. }
  change 7 with (Z.of_nat (length Reporter.fence_json)).
  unfold M. rewrite slice_middle.
  unfold A. rewrite (strip_padded ws1 _ ws2 (in_braces_framed body) H1 H2).
  pose proof (brace_slice [] body [] (Forall_nil_2 _) (Forall_nil_2 _)) as Hb.
  cbn [app] in Hb. rewrite app_nil_r in Hb. exact Hb.
Qed.

Lemma extract_json_text_fenced_witness :
  Reporter.extract_json_text
    ([] ++ (Reporter.fence_json ++ ([10] ++ in_braces (lit "a: 1") ++ [10])
            ++ Reporter.fence) ++ [10])
  = in_braces (lit "a: 1").
Proof.
  apply (extract_json_text_fenced [] [10] (lit "a: 1") [10] [10]);
    vm_compute; reflexivity.
Defined.

(** ** The summary printed for a generated report *)

(** The size of the cache in the merged metrics is a number. *)
Lemma collected_cache_size_number config w :
  match Analyzer.collect_all_metrics config w with
  | Ok metrics =>
      exists size h,
        Analyzer.get2 metrics "cache" "total_size_mb" (VInt 0) = Ok size /\
        hundredths_of size = Some h
  | Raise e => uncaught e
  end.
Proof.
  unfold Analyzer.collect_all_metrics, Analyzer.collect_all_metrics_with.
  cbn [Analyzer.modules Analyzer.packages_collect Analyzer.updates_collect
       Analyzer.orphans_collect Analyzer.cache_collect
       Analyzer.dependencies_collect].
  pose proof (collect_package_metrics_shape config w) as Hp.
  destruct (Packages.collect_package_metrics config w) as [pv|e];
    [rewrite collect_into_ok|rewrite collect_into_uncaught; auto].
  destruct Hp as (counts & psize & lp & ap & -> & Hcount). cbn.
  pose proof (collect_update_metrics_shape config w) as Hu.
  destruct (Updates.collect_update_metrics config w) as [uv|e];
    [rewrite collect_into_ok|rewrite collect_into_uncaught; auto].
  destruct Hu as (tu & su & ul & sl & ->). cbn.
  pose proof (collect_orphan_metrics_shape config w) as Ho.
  destruct (Orphans.collect_orphan_metrics config w) as [ov|e];
    [rewrite collect_into_ok|rewrite collect_into_uncaught; auto].
  destruct Ho as (oc & ol & ac & al & ->). cbn.
  pose proof (collect_cache_metrics_fields config w) as Hc.
  destruct (Cache.collect_cache_metrics config w) as [cv|e];
    [rewrite collect_into_ok|rewrite collect_into_uncaught; auto].
  destruct Hc as (size & h & cc & Hsize & Hh & Hcc & _). cbn.
  pose proof (collect_dependency_metrics_shape config w) as Hd.
  destruct (Dependencies.collect_dependency_metrics config w) as [dv|e];
    [rewrite collect_into_ok|rewrite collect_into_uncaught; auto].
  destruct Hd as (bn & bl & dn & dl & hi & ->). cbn.
  destruct cv as [| | | | | |cd]; try discriminate. cbn in Hsize, Hcc.
  exists size, h. split; [|exact Hh].
  unfold Analyzer.get2. cbn. rewrite Hsize. reflexivity.
Qed.

(** Every issue that the rules add has the three keys of [issue]. *)
Lemma derive_issues_shape (metrics : pyval)
    (total_updates security_updates orphaned_count : Z)
    (can_clean has_issues : bool) :
  metrics_fields metrics total_updates security_updates orphaned_count
                 can_clean has_issues ->
  exists issues,
    Analyzer.derive_issues metrics = Ok issues /\
    Forall (fun i => exists t s m, i = Analyzer.issue t s m) issues.
Proof.
  intros (Hu & Hs & Ho & Hc & Hd & Hsize). unfold Analyzer.derive_issues.
  rewrite Hu. cbn.
  destruct (0 <? total_updates) eqn:Eu;
    [rewrite (get2_int_above _ _ _ _ _ Hu Eu) by lia|]; cbn;
  rewrite Hs; cbn;
  (destruct (0 <? security_updates) eqn:Es;
    [rewrite (get2_int_above _ _ _ _ _ Hs Es) by lia|]); cbn;
  rewrite Ho; cbn;
  (destruct (10 <? orphaned_count) eqn:Eo;
    [rewrite (get2_int_above _ _ _ _ _ Ho Eo) by lia|]); cbn;
  rewrite Hc; cbn;
  (destruct can_clean;
    [destruct (Hsize eq_refl) as [size ->]|]); cbn;
  rewrite Hd; cbn;
  destruct has_issues; cbn;
  (eexists; split; [reflexivity|]);
  repeat (constructor; [eexists _, _, _; reflexivity|]); constructor.
Qed.

Lemma print_issues_ok (issues : list pyval) :
  Forall (fun i => exists t s m, i = Analyzer.issue t s m) issues ->
  Analyzer.print_issues issues = Ok ().
Proof.
  induction 1 as [|i issues (t & sv & m & ->) _ IH]; [reflexivity|].
  cbn. exact IH.
Qed.

Lemma format_1f_number (v : pyval) (h : Z) :
  hundredths_of v = Some h -> Analyzer.format_1f v = Ok ().
Proof. destruct v; try discriminate; reflexivity. Qed.

Lemma print_summary_generated config w s report :
  (Analyzer.generate_report config w s).1 = Ok report ->
  Analyzer.print_summary report = Ok ().
Proof.
  unfold Analyzer.generate_report, Analyzer.generate_report_with.
  cbn [Analyzer.datetime_now fst].
  pose proof (collected_metrics_fields config w) as Hm.
  pose proof (collected_cache_size_number config w) as Hn.
  unfold Analyzer.collect_all_metrics in Hm, Hn.
  destruct (Analyzer.collect_all_metrics_with Analyzer.modules config w)
    as [metrics|e]; [|discriminate].
  destruct Hm as (counts & tu & su & oc & cc & hi & Hf & _ & Htp & _).
  destruct Hn as (size & h & Hsz & Hh).
  destruct (derive_issues_shape metrics tu su oc cc hi Hf)
    as (issues & Hi & Hshape).
  pose proof Hf as (Hu & _).
  cbn. unfold Analyzer.build_report. rewrite Hi. cbn.
  destruct (get metrics "packages" (VDict [])) as [sub|]; [|discriminate].
  cbn in Htp |- *.
  destruct (get sub "summary" (VDict [])) as [summary|]; [|discriminate].
  cbn in Htp |- *. rewrite Htp. cbn. rewrite Hu. cbn. rewrite Hsz. cbn.
  intros [= <-]. unfold Analyzer.print_summary. cbn.
  rewrite (format_1f_number _ _ Hh). cbn.
  apply print_issues_ok. by apply Forall_take.
Qed.

(** X19. [print_summary] never fails on a report that [generate_report]
    built from the collectors of the repository: the cache size of its
    summary is a number and each of its issues has a severity and a
    message. Only an exception that is not an [Exception] (an interrupt or
    an exit raised while collecting) keeps a report from being built. *)
Theorem print_summary_of_generated_report
    (config : pyval) (w : world) (s : Analyzer.state) :
  match (Analyzer.generate_report config w s).1 with
  | Ok report => Analyzer.print_summary report = Ok ()
  | Raise e => uncaught e
  end.
Proof.
  pose proof (print_summary_generated config w s) as Hp.
  pose proof (generate_report_summary config w s) as Hg.
  destruct (Analyzer.generate_report config w s).1 as [report|e].
  - by apply Hp.
  - exact Hg.
Qed.

(** X20. Nothing fails after the report is saved: when the configuration
    is loaded, the report is generated and [save_report] has written it,
    a run of [main] without a session exits with status 0. *)
Theorem main_exits_0_once_saved (w : world) (s s1 s2 : Analyzer.state)
    (config report : pyval) (path : pystr) :
  Analyzer.load_config w = Ok config ->
  Analyzer.generate_report config w s = (Ok report, s1) ->
  Analyzer.save_report report config w s1 = (Ok path, s2) ->
  exit_status (Analyzer.main None w s).1 = 0.
Proof.
  intros Hconfig Hgen Hsave.
  pose proof (print_summary_generated config w s report) as Hp.
  rewrite Hgen in Hp. specialize (Hp eq_refl).
  unfold Analyzer.main, Analyzer.main_with. rewrite Hconfig.
  unfold Analyzer.main_try_with.
  unfold Analyzer.generate_report in Hgen. rewrite Hgen.
  cbn [Analyzer.session_mode]. rewrite Hsave. cbn. rewrite Hp.
  reflexivity.
Qed.

Lemma main_exits_0_once_saved_witness :
  exit_status (Analyzer.main None (silent_world 0 []) initial_state).1 = 0.
Proof.
  eapply (main_exits_0_once_saved (silent_world 0 []) initial_state);
    vm_compute; reflexivity.
Defined.

(** ** Flags and counters of the dependency metrics *)


(** ** The question at the end of the reporter *)

(** X22. The loop at the end of the reporter's [main] asks again after
    every answer that is neither a yes nor a no: such answers change
    nothing, and what the loop does is decided by the answers after them.
    With no answer left, [input] raises [EOFError]. *)
Theorem ask_open_asks_again (ss : Reporter.session)
    (junk rest : list (result pystr)) :
  Forall (fun a => ignored_answer a = true) junk ->
  Reporter.ask_open ss (junk ++ rest) = Reporter.ask_open ss rest /\
  exists msg, Reporter.ask_open ss junk = Raise (Exception "EOFError" msg).
Proof.
  intros Hjunk. split.
  - induction Hjunk as [|a junk Ha _ IH]; [reflexivity|].
    destruct a as [line|e]; [|discriminate].
    unfold ignored_answer in Ha.
    apply andb_prop in Ha as [Ha Hno]. apply andb_prop in Ha as [_ Hyes].
    apply negb_true_iff in Hno, Hyes.
    cbn [app Reporter.ask_open]. rewrite Hyes, Hno. exact IH.
  - induction Hjunk as [|a junk Ha _ IH]; [eexists; reflexivity|].
    destruct a as [line|e]; [|discriminate].
    unfold ignored_answer in Ha.
    apply andb_prop in Ha as [Ha Hno]. apply andb_prop in Ha as [_ Hyes].
    apply negb_true_iff in Hno, Hyes.
    cbn [Reporter.ask_open]. rewrite Hyes, Hno. exact IH.
Qed.

Lemma ask_open_asks_again_witness :
  Reporter.ask_open sample_session
    ([Ok (lit "maybe"); Ok []] ++ [Ok (lit " SIM ")])
  = Reporter.ask_open sample_session [Ok (lit " SIM ")] /\
  exists msg,
    Reporter.ask_open sample_session [Ok (lit "maybe"); Ok []]
    = Raise (Exception "EOFError" msg).
Proof.
  apply (ask_open_asks_again sample_session [Ok (lit "maybe"); Ok []]
           [Ok (lit " SIM ")]).
  repeat constructor.
Defined.
